(** * NYC Taxi Pulse: the loading pipeline and the dashboard filter

    A shallow embedding of [src/data_loader.py] (class [DataLoader] and
    [load_all_data]) and of the start-up code and callbacks of [app.py].

    Conventions of the embedding.
    - A pandas DataFrame is the list of its rows, in row order; a column is a
      record field.  Columns a stage adds are the fields of a new record
      wrapping the previous stage's row.
    - A float column is [option Q]: [None] is NaN (a missing value), and a
      comparison with NaN is false, as in pandas.  Finite doubles are read as
      the rationals they denote.
    - A timestamp is the number of seconds since 1970-01-01T00:00:00; a date
      is the number of days since 1970-01-01.
    - Printing, the file system, the network and numpy's random generator
      are explicit: a [World] is threaded through a state-and-exception
      monad, and what the program cannot decide (what a request returns,
      whether a file can be written, which numbers the generator draws) is
      read from an [Env]. *)

From Stdlib Require Import QArith Qround Ascii.
From stdpp Require Import base option list gmap strings pretty sorting.

Local Open Scope string_scope.
Local Open Scope list_scope.
Local Open Scope Z_scope.

Set Warnings "-clear-no-such-hyp".

(** ** Numbers *)

Module Num.

(** A float column cell: [None] is NaN. *)
Definition float := option Q.

Definition Qltb (a b : Q) : bool := negb (Qle_bool b a).
Definition Qleb (a b : Q) : bool := Qle_bool a b.

(** [x > lo] and [x <= hi] on a cell; NaN compares false. *)
Definition gt (x : float) (lo : Q) : bool :=
  match x with Some q => Qltb lo q | None => false end.
Definition le (x : float) (hi : Q) : bool :=
  match x with Some q => Qleb q hi | None => false end.

(** Rounding to the nearest integer, ties to even (numpy's [rint]). *)
Definition round_half_even (q : Q) : Z :=
  let n := Qnum q in
  let d := Z.pos (Qden q) in
  let f := n / d in
  let r := n mod d in
  if 2 * r <? d then f
  else if d <? 2 * r then f + 1
  else if Z.even f then f else f + 1.

(** [x.round(k)]: round to [k] decimals. *)
Definition round_dp (k : nat) (q : Q) : Q :=
  let s := Z.pow 10 (Z.of_nat k) in
  Qred (Qmake (round_half_even (q * inject_Z s)) (Z.to_pos s)).

Definition fround (k : nat) (x : float) : float := round_dp k <$> x.

(** Float division of two cells; a zero divisor gives no finite value. *)
Definition fdiv (a b : float) : float :=
  match a, b with
  | Some x, Some y => if Qeq_bool y 0 then None else Some (x / y)%Q
  | _, _ => None
  end.

Definition fmul (a : float) (k : Q) : float := (fun x => x * k)%Q <$> a.

(** Column reductions, skipping NaN as pandas does. *)
Definition nansum (xs : list float) : Q :=
  Qred (foldr (fun x acc => match x with Some q => q + acc | None => acc end)%Q 0%Q xs).
Definition count_valid (xs : list float) : nat :=
  length (filter (fun x : float => is_Some x) xs).
Definition nanmean (xs : list float) : float :=
  match count_valid xs with
  | O => None
  | n => Some (Qred (nansum xs / inject_Z (Z.of_nat n)))%Q
  end.

End Num.

(** ** Calendar fields of a timestamp *)

Module Calendar.

Definition date_of (ts : Z) : Z := ts / 86400.
Definition hour_of (ts : Z) : Z := (ts mod 86400) / 3600.
(** [.dt.floor('h')] *)
Definition floor_hour (ts : Z) : Z := ts - ts mod 3600.

Definition day_names : list string :=
  ["Monday"; "Tuesday"; "Wednesday"; "Thursday"; "Friday"; "Saturday"; "Sunday"].

(** 1970-01-01 was a Thursday. *)
Definition day_name (days : Z) : string :=
  nth (Z.to_nat ((days + 3) mod 7)) day_names "Monday".

(** Proleptic Gregorian (year, month, day) of a day number. *)
Definition civil_of_days (days : Z) : Z * Z * Z :=
  let z := days + 719468 in
  let era := z / 146097 in
  let doe := z - era * 146097 in
  let yoe := (doe - doe / 1460 + doe / 36524 - doe / 146096) / 365 in
  let y := yoe + era * 400 in
  let doy := doe - (365 * yoe + yoe / 4 - yoe / 100) in
  let mp := (5 * doy + 2) / 153 in
  let d := doy - (153 * mp + 2) / 5 + 1 in
  let m := if mp <? 10 then mp + 3 else mp - 9 in
  (if m <=? 2 then y + 1 else y, m, d).

Definition days_of_civil (y m d : Z) : Z :=
  let y' := if m <=? 2 then y - 1 else y in
  let era := y' / 400 in
  let yoe := y' - era * 400 in
  let doy := (153 * (if 2 <? m then m - 3 else m + 9) + 2) / 5 + d - 1 in
  let doe := yoe * 365 + yoe / 4 - yoe / 100 + doy in
  era * 146097 + doe - 719468.

Definition month_of (ts : Z) : Z :=
  let '(_, m, _) := civil_of_days (date_of ts) in m.

Definition dayofyear (days : Z) : Z :=
  let '(y, _, _) := civil_of_days days in days - days_of_civil y 1 1 + 1.

End Calendar.

(** ** Rows *)

(** The thirteen columns read from the parquet file. *)
Record RawRow := mkRaw {
  tpep_pickup_datetime : option Z;
  tpep_dropoff_datetime : option Z;
  passenger_count : Num.float;
  trip_distance : Num.float;
  fare_amount : Num.float;
  extra : Num.float;
  mta_tax : Num.float;
  tip_amount : Num.float;
  tolls_amount : Num.float;
  total_amount : Num.float;
  payment_type : option Z;
  PULocationID : Z;
  DOLocationID : Z
}.

(** A row whose two timestamps survived [dropna] and were parsed. *)
Record TimedRow := mkTimed {
  timed_raw :> RawRow;
  pickup : Z;
  dropoff : Z
}.

(** A row of the table [_clean_taxi_data] returns. *)
Record CleanRow := mkClean {
  clean_timed :> TimedRow;
  date : Z;
  hour : Z;
  day_of_week : string;
  month : Z;
  trip_duration_minutes : Q;
  tip_percentage : Num.float;
  price_per_mile : Num.float;
  payment_type_name : string
}.

(** A row after [enrich_taxi_data_with_zones]. *)
Record ZonedRow := mkZoned {
  zoned_clean :> CleanRow;
  pickup_zone : string;
  pickup_borough : string;
  dropoff_zone : string;
  dropoff_borough : string
}.

(** A row of the weather table. *)
Record WeatherRow := mkWeather {
  w_date : Z;
  w_temperature : Q;
  w_is_rainy : bool;
  w_precipitation_inches : Q
}.

(** A row after the left join with the weather table: the three weather
    cells are null where no weather row matched. *)
Record MergedRow := mkMerged {
  merged_zoned :> ZonedRow;
  temperature : option Q;
  is_rainy : option bool;
  precipitation_inches : option Q
}.

(** A row of the shared trip table ([data['raw']]): [create_aggregations]
    adds [date_hour] to the table it is given, in place. *)
Record TripRow := mkTrip {
  trip_merged :> MergedRow;
  date_hour : Z
}.

(** ** [DataLoader._clean_taxi_data] *)

Module Clean.

(** [df.dropna(subset=[pickup, dropoff])] followed by [pd.to_datetime]. *)
Definition dropna_datetimes (df : list RawRow) : list TimedRow :=
  omap (fun r =>
          match tpep_pickup_datetime r, tpep_dropoff_datetime r with
          | Some p, Some d => Some (mkTimed r p d)
          | _, _ => None
          end) df.

Definition fare_ok (r : RawRow) : bool :=
  Num.gt (fare_amount r) 0 && Num.le (fare_amount r) 300.
Definition distance_ok (r : RawRow) : bool :=
  Num.gt (trip_distance r) 0 && Num.le (trip_distance r) 100.
Definition passengers_ok (r : RawRow) : bool :=
  Num.gt (passenger_count r) 0 && Num.le (passenger_count r) 8.

Definition payment_map : gmap Z string :=
  <[1 := "Credit Card"]> (<[2 := "Cash"]> (<[3 := "No Charge"]>
    (<[4 := "Dispute"]> (<[5 := "Unknown"]> ∅)))).

(** [df['payment_type'].map(payment_map).fillna('Unknown')] on one cell. *)
Definition payment_name (code : option Z) : string :=
  default "Unknown" (code ≫= fun c => payment_map !! c).

(** [(dropoff - pickup).dt.total_seconds() / 60], rounded to 2 places. *)
Definition duration_minutes (p d : Z) : Q :=
  Num.round_dp 2 (inject_Z (d - p) / 60)%Q.

(** The derived columns of one row. *)
Definition derive (r : TimedRow) : CleanRow :=
  {| clean_timed := r;
     date := Calendar.date_of (pickup r);
     hour := Calendar.hour_of (pickup r);
     day_of_week := Calendar.day_name (Calendar.date_of (pickup r));
     month := Calendar.month_of (pickup r);
     trip_duration_minutes := duration_minutes (pickup r) (dropoff r);
     tip_percentage :=
       Num.fround 2 (Num.fmul (Num.fdiv (tip_amount r) (fare_amount r)) 100);
     price_per_mile :=
       Num.fround 2 (Num.fdiv (fare_amount r) (trip_distance r));
     payment_type_name := payment_name (payment_type r) |}.

Definition duration_ok (r : CleanRow) : bool :=
  Num.Qltb 0 (trip_duration_minutes r) && Num.Qleb (trip_duration_minutes r) 480.

Definition _clean_taxi_data (df : list RawRow) : list CleanRow :=
  let df := dropna_datetimes df in
  let df := filter (fun r : TimedRow => fare_ok r) df in
  let df := filter (fun r : TimedRow => distance_ok r) df in
  let df := filter (fun r : TimedRow => passengers_ok r) df in
  let df := derive <$> df in
  filter (fun r : CleanRow => duration_ok r) df.

End Clean.

(** ** Zones: [create_zone_lookup] and [enrich_taxi_data_with_zones] *)

Module Zones.

(** A JSON scalar used as a zone identifier: the lookup is keyed by
    whatever [props.get('zone_id')] returns. *)
Inductive prop_value :=
  | PNum (n : Z)
  | PStr (s : string).

#[export] Instance prop_value_eq_dec : EqDecision prop_value.
Proof. solve_decision. Defined.

#[export] Instance prop_value_countable : Countable prop_value.
Proof.
  refine (inj_countable'
            (fun v => match v with PNum n => inl n | PStr s => inr s end)
            (fun x => match x with inl n => PNum n | inr s => PStr s end) _).
  by intros [].
Defined.

(** The three properties of a feature the loader reads; [None] is a key
    that [feature['properties']] does not have. *)
Record Properties := mkProps {
  zone_id : option prop_value;
  zone_name : option string;
  borough : option string
}.

(** The parsed zone file: the list [geojson['features']]. *)
Definition GeoJSON := list Properties.

Record ZoneInfo := mkZone {
  zi_zone_name : string;
  zi_borough : string
}.

(** A dict keyed by [props.get('zone_id')], which is Python's [None] when
    the key is missing. *)
Definition ZoneLookup := gmap (option prop_value) ZoneInfo.

Definition create_zone_lookup (geojson : option GeoJSON) : ZoneLookup :=
  match geojson with
  | None => ∅
  | Some features =>
      foldl (fun (zone_lookup : ZoneLookup) props =>
               <[zone_id props :=
                   mkZone (default "Unknown" (zone_name props))
                          (default "Unknown" (borough props))]> zone_lookup)
            ∅ features
  end.

(** [zone_lookup.get(x, {}).get('zone_name', 'Unknown')] for a location
    id [x] of the trip table (an integer). *)
Definition lookup_zone_name (zone_lookup : ZoneLookup) (x : Z) : string :=
  default "Unknown" (zi_zone_name <$> zone_lookup !! Some (PNum x)).
Definition lookup_borough (zone_lookup : ZoneLookup) (x : Z) : string :=
  default "Unknown" (zi_borough <$> zone_lookup !! Some (PNum x)).

Definition enrich_row (zone_lookup : ZoneLookup) (r : CleanRow) : ZonedRow :=
  {| zoned_clean := r;
     pickup_zone := lookup_zone_name zone_lookup (PULocationID r);
     pickup_borough := lookup_borough zone_lookup (PULocationID r);
     dropoff_zone := lookup_zone_name zone_lookup (DOLocationID r);
     dropoff_borough := lookup_borough zone_lookup (DOLocationID r) |}.

Definition enrich_taxi_data_with_zones
    (df : list CleanRow) (zone_lookup : ZoneLookup) : list ZonedRow :=
  enrich_row zone_lookup <$> df.

End Zones.

(** ** The state-and-exception monad *)

Module Exec.

Inductive result (A : Type) :=
  | Ok (a : A)
  | Raise.
Arguments Ok {A} a.
Arguments Raise {A}.

(** A computation over a state [S]: it ends normally with a value or
    raises, and either way leaves a state behind. *)
Definition M (S A : Type) : Type := S -> result A * S.

Definition ret {S A} (a : A) : M S A := fun s => (Ok a, s).

Definition bind {S A B} (m : M S A) (k : A -> M S B) : M S B :=
  fun s => match m s with
           | (Ok a, s') => k a s'
           | (Raise, s') => (Raise, s')
           end.

Definition raise {S A} : M S A := fun s => (Raise, s).

Definition lift {S A} (r : result A) : M S A := fun s => (r, s).

(** [try: body  except Exception: handler] *)
Definition try_except {S A} (body handler : M S A) : M S A :=
  fun s => match body s with
           | (Ok a, s') => (Ok a, s')
           | (Raise, s') => handler s'
           end.

Definition gets {S A} (f : S -> A) : M S A := fun s => (Ok (f s), s).
Definition modify {S} (f : S -> S) : M S unit := fun s => (Ok tt, f s).

#[export] Instance M_ret {S} : MRet (M S) := fun A => @ret S A.
#[export] Instance M_bind {S} : MBind (M S) := fun A B k m => @bind S A B m k.

(** [for x in xs: ...], collecting what each iteration appends. *)
Fixpoint for_each {S A B} (f : A -> M S B) (xs : list A) : M S (list B) :=
  match xs with
  | [] => ret []
  | x :: xs' => bind (f x) (fun y => bind (for_each f xs') (fun ys => ret (y :: ys)))
  end.

End Exec.

(** ** [merge_weather_data]: the left join on the date *)

Module Merge.

Definition with_weather (t : ZonedRow) (w : WeatherRow) : MergedRow :=
  mkMerged t (Some (w_temperature w)) (Some (w_is_rainy w))
           (Some (w_precipitation_inches w)).

Definition without_weather (t : ZonedRow) : MergedRow :=
  mkMerged t None None None.

Definition matches (t : ZonedRow) (w : WeatherRow) : bool :=
  bool_decide (w_date w = date t).

(** [taxi_df.merge(weather_df[...], on='date_for_merge', how='left')]:
    every taxi row, in order, once per weather row of its date, and once
    with null weather cells when there is none. *)
Definition left_join
    (taxi_df : list ZonedRow) (weather_df : list WeatherRow) : list MergedRow :=
  t ← taxi_df;
  match filter (fun w => matches t w) weather_df with
  | [] => [without_weather t]
  | ws => with_weather t <$> ws
  end.

(** The weather table is [pd.DataFrame(weather_data)] of a list of dicts:
    built from the empty list it has no columns, and [weather_df['date']]
    raises [KeyError]. *)
Definition merge_weather_data
    (taxi_df : list ZonedRow) (weather_df : list WeatherRow)
    : Exec.result (list MergedRow) :=
  match weather_df with
  | [] => Exec.Raise
  | _ => Exec.Ok (left_join taxi_df weather_df)
  end.

End Merge.

(** ** Group-by *)

Module GroupBy.

Section Generic.
Context {A K : Type} (key : A -> K) (keq klt : K -> K -> bool).

Fixpoint insert_key (k : K) (ks : list K) : list K :=
  match ks with
  | [] => [k]
  | k' :: ks' =>
      if keq k k' then ks
      else if klt k k' then k :: ks
      else k' :: insert_key k ks'
  end.

(** The distinct keys, ascending. *)
Definition group_keys (df : list A) : list K :=
  foldr insert_key [] (key <$> df).

(** [df.groupby(key)]: the groups in ascending key order, each with its
    rows in table order. *)
Definition groupby (df : list A) : list (K * list A) :=
  (fun k => (k, filter (fun r => keq (key r) k) df)) <$> group_keys df.
End Generic.

Definition pair_eqb (a b : Z * string) : bool :=
  (a.1 =? b.1) && String.eqb a.2 b.2.
Definition pair_ltb (a b : Z * string) : bool :=
  (a.1 <? b.1) || ((a.1 =? b.1) && String.ltb a.2 b.2).

End GroupBy.

(** ** [create_aggregations]: the five pre-aggregated tables *)

Module Agg.

Record Daily := mkDaily {
  d_date : Z;
  d_total_fare : Q;
  d_avg_fare : Num.float;
  d_avg_distance : Num.float;
  d_avg_duration : Num.float;
  d_avg_tip_pct : Num.float;
  d_avg_passengers : Num.float;
  d_trip_count : nat
}.

Record Hourly := mkHourly {
  h_date_hour : Z;
  h_total_fare : Q;
  h_avg_fare : Num.float;
  h_trip_count : nat
}.

(** [day_order] is the column [app.py] adds at start-up. *)
Record HourDow := mkHourDow {
  hd_hour : Z;
  hd_day_of_week : string;
  hd_trip_count : nat;
  hd_avg_fare : Num.float;
  hd_day_order : option nat
}.

Record Borough := mkBorough {
  b_borough : string;
  b_total_fare : Q;
  b_avg_fare : Num.float;
  b_avg_distance : Num.float;
  b_trip_count : nat;
  b_rainy_proportion : Num.float
}.

Record Payment := mkPayment {
  p_payment_type : string;
  p_total_fare : Q;
  p_avg_fare : Num.float;
  p_avg_tip_pct : Num.float;
  p_trip_count : nat
}.

Record Tables := mkTables {
  daily : list Daily;
  hourly : list Hourly;
  hour_dow : list HourDow;
  borough : list Borough;
  payment : list Payment
}.

Definition rainy_cell (r : MergedRow) : Num.float :=
  (fun b : bool => if b then 1%Q else 0%Q) <$> is_rainy r.

Definition daily_of (df : list TripRow) : list Daily :=
  (fun g : Z * list TripRow =>
     let rows := g.2 in
     mkDaily g.1
             (Num.nansum ((fun r : TripRow => fare_amount r) <$> rows))
             (Num.nanmean ((fun r : TripRow => fare_amount r) <$> rows))
             (Num.nanmean ((fun r : TripRow => trip_distance r) <$> rows))
             (Num.nanmean ((fun r : TripRow => Some (trip_duration_minutes r)) <$> rows))
             (Num.nanmean ((fun r : TripRow => tip_percentage r) <$> rows))
             (Num.nanmean ((fun r : TripRow => passenger_count r) <$> rows))
             (length rows))
    <$> GroupBy.groupby (fun r : TripRow => date r) Z.eqb Z.ltb df.

Definition hourly_of (df : list TripRow) : list Hourly :=
  (fun g : Z * list TripRow =>
     let rows := g.2 in
     mkHourly g.1
              (Num.nansum ((fun r : TripRow => fare_amount r) <$> rows))
              (Num.nanmean ((fun r : TripRow => fare_amount r) <$> rows))
              (length rows))
    <$> GroupBy.groupby date_hour Z.eqb Z.ltb df.

Definition hour_dow_of (df : list TripRow) : list HourDow :=
  (fun g : (Z * string) * list TripRow =>
     let rows := g.2 in
     mkHourDow g.1.1 g.1.2 (length rows)
               (Num.nanmean ((fun r : TripRow => fare_amount r) <$> rows)) None)
    <$> GroupBy.groupby (fun r : TripRow => (hour r, day_of_week r))
                        GroupBy.pair_eqb GroupBy.pair_ltb df.

Definition borough_of (df : list TripRow) : list Borough :=
  (fun g : string * list TripRow =>
     let rows := g.2 in
     mkBorough g.1
               (Num.nansum ((fun r : TripRow => fare_amount r) <$> rows))
               (Num.nanmean ((fun r : TripRow => fare_amount r) <$> rows))
               (Num.nanmean ((fun r : TripRow => trip_distance r) <$> rows))
               (length rows)
               (Num.nanmean ((fun r : TripRow => rainy_cell r) <$> rows)))
    <$> GroupBy.groupby (fun r : TripRow => pickup_borough r)
                        String.eqb String.ltb df.

Definition payment_of (df : list TripRow) : list Payment :=
  (fun g : string * list TripRow =>
     let rows := g.2 in
     mkPayment g.1
               (Num.nansum ((fun r : TripRow => fare_amount r) <$> rows))
               (Num.nanmean ((fun r : TripRow => fare_amount r) <$> rows))
               (Num.nanmean ((fun r : TripRow => tip_percentage r) <$> rows))
               (length rows))
    <$> GroupBy.groupby (fun r : TripRow => payment_type_name r)
                        String.eqb String.ltb df.

(** [df['date_hour'] = df['tpep_pickup_datetime'].dt.floor('h')], the
    assignment that changes the caller's table. *)
Definition add_date_hour (df : list MergedRow) : list TripRow :=
  (fun r : MergedRow => mkTrip r (Calendar.floor_hour (pickup r))) <$> df.

Definition tables_of (df : list TripRow) : Tables :=
  mkTables (daily_of df) (hourly_of df) (hour_dow_of df)
           (borough_of df) (payment_of df).

End Agg.

(** ** The loader's world: files, network, output, random numbers *)

Module Sys.

(** What [pd.read_parquet(path, columns=...)] makes of a file: its rows,
    or [None] when reading it raises. *)
Definition parquet_blob := option (list RawRow).

(** The dict [load_all_data] returns and pickles. *)
Record Package := mkPackage {
  raw : list TripRow;
  geojson : option Zones.GeoJSON;
  zone_lookup : Zones.ZoneLookup;
  aggregations : Agg.Tables
}.

(** What the [try] block over [pickle.load] and the three summary prints
    makes of a cache file: the package, or [None] when it raises. *)
Definition pickle_blob := option Package.

(** One constructor per [print] call of the program; the progress line
    the download rewrites in place is not recorded.  The directories
    ([mkdir(parents=True, exist_ok=True)]) are taken to exist. *)
Inductive Msg :=
  | LoadingTaxiData (year month : Z)
  | LoadingFromLocalCache (path : string)
  | DownloadingFrom (url : string)
  | OneTimeDownload
  | DownloadedTo (path : string)
  | LoadedTaxiRecords (n : nat)
  | ErrorLoadingTaxiData
  | LoadingZones
  | LoadedZones (n : nat)
  | ErrorLoadingGeoJSON
  | GeneratingWeather
  | GeneratedWeather (days : nat)
  | CreatingAggregations
  | CreatedAggregations (n : nat)
  | LoadingFromCache
  | CacheLoaded
  | CacheLoadFailed
  | FailedToLoadTaxiData
  | LoadingComplete
  | RawRecords (n : nat)
  | DateRange (first last : option Z)
  | ZonesCovered (n : nat)
  | SavingCache
  | CachedTo (path : string)
  | FailedToSaveCache
  | AppLoading
  | AppFailedExiting
  | AppLoaded.

#[export] Instance Msg_eq_dec : EqDecision Msg.
Proof. solve_decision. Defined.

Record World := mkWorld {
  raw_files : gmap string parquet_blob;   (* under data/raw *)
  cache_files : gmap string pickle_blob;  (* under data/cache *)
  stdout : list Msg;                      (* oldest first *)
  requests : list string;                 (* the URLs requested, oldest first *)
  rng : nat                               (* draws made from numpy's generator *)
}.

(** What a streamed download of the parquet file comes to. *)
Inductive fetch_result :=
  | FetchError                      (* [requests.get] or [raise_for_status] raises *)
  | FetchBroken                     (* the stream breaks after the file was opened *)
  | FetchOk (body : parquet_blob).

Inductive write_outcome :=
  | WriteDenied       (* [open(.., 'wb')] raises *)
  | WriteTruncated    (* [pickle.dump] raises after the file was opened *)
  | WriteDone.

(** What the run does not decide.  A response may depend on how many
    requests were made before it. *)
Record Env := mkEnv {
  get_parquet : nat -> string -> fetch_result;
  get_geojson : nat -> string -> option Zones.GeoJSON;
  raw_writable : bool;
  cache_write : write_outcome;
  df_sample : forall A, Z -> list A -> list A;  (* [df.sample(n, random_state=42)] *)
  sin_of_day : Z -> Q;                          (* [np.sin(2 * np.pi * d / 365)] *)
  normal_draw : nat -> Q;                       (* [np.random.normal(0, 5)] *)
  uniform_draw : nat -> Q;                      (* [np.random.random()] *)
  exponential_draw : nat -> Q                   (* [np.random.exponential(0.3)] *)
}.

Abbreviation IO := (Exec.M World).

Definition print (m : Msg) : IO unit :=
  Exec.modify (fun w => mkWorld (raw_files w) (cache_files w) (stdout w ++ [m])
                                (requests w) (rng w)).

Definition log_request (url : string) : IO unit :=
  Exec.modify (fun w => mkWorld (raw_files w) (cache_files w) (stdout w)
                                (requests w ++ [url]) (rng w)).

Definition write_raw (path : string) (b : parquet_blob) : IO unit :=
  Exec.modify (fun w => mkWorld (<[path := b]> (raw_files w)) (cache_files w)
                                (stdout w) (requests w) (rng w)).

Definition write_cache (path : string) (b : pickle_blob) : IO unit :=
  Exec.modify (fun w => mkWorld (raw_files w) (<[path := b]> (cache_files w))
                                (stdout w) (requests w) (rng w)).

(** One draw: the generator's position moves on by one. *)
Definition draw (stream : nat -> Q) : IO Q :=
  fun w => (Exec.Ok (stream (rng w)),
            mkWorld (raw_files w) (cache_files w) (stdout w) (requests w) (S (rng w))).

(** [f"{month:02d}"] *)
Definition fmt_02d (n : Z) : string :=
  if (0 <=? n) && (n <? 10) then "0" +:+ pretty n else pretty n.

Definition raw_path (year month : Z) : string :=
  "data/raw/yellow_tripdata_" +:+ pretty year +:+ "-" +:+ fmt_02d month +:+ ".parquet".

Definition parquet_url (year month : Z) : string :=
  "https://d37ci6vzurychx.cloudfront.net/trip-data/yellow_tripdata_"
    +:+ pretty year +:+ "-" +:+ fmt_02d month +:+ ".parquet".

Definition geojson_url : string :=
  "https://data.cityofnewyork.us/api/geospatial/d3c5-ddgv?method=export&format=GeoJSON".

Definition cache_path (year month sample_size : Z) : string :=
  "data/cache/taxi_data_" +:+ pretty year +:+ "_" +:+ fmt_02d month
    +:+ "_" +:+ pretty sample_size +:+ ".pkl".

End Sys.

(** ** [DataLoader] and [load_all_data] *)

Module Loader.
Import Exec Sys.

Section WithEnv.
Variable env : Env.

Definition file_exists {B} (files : World -> gmap string B) (path : string) : IO bool :=
  gets (fun w => bool_decide (is_Some (files w !! path))).

(** [pd.read_parquet(local_file, columns=columns)] *)
Definition read_parquet (path : string) : IO (list RawRow) :=
  blob ← gets (fun w => raw_files w !! path);
  match blob with
  | Some (Some rows) => mret rows
  | _ => raise
  end.

(** The download branch of [load_taxi_data], up to the closing of the
    local file. *)
Definition download (url local_file : string) : IO unit :=
  earlier ← gets (fun w => length (requests w));
  log_request url;;
  match get_parquet env earlier url with
  | FetchError => raise
  | FetchBroken =>
      if raw_writable env then write_raw local_file None;; raise else raise
  | FetchOk body =>
      if raw_writable env then write_raw local_file body else raise
  end.

Definition load_taxi_data (year month sample_size : Z) : IO (list CleanRow) :=
  print (LoadingTaxiData year month);;
  let local_file := raw_path year month in
  let url := parquet_url year month in
  try_except
    (cached ← file_exists raw_files local_file;
     df ← (if cached : bool then
             print (LoadingFromLocalCache local_file);;
             read_parquet local_file
           else
             print (DownloadingFrom url);;
             print OneTimeDownload;;
             download url local_file;;
             print (DownloadedTo local_file);;
             read_parquet local_file);
     df ← (if sample_size <? Z.of_nat (length df) then
             (* [df.sample] refuses a negative [n] *)
             if sample_size <? 0 then raise
             else mret (df_sample env _ sample_size df)
           else mret df);
     let df := Clean._clean_taxi_data df in
     print (LoadedTaxiRecords (length df));;
     mret df)
    (print ErrorLoadingTaxiData;;
     mret []).

Definition load_nyc_zones_geojson : IO (option Zones.GeoJSON) :=
  print LoadingZones;;
  try_except
    (earlier ← gets (fun w => length (requests w));
     log_request geojson_url;;
     match get_geojson env earlier geojson_url with
     | None => raise
     | Some geojson =>
         print (LoadedZones (length geojson));;
         mret (Some geojson)
     end)
    (print ErrorLoadingGeoJSON;;
     mret None).

(** [df['date'].unique()]: the distinct values, in order of first
    appearance. *)
Fixpoint unique_from (seen : list Z) (xs : list Z) : list Z :=
  match xs with
  | [] => []
  | x :: xs' =>
      if bool_decide (x ∈ seen) then unique_from seen xs'
      else x :: unique_from (x :: seen) xs'
  end.
Definition unique (xs : list Z) : list Z := unique_from [] xs.

(** The body of the loop over the dates. *)
Definition weather_of_day (d : Z) : IO WeatherRow :=
  let day_of_year := Calendar.dayofyear d in
  let base_temp := (35 + 30 * sin_of_day env day_of_year)%Q in
  noise ← draw (normal_draw env);
  let temp := (base_temp + noise)%Q in
  u ← draw (uniform_draw env);
  let is_rainy := Num.Qltb u (15 # 100) in
  precipitation ← (if is_rainy then draw (exponential_draw env) else mret 0%Q);
  mret (mkWeather d (Num.round_dp 1 temp) is_rainy (Num.round_dp 2 precipitation)).

Definition generate_synthetic_weather (df : list ZonedRow) : IO (list WeatherRow) :=
  print GeneratingWeather;;
  let dates := unique ((fun r : ZonedRow => date r) <$> df) in
  weather_data ← for_each weather_of_day dates;
  print (GeneratedWeather (length weather_data));;
  mret weather_data.

(** Returns the dict of tables together with the caller's table, which
    it has given the [date_hour] column. *)
Definition create_aggregations (df : list MergedRow) : IO (Agg.Tables * list TripRow) :=
  print CreatingAggregations;;
  let df := Agg.add_date_hour df in
  let agg_dict := Agg.tables_of df in
  print (CreatedAggregations 5);;
  mret (agg_dict, df).

Definition min_date (df : list TripRow) : option Z :=
  foldr (fun (r : TripRow) acc =>
           Some (match acc with Some m => Z.min (date r) m | None => date r end))
        None df.
Definition max_date (df : list TripRow) : option Z :=
  foldr (fun (r : TripRow) acc =>
           Some (match acc with Some m => Z.max (date r) m | None => date r end))
        None df.
Definition nunique_boroughs (df : list TripRow) : nat :=
  length (remove_dups ((fun r : TripRow => pickup_borough r) <$> df)).

Definition print_summary (df : list TripRow) : IO unit :=
  print (RawRecords (length df));;
  print (DateRange (min_date df) (max_date df));;
  print (ZonesCovered (nunique_boroughs df)).

(** [pickle.load] and the summary prints, which read [data['raw']]. *)
Definition read_pickle (path : string) : IO Package :=
  blob ← gets (fun w => cache_files w !! path);
  match blob with
  | Some (Some data) => mret data
  | _ => raise
  end.

Definition save_pickle (path : string) (data : Package) : IO unit :=
  match cache_write env with
  | WriteDenied => raise
  | WriteTruncated => write_cache path None;; raise
  | WriteDone => write_cache path (Some data)
  end.

Definition load_all_data (year month sample_size : Z) (use_cache : bool)
    : IO (option Package) :=
  let cache_file := cache_path year month sample_size in
  cached ← file_exists cache_files cache_file;
  from_cache ← (if use_cache && cached then
                  print LoadingFromCache;;
                  try_except
                    (data ← read_pickle cache_file;
                     print CacheLoaded;;
                     print_summary (raw data);;
                     mret (Some data))
                    (print CacheLoadFailed;;
                     mret None)
                else mret None);
  match from_cache with
  | Some data => mret (Some data)
  | None =>
      taxi_df ← load_taxi_data year month sample_size;
      match taxi_df with
      | [] =>
          print FailedToLoadTaxiData;;
          mret None
      | _ =>
          geojson ← load_nyc_zones_geojson;
          let zone_lookup := Zones.create_zone_lookup geojson in
          let taxi_df := Zones.enrich_taxi_data_with_zones taxi_df zone_lookup in
          weather_df ← generate_synthetic_weather taxi_df;
          taxi_df ← lift (Merge.merge_weather_data taxi_df weather_df);
          '(agg_data, taxi_df) ← create_aggregations taxi_df;
          print LoadingComplete;;
          print_summary taxi_df;;
          let data := mkPackage taxi_df geojson zone_lookup agg_data in
          try_except
            (print SavingCache;;
             save_pickle cache_file data;;
             print (CachedTo cache_file))
            (print FailedToSaveCache);;
          mret (Some data)
      end
  end.

End WithEnv.

End Loader.

(** ** [app.py]: start-up and callbacks *)

Module App.
Import Exec Sys.

(** *** Start-up *)

(** The module-level names the callbacks read. *)
Record Globals := mkGlobals {
  g_taxi_df : list TripRow;
  g_agg_data : Agg.Tables;
  g_geojson : option Zones.GeoJSON
}.

Inductive Outcome :=
  | Exited (code : Z)          (* [sys.exit(code)] *)
  | Serving (g : Globals).     (* the module was imported; the server can run *)

(** [day_order_map]: the position of a day name in [day_order]. *)
Fixpoint index_of (x : string) (xs : list string) : option nat :=
  match xs with
  | [] => None
  | y :: ys => if bool_decide (x = y) then Some O else S <$> index_of x ys
  end.

Definition day_order : list string :=
  ["Monday"; "Tuesday"; "Wednesday"; "Thursday"; "Friday"; "Saturday"; "Sunday"].

Definition add_day_order (agg : Agg.Tables) : Agg.Tables :=
  Agg.mkTables (Agg.daily agg) (Agg.hourly agg)
    ((fun h => Agg.mkHourDow (Agg.hd_hour h) (Agg.hd_day_of_week h)
                             (Agg.hd_trip_count h) (Agg.hd_avg_fare h)
                             (index_of (Agg.hd_day_of_week h) day_order))
       <$> Agg.hour_dow agg)
    (Agg.borough agg) (Agg.payment agg).

(** The statements of [app.py] up to the creation of the Dash app.  The
    conversion of the [date] column to timestamps changes no value of the
    embedding, where a date is a day number. *)
Definition startup (env : Env) : IO Outcome :=
  print AppLoading;;
  data_package ← Loader.load_all_data env 2023 1 50000 true;
  match data_package with
  | None =>
      print AppFailedExiting;;
      mret (Exited 1)
  | Some data =>
      let taxi_df := raw data in
      let agg_data := add_day_order (aggregations data) in
      print AppLoaded;;
      mret (Serving (mkGlobals taxi_df agg_data (geojson data)))
  end.

(** *** The callbacks' store of DataFrame objects *)

Abbreviation loc := positive.
Abbreviation Frame := (list TripRow).

(** What [df.to_json(date_format='iso', orient='split')] keeps of a
    frame: its rows.  A JSON string is a value, not an object. *)
Definition Json := list TripRow.

Record Dash := mkDash {
  heap : gmap loc Frame;      (* the DataFrame objects alive or dead *)
  taxi_df : loc;              (* the global [taxi_df] *)
  store : option Json         (* the [data] of [filtered-data-store] *)
}.

Abbreviation Py := (Exec.M Dash).

Definition alloc (rows : Frame) : Py loc :=
  fun s => let l := fresh (dom (heap s)) in
           (Ok l, mkDash (<[l := rows]> (heap s)) (taxi_df s) (store s)).

Definition rows_of (l : loc) : Py Frame :=
  fun s => match heap s !! l with
           | Some rows => (Ok rows, s)
           | None => (Raise, s)
           end.

(** An assignment to a column of the object at [l]. *)
Definition set_column (l : loc) (f : TripRow -> TripRow) : Py unit :=
  rows ← rows_of l;
  modify (fun s => mkDash (<[l := f <$> rows]> (heap s)) (taxi_df s) (store s)).

(** [df.copy()] *)
Definition df_copy (l : loc) : Py loc :=
  rows ← rows_of l; alloc rows.

(** [df[mask]]: a new frame of the rows where the mask is true. *)
Definition df_select (l : loc) (mask : TripRow -> bool) : Py loc :=
  rows ← rows_of l; alloc (filter (fun r => mask r) rows).

(** [xs[i]], which raises [IndexError] past the end. *)
Definition index (xs : list Z) (i : nat) : Py Z :=
  match xs !! i with
  | Some x => mret x
  | None => raise
  end.

Definition to_json (l : loc) : Py Json := rows_of l.

(** The value of a dropdown: a string or a boolean. *)
Inductive dropdown_value :=
  | DStr (s : string)
  | DBool (b : bool).

(** [weather != 'all'] *)
Definition not_all (v : dropdown_value) : bool :=
  match v with
  | DStr s => bool_decide (s ≠ "all")
  | DBool _ => true
  end.

(** A cell of [df['is_rainy'] == weather]; a null cell, and a boolean
    against a string, compare unequal. *)
Definition rainy_is (v : dropdown_value) (r : TripRow) : bool :=
  match is_rainy r, v with
  | Some b, DBool b' => bool_decide (b = b')
  | _, _ => false
  end.

Definition in_range (lo hi x : Z) : bool := (lo <=? x) && (x <=? hi).

Definition is_weekend (r : TripRow) : bool :=
  bool_decide (day_of_week r ∈ ["Saturday"; "Sunday"]).

(** The two dates are day numbers: the strings the date picker sends and
    the [date] column are both read as timestamps at midnight. *)
Definition update_filtered_data
    (start_date end_date : Z) (hour_range : list Z) (payment_type : string)
    (weather : dropdown_value) (day_type : string) : Py Json :=
  g ← gets taxi_df;
  df ← df_copy g;
  df ← df_select df (fun r => in_range start_date end_date (date r));
  h0 ← index hour_range 0;
  h1 ← index hour_range 1;
  df ← df_select df (fun r => in_range h0 h1 (hour r));
  df ← (if bool_decide (payment_type ≠ "all")
        then df_select df (fun r => bool_decide (payment_type_name r = payment_type))
        else mret df);
  df ← (if not_all weather
        then df_select df (rainy_is weather)
        else mret df);
  df ← (if bool_decide (day_type = "weekday")
        then df_select df (fun r => negb (is_weekend r))
        else if bool_decide (day_type = "weekend")
        then df_select df is_weekend
        else mret df);
  to_json df.

(** [load_filtered_data]: a new frame read from the JSON, whose two
    timestamp columns are then assigned in place. *)
Definition load_filtered_data (filtered_json : option Json) : Py (option loc) :=
  match filtered_json with
  | None => mret None
  | Some rows =>
      df ← alloc rows;
      set_column df (fun r => r);;
      set_column df (fun r => r);;
      mret (Some df)
  end.

(** *** The chart callbacks

    Each returns what it hands to the plotting layer, which is outside
    the embedding; [None] is the empty figure [{}]. *)

Inductive MetricsCards :=
  | NoData                      (* "0", "$0.00", "0 mi", "$0" *)
  | Cards (trips : nat) (avg_fare avg_distance : Num.float) (revenue : Q).

Definition update_metrics (filtered_json : option Json) : Py MetricsCards :=
  df ← load_filtered_data filtered_json;
  match df with
  | None => mret NoData
  | Some df =>
      rows ← rows_of df;
      mret (Cards (length rows)
                  (Num.nanmean ((fun r : TripRow => fare_amount r) <$> rows))
                  (Num.nanmean ((fun r : TripRow => trip_distance r) <$> rows))
                  (Num.nansum ((fun r : TripRow => fare_amount r) <$> rows)))
  end.

Definition update_time_series (filtered_json : option Json)
    : Py (option (list (Z * nat))) :=
  df ← load_filtered_data filtered_json;
  match df with
  | None => mret None
  | Some df =>
      rows ← rows_of df;
      mret (Some ((fun g : Z * Frame => (g.1, length g.2))
                    <$> GroupBy.groupby
                          (fun r : TripRow => Calendar.date_of (pickup r))
                          Z.eqb Z.ltb rows))
  end.

Definition update_heatmap (filtered_json : option Json)
    : Py (option (list (Z * string * nat * Num.float))) :=
  df ← load_filtered_data filtered_json;
  match df with
  | None => mret None
  | Some df =>
      rows ← rows_of df;
      mret (Some ((fun g : (Z * string) * Frame =>
                     (g.1.1, g.1.2, length g.2,
                      Num.nanmean ((fun r : TripRow => fare_amount r) <$> g.2)))
                    <$> GroupBy.groupby
                          (fun r : TripRow => (hour r, day_of_week r))
                          GroupBy.pair_eqb GroupBy.pair_ltb rows))
  end.

(** [create_weather_impact_chart]'s [groupby('is_rainy')]: rows with a
    null key belong to no group; [False] sorts before [True]. *)
Definition weather_comparison (rows : Frame) : list (bool * nat * Num.float * Num.float) :=
  (fun g : bool * Frame =>
     (g.1, length g.2,
      Num.nanmean ((fun r : TripRow => fare_amount r) <$> g.2),
      Num.nanmean ((fun r : TripRow => trip_distance r) <$> g.2)))
    <$> filter (fun g : bool * Frame => bool_decide (g.2 ≠ []))
          ((fun b : bool => (b, filter (fun r : TripRow => bool_decide (is_rainy r = Some b)) rows))
             <$> [false; true]).

Definition update_weather_chart (filtered_json : option Json)
    : Py (option (list (bool * nat * Num.float * Num.float))) :=
  df ← load_filtered_data filtered_json;
  match df with
  | None => mret None
  | Some df => rows ← rows_of df; mret (Some (weather_comparison rows))
  end.

Section WithEnv.
Variable env : Env.

Definition update_scatter (filtered_json : option Json) : Py (option Frame) :=
  df ← load_filtered_data filtered_json;
  match df with
  | None => mret None
  | Some df =>
      rows ← rows_of df;
      df ← (if (5000 <? length rows)%nat
            then alloc (df_sample env _ 5000 rows)
            else mret df);
      rows ← rows_of df;
      mret (Some rows)
  end.

Definition update_borough_boxplot (filtered_json : option Json) : Py (option Frame) :=
  df ← load_filtered_data filtered_json;
  match df with
  | None => mret None
  | Some df => rows ← rows_of df; mret (Some rows)
  end.

Definition update_payment_breakdown (filtered_json : option Json)
    : Py (option (list (string * nat * Num.float * Num.float))) :=
  df ← load_filtered_data filtered_json;
  match df with
  | None => mret None
  | Some df =>
      rows ← rows_of df;
      mret (Some ((fun g : string * Frame =>
                     (g.1, length g.2,
                      Num.nanmean ((fun r : TripRow => fare_amount r) <$> g.2),
                      Num.nanmean ((fun r : TripRow => tip_amount r) <$> g.2)))
                    <$> GroupBy.groupby
                          (fun r : TripRow => payment_type_name r)
                          String.eqb String.ltb rows))
  end.

(** *** Interactions *)

(** The settings of the five controls. *)
Record Filters := mkFilters {
  start_date : Z;
  end_date : Z;
  hour_range : list Z;
  payment_type_sel : string;
  weather_sel : dropdown_value;
  day_type_sel : string
}.

(** A callback the Dash runtime fires. *)
Inductive Event :=
  | FiltersChanged (f : Filters)
  | RenderMetrics
  | RenderTimeSeries
  | RenderHeatmap
  | RenderWeather
  | RenderScatter
  | RenderBoroughs
  | RenderPayments.

Definition set_store (j : Json) : Py unit :=
  modify (fun s => mkDash (heap s) (taxi_df s) (Some j)).

(** What a callback hands to its output component. *)
Inductive Output :=
  | ToStore                                          (* the filtered dataset *)
  | MetricCards (c : MetricsCards)
  | TimeSeries (t : option (list (Z * nat)))
  | Heatmap (t : option (list (Z * string * nat * Num.float)))
  | WeatherChart (t : option (list (bool * nat * Num.float * Num.float)))
  | Scatter (t : option Frame)
  | BoroughBoxplot (t : option Frame)
  | PaymentBreakdown (t : option (list (string * nat * Num.float * Num.float))).

(** The output of [update_filtered_data] becomes the store's data; a
    chart callback is called with the store's data. *)
Definition fire (e : Event) : Py Output :=
  match e with
  | FiltersChanged f =>
      j ← update_filtered_data (start_date f) (end_date f) (hour_range f)
                               (payment_type_sel f) (weather_sel f) (day_type_sel f);
      set_store j;;
      mret ToStore
  | RenderMetrics => j ← gets store; c ← update_metrics j; mret (MetricCards c)
  | RenderTimeSeries => j ← gets store; t ← update_time_series j; mret (TimeSeries t)
  | RenderHeatmap => j ← gets store; t ← update_heatmap j; mret (Heatmap t)
  | RenderWeather => j ← gets store; t ← update_weather_chart j; mret (WeatherChart t)
  | RenderScatter => j ← gets store; t ← update_scatter j; mret (Scatter t)
  | RenderBoroughs => j ← gets store; t ← update_borough_boxplot j; mret (BoroughBoxplot t)
  | RenderPayments =>
      j ← gets store; t ← update_payment_breakdown j; mret (PaymentBreakdown t)
  end.

(** The state a callback leaves, whether it returned or raised. *)
Definition handle (s : Dash) (e : Event) : Dash := (fire e s).2.

Definition interact (es : list Event) (s : Dash) : Dash := foldl handle s es.

End WithEnv.

(** The state when the server starts: the trip table is the only frame. *)
Definition boot (table : Frame) : Dash :=
  mkDash {[1%positive := table]} 1%positive None.

End App.

(** * Specifications

    The properties, said on their own terms: these definitions follow the
    wording of the properties, not the code. *)

Module Spec.
Import Exec Sys App.

(** ** Value ranges of a cleaned row *)

(** A cell holds a number of the half-open interval (lo, hi]. *)
Definition within (lo hi : Q) (x : Num.float) : Prop :=
  exists q, x = Some q /\ (lo < q)%Q /\ (q <= hi)%Q.

Definition in_ranges (r : CleanRow) : Prop :=
  within 0 300 (fare_amount r) /\
  within 0 100 (trip_distance r) /\
  within 0 8 (passenger_count r) /\
  (0 < trip_duration_minutes r)%Q /\ (trip_duration_minutes r <= 480)%Q /\
  tpep_pickup_datetime r = Some (pickup r) /\
  tpep_dropoff_datetime r = Some (dropoff r).

(** Every snapshot on disk holds a table of rows within the ranges. *)
Definition caches_in_ranges (w : World) : Prop :=
  forall path data,
    cache_files w !! path = Some (Some data) ->
    Forall (fun r : TripRow => in_ranges r) (raw data).

(** ** Enrichment *)

(** The names a payment code can be given. *)
Definition payment_names : list string :=
  ["Credit Card"; "Cash"; "No Charge"; "Dispute"; "Unknown"].

(** The three weather cells of a row are not null. *)
Definition has_weather (r : MergedRow) : Prop :=
  is_Some (temperature r) /\ is_Some (is_rainy r) /\ is_Some (precipitation_inches r).

(** The four zone cells of a row are the fallback. *)
Definition zones_unknown (r : ZonedRow) : Prop :=
  pickup_zone r = "Unknown" /\ pickup_borough r = "Unknown" /\
  dropoff_zone r = "Unknown" /\ dropoff_borough r = "Unknown".

(** ** Failures of the initial load *)

(** The trip file cannot be had: the local copy, or without one what the
    server sends, is missing or cannot be read. *)
Definition trip_file_fails (env : Env) (year month : Z) (w : World) : Prop :=
  match raw_files w !! raw_path year month with
  | Some blob => blob = None
  | None =>
      match get_parquet env (length (requests w)) (parquet_url year month) with
      | FetchOk (Some _) => False
      | _ => True
      end
  end.

(** There is no snapshot to read in place of the files. *)
Definition no_snapshot (year month sample_size : Z) (w : World) : Prop :=
  forall data, cache_files w !! cache_path year month sample_size ≠ Some (Some data).

(** ** The five predicates of the filter *)

Definition weekend_days : list string := ["Saturday"; "Sunday"].

Definition date_between (start_date end_date : Z) (r : TripRow) : Prop :=
  start_date <= date r /\ date r <= end_date.

Definition hour_between (h0 h1 : Z) (r : TripRow) : Prop :=
  h0 <= hour r /\ hour r <= h1.

Definition payment_selected (payment_type : string) (r : TripRow) : Prop :=
  payment_type = "all" \/ payment_type_name r = payment_type.

Definition weather_selected (weather : dropdown_value) (r : TripRow) : Prop :=
  match weather with
  | DStr s => s = "all"
  | DBool b => is_rainy r = Some b
  end.

Definition day_type_selected (day_type : string) (r : TripRow) : Prop :=
  (day_type = "weekday" -> day_of_week r ∉ weekend_days) /\
  (day_type = "weekend" -> day_of_week r ∈ weekend_days).

Definition satisfies (start_date end_date h0 h1 : Z) (payment_type : string)
    (weather : dropdown_value) (day_type : string) (r : TripRow) : Prop :=
  date_between start_date end_date r /\
  hour_between h0 h1 r /\
  payment_selected payment_type r /\
  weather_selected weather r /\
  day_type_selected day_type r.

#[export] Instance dropdown_value_eq_dec : EqDecision dropdown_value.
Proof. solve_decision. Defined.

#[export] Instance weather_selected_dec weather r : Decision (weather_selected weather r).
Proof. destruct weather; simpl; apply _. Defined.

#[export] Instance satisfies_dec s e h0 h1 p w d r : Decision (satisfies s e h0 h1 p w d r).
Proof.
  unfold satisfies, date_between, hour_between, payment_selected, day_type_selected.
  apply _.
Defined.

(** The number of rows of a table with a property. *)
Definition count_rows (P : TripRow -> Prop) `{!forall r, Decision (P r)}
    (table : list TripRow) : nat :=
  foldr (fun r n => if decide (P r) then S n else n) O table.

(** ** The filters, one control at a time *)

Inductive Control := ByDate | ByHour | ByPayment | ByWeather | ByDayType.

Definition controls : list Control := [ByDate; ByHour; ByPayment; ByWeather; ByDayType].

(** What [update_filtered_data] does for one control. *)
Definition apply_control (f : Filters) (c : Control) (df : loc) : Py loc :=
  match c with
  | ByDate =>
      df_select df (fun r => in_range (start_date f) (end_date f) (date r))
  | ByHour =>
      h0 ← index (hour_range f) 0;
      h1 ← index (hour_range f) 1;
      df_select df (fun r => in_range h0 h1 (hour r))
  | ByPayment =>
      if bool_decide (payment_type_sel f ≠ "all")
      then df_select df (fun r => bool_decide (payment_type_name r = payment_type_sel f))
      else mret df
  | ByWeather =>
      if not_all (weather_sel f)
      then df_select df (rainy_is (weather_sel f))
      else mret df
  | ByDayType =>
      if bool_decide (day_type_sel f = "weekday")
      then df_select df (fun r => negb (is_weekend r))
      else if bool_decide (day_type_sel f = "weekend")
      then df_select df is_weekend
      else mret df
  end.

Fixpoint apply_controls (f : Filters) (order : list Control) (df : loc) : Py loc :=
  match order with
  | [] => mret df
  | c :: order' => df ← apply_control f c df; apply_controls f order' df
  end.

(** The filter callback with its controls taken in a given order. *)
Definition filtered_in_order (f : Filters) (order : list Control) : Py Json :=
  g ← gets taxi_df;
  df ← df_copy g;
  df ← apply_controls f order df;
  to_json df.

(** The callback at the settings [f]. *)
Definition filtered (f : Filters) : Py Json :=
  update_filtered_data (start_date f) (end_date f) (hour_range f)
                       (payment_type_sel f) (weather_sel f) (day_type_sel f).

(** An event that renders a chart. *)
Definition is_chart (e : Event) : Prop :=
  match e with FiltersChanged _ => False | _ => True end.

End Spec.

(** * Sample data

    A small month of trips, a small zone file, and environments that serve
    them or fail to. *)

Module Fixture.
Import Exec Sys App.

(** A trip of [minutes] minutes picked up at [pickup_ts]. *)
Definition ride (pickup_ts minutes : Z) (fare : Q) (code : option Z) (pu : Z) : RawRow :=
  {| tpep_pickup_datetime := Some pickup_ts;
     tpep_dropoff_datetime := Some (pickup_ts + 60 * minutes);
     passenger_count := Some 1%Q;
     trip_distance := Some (3 # 1);
     fare_amount := Some fare;
     extra := Some 0%Q;
     mta_tax := Some (1 # 2);
     tip_amount := Some (2 # 1);
     tolls_amount := Some 0%Q;
     total_amount := Some (fare + (5 # 2))%Q;
     payment_type := code;
     PULocationID := pu;
     DOLocationID := 100 |}.

(** Sunday 2023-01-01 08:00, Monday 2023-01-02 18:00 (twice), Saturday
    2023-01-07 23:00; then a negative fare and a missing drop-off. *)
Definition trips_file : list RawRow :=
  [ ride 1672560000 15 (12 # 1) (Some 1) 1;
    ride 1672682400 30 (25 # 1) (Some 2) 2;
    ride 1672682400 10 (8 # 1) (Some 9) 1;
    ride 1673132400 20 (18 # 1) None 7;
    ride 1672560000 15 (-5 # 1) (Some 1) 1;
    {| tpep_pickup_datetime := Some 1672560000;
       tpep_dropoff_datetime := None;
       passenger_count := Some 1%Q;
       trip_distance := Some (3 # 1);
       fare_amount := Some (10 # 1);
       extra := None; mta_tax := None; tip_amount := None;
       tolls_amount := None; total_amount := None;
       payment_type := Some 1;
       PULocationID := 1;
       DOLocationID := 2 |} ].

Definition zones_file : Zones.GeoJSON :=
  [ Zones.mkProps (Some (Zones.PNum 1)) (Some "Newark Airport") (Some "EWR");
    Zones.mkProps (Some (Zones.PNum 2)) (Some "Jamaica Bay") None;
    Zones.mkProps None None (Some "Queens") ].

(** Both servers answer, every file can be written. *)
Definition online : Env :=
  {| get_parquet := fun _ _ => FetchOk (Some trips_file);
     get_geojson := fun _ _ => Some zones_file;
     raw_writable := true;
     cache_write := WriteDone;
     df_sample := fun A n rows => take (Z.to_nat n) rows;
     sin_of_day := fun _ => 0%Q;
     normal_draw := fun _ => (3 # 2);
     uniform_draw := fun n => if (n mod 4 <? 2)%nat then (1 # 10) else (9 # 10);
     exponential_draw := fun _ => (1 # 4) |}.

(** The zone server does not answer. *)
Definition no_zones : Env :=
  {| get_parquet := get_parquet online;
     get_geojson := fun _ _ => None;
     raw_writable := true;
     cache_write := WriteDone;
     df_sample := df_sample online;
     sin_of_day := sin_of_day online;
     normal_draw := normal_draw online;
     uniform_draw := uniform_draw online;
     exponential_draw := exponential_draw online |}.

(** The trip server does not answer. *)
Definition no_trips : Env :=
  {| get_parquet := fun _ _ => FetchError;
     get_geojson := get_geojson online;
     raw_writable := true;
     cache_write := WriteDone;
     df_sample := df_sample online;
     sin_of_day := sin_of_day online;
     normal_draw := normal_draw online;
     uniform_draw := uniform_draw online;
     exponential_draw := exponential_draw online |}.

(** A machine on which nothing was loaded yet. *)
Definition fresh_world : World := mkWorld ∅ ∅ [] [] O.

(** A machine whose cache file for January 2023 cannot be read. *)
Definition stale_world : World :=
  mkWorld ∅ {[cache_path 2023 1 50000 := None]} [] [] O.

(** The cleaned trips, and the same with their zones. *)
Definition cleaned : list CleanRow := Clean._clean_taxi_data trips_file.

Definition zoned : list ZonedRow :=
  Zones.enrich_taxi_data_with_zones cleaned (Zones.create_zone_lookup (Some zones_file)).

(** The controls at: the first week of 2023, all hours, any payment,
    rain, weekdays. *)
Definition rainy_weekdays : Filters :=
  mkFilters 19358 19364 [0; 23] "all" (DBool true) "weekday".

(** The trip table the dashboard gets from [online]. *)
Definition trips : list TripRow :=
  match (Loader.load_all_data online 2023 1 50000 true fresh_world).1 with
  | Ok (Some data) => raw data
  | _ => []
  end.

(** The trip server's stream breaks after the local file was opened. *)
Definition broken_stream : Env :=
  {| get_parquet := fun _ _ => FetchBroken;
     get_geojson := get_geojson online;
     raw_writable := true;
     cache_write := WriteDone;
     df_sample := df_sample online;
     sin_of_day := sin_of_day online;
     normal_draw := normal_draw online;
     uniform_draw := uniform_draw online;
     exponential_draw := exponential_draw online |}.

(** A machine that has the trip file of January 2023 and nothing else. *)
Definition copied_world : World :=
  mkWorld {[raw_path 2023 1 := Some trips_file]} ∅ [] [] O.

End Fixture.

(** * Reasoning about callbacks *)

Module Logic.
Import Exec App Spec.

(** [s'] has every frame of [s] unchanged, and the same global. *)
Definition extends (s s' : Dash) : Prop :=
  (forall l, l ∈ dom (heap s) -> heap s' !! l = heap s !! l) /\
  dom (heap s) ⊆ dom (heap s') /\
  taxi_df s' = taxi_df s.

(** [m] run in [s] returns, with a value and a state that satisfy [Q]. *)
Definition returns {A} (m : Py A) (s : Dash) (Q : A -> Dash -> Prop) : Prop :=
  exists a s', m s = (Ok a, s') /\ Q a s'.

(** Whatever [m] does, it leaves the frames it found untouched. *)
Definition frames {A} (m : Py A) : Prop :=
  forall s, extends s (m s).2.

(** A computation that keeps the store's data. *)
Definition keeps_store {A} (m : Py A) : Prop := forall s, store (m s).2 = store s.

(** The mask a control puts on the rows, [h0] and [h1] being the two
    ends of the hour range. *)
Definition mask_of (f : Filters) (h0 h1 : Z) (c : Control) (r : TripRow) : bool :=
  match c with
  | ByDate => in_range (start_date f) (end_date f) (date r)
  | ByHour => in_range h0 h1 (hour r)
  | ByPayment =>
      if bool_decide (payment_type_sel f ≠ "all")
      then bool_decide (payment_type_name r = payment_type_sel f)
      else true
  | ByWeather =>
      if not_all (weather_sel f) then rainy_is (weather_sel f) r else true
  | ByDayType =>
      if bool_decide (day_type_sel f = "weekday") then negb (is_weekend r)
      else if bool_decide (day_type_sel f = "weekend") then is_weekend r
      else true
  end.

(** The controls that [update_filtered_data] takes before the day type. *)
Definition before_day_type : list Control := [ByDate; ByHour; ByPayment; ByWeather].

(** A computation whose value is [v] in whatever state it is run. *)
Definition always {A} (m : Py A) (v : A) : Prop := forall s, (m s).1 = Ok v.

Definition select_all (f : Filters) (h0 h1 : Z) (order : list Control)
    (rows : Frame) : Frame :=
  foldl (fun rows c => filter (fun r => mask_of f h0 h1 c r) rows) rows order.

End Logic.

(** * Reasoning about the loader *)

(** [load_all_data] cut at its comments into three stages, to reason about
    one at a time; [Stages.staged] is shown equal to it. *)
Module Stages.
Import Exec Sys Loader.

Section WithEnv.
Variable env : Env.

(** "Try to load from cache if enabled" *)
Definition try_cache (year month sample_size : Z) (use_cache : bool)
    : IO (option Package) :=
  let cache_file := cache_path year month sample_size in
  cached ← file_exists cache_files cache_file;
  if use_cache && cached then
    print LoadingFromCache;;
    try_except
      (data ← read_pickle cache_file;
       print CacheLoaded;;
       print_summary (raw data);;
       mret (Some data))
      (print CacheLoadFailed;;
       mret None)
  else mret None.

(** "Download and process data", up to the dict. *)
Definition build (year month sample_size : Z) : IO (option Package) :=
  taxi_df ← load_taxi_data env year month sample_size;
  match taxi_df with
  | [] =>
      print FailedToLoadTaxiData;;
      mret None
  | _ =>
      geojson ← load_nyc_zones_geojson env;
      let zone_lookup := Zones.create_zone_lookup geojson in
      let taxi_df := Zones.enrich_taxi_data_with_zones taxi_df zone_lookup in
      weather_df ← generate_synthetic_weather env taxi_df;
      taxi_df ← lift (Merge.merge_weather_data taxi_df weather_df);
      '(agg_data, taxi_df) ← create_aggregations taxi_df;
      print LoadingComplete;;
      print_summary taxi_df;;
      mret (Some (mkPackage taxi_df geojson zone_lookup agg_data))
  end.

(** "Save to cache" *)
Definition save (year month sample_size : Z) (data : Package) : IO unit :=
  let cache_file := cache_path year month sample_size in
  try_except
    (print SavingCache;;
     save_pickle env cache_file data;;
     print (CachedTo cache_file))
    (print FailedToSaveCache).

(** The load when the cache gave nothing. *)
Definition recompute (year month sample_size : Z) : IO (option Package) :=
  built ← build year month sample_size;
  match built with
  | None => mret None
  | Some data => save year month sample_size data;; mret (Some data)
  end.

Definition staged (year month sample_size : Z) (use_cache : bool)
    : IO (option Package) :=
  from_cache ← try_cache year month sample_size use_cache;
  match from_cache with
  | Some data => mret (Some data)
  | None => recompute year month sample_size
  end.

End WithEnv.

(** Two worlds that differ at most in what was printed and in the cache
    directory. *)
Definition sim (w1 w2 : World) : Prop :=
  raw_files w1 = raw_files w2 /\ requests w1 = requests w2 /\ rng w1 = rng w2.

(** A computation that reads neither the output nor the cache
    directory. *)
Definition uniform {A} (m : IO A) : Prop :=
  forall w1 w2, sim w1 w2 -> (m w1).1 = (m w2).1 /\ sim (m w1).2 (m w2).2.

(** What was printed between [w] and [w']. *)
Definition printed (w w' : World) : list Msg :=
  drop (length (stdout w)) (stdout w').

(** The environment with another outcome for the writing of the cache. *)
Definition with_cache_write (o : write_outcome) (env : Env) : Env :=
  {| get_parquet := get_parquet env;
     get_geojson := get_geojson env;
     raw_writable := raw_writable env;
     cache_write := o;
     df_sample := df_sample env;
     sin_of_day := sin_of_day env;
     normal_draw := normal_draw env;
     uniform_draw := uniform_draw env;
     exponential_draw := exponential_draw env |}.

(** The world after [n] draws from the generator. *)
Definition advanced (n : nat) (w : World) : World :=
  mkWorld (raw_files w) (cache_files w) (stdout w) (requests w) (rng w + n)%nat.

(** The world without one cache file. *)
Definition without_cache (path : string) (w : World) : World :=
  mkWorld (raw_files w) (delete path (cache_files w)) (stdout w) (requests w) (rng w).

End Stages.

Module ExecFacts.
Import Exec.

Lemma bind_eq {S A B} (m : M S A) (k : A -> M S B) s :
  (m ≫= k) s = match m s with
               | (Ok a, s') => k a s'
               | (Raise, s') => (Raise, s')
               end.
Proof. reflexivity. Qed.

Lemma bind_assoc {S A B C} (m : M S A) (k : A -> M S B) (k' : B -> M S C) s :
  ((m ≫= k) ≫= k') s = (m ≫= fun a => k a ≫= k') s.
Proof. rewrite !bind_eq. by destruct (m s) as [[a|] s']. Qed.

Lemma bind_ext {S A B} (m : M S A) (k k' : A -> M S B) s :
  (forall a s', k a s' = k' a s') -> (m ≫= k) s = (m ≫= k') s.
Proof. intros Hk. rewrite !bind_eq. destruct (m s) as [[a|] s']; [apply Hk | done]. Qed.

Lemma try_except_eq {S A} (body handler : M S A) s :
  try_except body handler s = match body s with
                              | (Ok a, s') => (Ok a, s')
                              | (Raise, s') => handler s'
                              end.
Proof. reflexivity. Qed.

End ExecFacts.

Module AppFacts.
Import Exec App Spec Logic ExecFacts.

Lemma extends_refl s : extends s s.
Proof. by repeat split. Qed.

Lemma extends_trans s1 s2 s3 : extends s1 s2 -> extends s2 s3 -> extends s1 s3.
Proof.
  intros (Ha & Hd & Ht) (Ha' & Hd' & Ht'). repeat split.
  - intros l Hl. rewrite Ha' by set_solver. by apply Ha.
  - set_solver.
  - congruence.
Qed.

Lemma extends_lookup s s' l rows :
  extends s s' -> heap s !! l = Some rows -> heap s' !! l = Some rows.
Proof.
  intros (Ha & _ & _) Hl. rewrite Ha; [done|]. apply elem_of_dom; eauto.
Qed.

Lemma extends_global s s' table :
  extends s s' -> heap s !! taxi_df s = Some table ->
  heap s' !! taxi_df s' = Some table.
Proof.
  intros He Hl. destruct He as (Ha & Hd & Ht). rewrite Ht.
  eapply extends_lookup; [|done]. by repeat split.
Qed.

(** ** The monad *)

Lemma returns_ret {A} (a : A) s (Q : A -> Dash -> Prop) :
  Q a s -> returns (mret a) s Q.
Proof. intros HQ. by exists a, s. Qed.

Lemma returns_bind {A B} (m : Py A) (k : A -> Py B) s Q R :
  returns m s Q ->
  (forall a s', Q a s' -> returns (k a) s' R) ->
  returns (m ≫= k) s R.
Proof.
  intros (a & s' & Hm & HQ) Hk.
  destruct (Hk a s' HQ) as (b & s'' & Hk' & HR).
  exists b, s''. split; [|done]. by rewrite bind_eq, Hm.
Qed.

Lemma returns_mono {A} (m : Py A) s (Q R : A -> Dash -> Prop) :
  returns m s Q -> (forall a s', Q a s' -> R a s') -> returns m s R.
Proof. intros (a & s' & Hm & HQ) HR. exists a, s'. eauto. Qed.

Lemma frames_ret {A} (a : A) : frames (mret a : Py A).
Proof. intros s. apply extends_refl. Qed.

Lemma frames_raise {A} : frames (raise : Py A).
Proof. intros s. apply extends_refl. Qed.

Lemma frames_gets {A} (f : Dash -> A) : frames (gets f).
Proof. intros s. apply extends_refl. Qed.

Lemma frames_bind {A B} (m : Py A) (k : A -> Py B) :
  frames m -> (forall a, frames (k a)) -> frames (m ≫= k).
Proof.
  intros Hm Hk s. rewrite bind_eq. specialize (Hm s).
  destruct (m s) as [[a|] s']; simpl in *; [|done].
  eapply extends_trans; [done|]. apply Hk.
Qed.

(** ** The primitives *)

Lemma alloc_extends rows s : extends s (alloc rows s).2.
Proof.
  unfold alloc; simpl. pose proof (is_fresh (dom (heap s))) as Hf.
  repeat split; simpl.
  - intros l Hl. rewrite lookup_insert_ne; [done|]. intros Heq. apply Hf. by rewrite Heq.
  - rewrite dom_insert_L. set_solver.
Qed.

Lemma alloc_returns rows s :
  returns (alloc rows) s
    (fun l s' => heap s' !! l = Some rows /\ (l ∉ dom (heap s)) /\
                 extends s s' /\ store s' = store s).
Proof.
  eexists _, _. split; [reflexivity|]. split_and!.
  - simpl. apply lookup_insert_eq.
  - apply is_fresh.
  - apply (alloc_extends rows s).
  - done.
Qed.

Lemma rows_of_returns l rows s :
  heap s !! l = Some rows ->
  returns (rows_of l) s (fun rows' s' => rows' = rows /\ s' = s).
Proof. intros Hl. exists rows, s. unfold rows_of. by rewrite Hl. Qed.

Lemma gets_returns {A} (f : Dash -> A) s :
  returns (gets f) s (fun a s' => a = f s /\ s' = s).
Proof. by exists (f s), s. Qed.

Lemma index_returns xs i x s :
  xs !! i = Some x -> returns (index xs i) s (fun a s' => a = x /\ s' = s).
Proof. intros Hx. exists x, s. unfold index. by rewrite Hx. Qed.

Lemma frames_alloc rows : frames (alloc rows).
Proof. intros s. apply alloc_extends. Qed.

Lemma frames_rows_of l : frames (rows_of l).
Proof. intros s. unfold rows_of. destruct (heap s !! l); apply extends_refl. Qed.

Lemma frames_index xs i : frames (index xs i).
Proof. unfold index. destruct (xs !! i); [apply frames_ret | apply frames_raise]. Qed.

Lemma frames_df_select l mask : frames (df_select l mask).
Proof. apply frames_bind; [apply frames_rows_of | intros; apply frames_alloc]. Qed.

Lemma frames_df_copy l : frames (df_copy l).
Proof. apply frames_bind; [apply frames_rows_of | intros; apply frames_alloc]. Qed.

Lemma df_select_returns l mask rows s :
  heap s !! l = Some rows ->
  returns (df_select l mask) s
    (fun l' s' => heap s' !! l' = Some (filter (fun r => mask r) rows) /\
                  extends s s' /\ store s' = store s).
Proof.
  intros Hl. eapply returns_bind; [by apply rows_of_returns|].
  intros rows' s' [-> ->]. eapply returns_mono; [apply alloc_returns|].
  intros l' s'' (Hl' & _ & He & Hs). done.
Qed.

Lemma df_copy_returns l rows s :
  heap s !! l = Some rows ->
  returns (df_copy l) s
    (fun l' s' => heap s' !! l' = Some rows /\ extends s s' /\ store s' = store s).
Proof.
  intros Hl. eapply returns_bind; [by apply rows_of_returns|].
  intros rows' s' [-> ->]. eapply returns_mono; [apply alloc_returns|].
  intros l' s'' (Hl' & _ & He & Hs). done.
Qed.

(** ** One control, then all of them *)

Lemma filter_all_rows (rows : Frame) : filter (fun _ : TripRow => Is_true true) rows = rows.
Proof.
  induction rows as [|r rows IH]; [done|].
  rewrite filter_cons_True by done. by rewrite IH.
Qed.

Section Controls.
Variables (start_date end_date h0 h1 : Z) (rest : list Z).
Variables (payment_type : string) (weather : dropdown_value) (day_type : string).

Let f : Filters :=
  mkFilters start_date end_date (h0 :: h1 :: rest) payment_type weather day_type.

Lemma apply_control_returns c l rows s :
  heap s !! l = Some rows ->
  returns (apply_control f c l) s
    (fun l' s' => heap s' !! l' = Some (filter (fun r => mask_of f h0 h1 c r) rows) /\
                  extends s s' /\ store s' = store s).
Proof.
  intros Hl.
  assert (Hsame : returns (mret l : Py loc) s
            (fun l' s' => heap s' !! l' = Some (filter (fun _ => Is_true true) rows) /\
                          extends s s' /\ store s' = store s)).
  { apply returns_ret. rewrite filter_all_rows. split_and!; [done|apply extends_refl|done]. }
  destruct c; simpl.
  - by apply df_select_returns.
  - by apply (df_select_returns l (fun r => in_range h0 h1 (hour r))).
  - destruct (bool_decide (payment_type ≠ "all")); [by apply df_select_returns | done].
  - destruct (not_all weather); [by apply df_select_returns | done].
  - destruct (bool_decide (day_type = "weekday"));
      [by apply (df_select_returns l (fun r => negb (is_weekend r)))|].
    destruct (bool_decide (day_type = "weekend")); [by apply df_select_returns | done].
Qed.

Lemma apply_controls_returns order l rows s :
  heap s !! l = Some rows ->
  returns (apply_controls f order l) s
    (fun l' s' => heap s' !! l' = Some (select_all f h0 h1 order rows) /\
                  extends s s' /\ store s' = store s).
Proof.
  revert l rows s. induction order as [|c order IH]; intros l rows s Hl.
  - apply returns_ret. split_and!; [done|apply extends_refl|done].
  - simpl. eapply returns_bind; [by apply apply_control_returns|].
    intros l' s' (Hl' & He & Hs). eapply returns_mono; [by apply IH|].
    intros l'' s'' (Hl'' & He' & Hs'). split_and!; [done| |congruence].
    by eapply extends_trans.
Qed.

Lemma filtered_in_order_returns order table s :
  heap s !! taxi_df s = Some table ->
  returns (filtered_in_order f order) s
    (fun out s' => out = select_all f h0 h1 order table /\
                   extends s s' /\ store s' = store s).
Proof.
  intros Hg. unfold filtered_in_order.
  eapply returns_bind; [apply gets_returns|].
  intros g s0 [-> ->].
  eapply returns_bind; [by apply df_copy_returns|].
  intros l1 s1 (Hl1 & He1 & Hs1).
  eapply returns_bind; [by apply apply_controls_returns|].
  intros l2 s2 (Hl2 & He2 & Hs2).
  eapply returns_mono; [by apply rows_of_returns|].
  intros out s3 [-> ->]. split_and!; [done| |congruence].
  by eapply extends_trans.
Qed.

(** The callback is its controls taken in the order of the source. *)
Lemma update_filtered_data_returns table s :
  heap s !! taxi_df s = Some table ->
  returns (update_filtered_data start_date end_date (h0 :: h1 :: rest)
                                payment_type weather day_type) s
    (fun out s' => out = select_all f h0 h1 controls table /\
                   extends s s' /\ store s' = store s).
Proof.
  intros Hg. unfold update_filtered_data.
  eapply returns_bind; [apply gets_returns|].
  intros g s0 [-> ->].
  eapply returns_bind; [by apply df_copy_returns|].
  intros l1 s1 (Hl1 & He1 & Hs1).
  eapply returns_bind; [by apply (apply_control_returns ByDate)|].
  intros l2 s2 (Hl2 & He2 & Hs2).
  eapply returns_bind; [by apply (index_returns _ _ h0)|].
  intros ? ? [-> ->].
  eapply returns_bind; [by apply (index_returns _ _ h1)|].
  intros ? ? [-> ->].
  eapply returns_bind; [by apply (apply_control_returns ByHour)|].
  intros l3 s3 (Hl3 & He3 & Hs3).
  eapply returns_bind; [by apply (apply_control_returns ByPayment)|].
  intros l4 s4 (Hl4 & He4 & Hs4).
  eapply returns_bind; [by apply (apply_control_returns ByWeather)|].
  intros l5 s5 (Hl5 & He5 & Hs5).
  eapply returns_bind; [by apply (apply_control_returns ByDayType)|].
  intros l6 s6 (Hl6 & He6 & Hs6).
  eapply returns_mono; [by apply rows_of_returns|].
  intros out s7 [-> ->]. split_and!; [done| |congruence].
  repeat (eapply extends_trans; [eassumption|]). apply extends_refl.
Qed.

End Controls.

(** ** Masks as one predicate *)

Lemma select_all_filter f h0 h1 order rows :
  select_all f h0 h1 order rows
  = filter (fun r => forallb (fun c => mask_of f h0 h1 c r) order) rows.
Proof.
  revert rows. induction order as [|c order IH]; intros rows; simpl.
  - symmetry. apply filter_all_rows.
  - unfold select_all in *. simpl. rewrite IH, list_filter_filter.
    apply list_filter_iff. intros r.
    rewrite andb_True. tauto.
Qed.

Lemma forallb_perm {A} (p : A -> bool) (xs ys : list A) :
  xs ≡ₚ ys -> forallb p xs = forallb p ys.
Proof.
  induction 1 as [|x xs ys _ IH|x y xs|xs ys zs _ IH1 _ IH2]; simpl.
  - done.
  - by rewrite IH.
  - destruct (p x), (p y); done.
  - congruence.
Qed.

Lemma select_all_perm f h0 h1 order order' rows :
  order ≡ₚ order' -> select_all f h0 h1 order rows = select_all f h0 h1 order' rows.
Proof.
  intros Hp. rewrite !select_all_filter. apply list_filter_iff. intros r.
  by rewrite (forallb_perm _ _ _ Hp).
Qed.

Lemma in_range_spec lo hi x : in_range lo hi x <-> lo <= x /\ x <= hi.
Proof. unfold in_range. rewrite andb_True, !Is_true_true, !Z.leb_le. tauto. Qed.

Lemma is_weekend_spec r : is_weekend r <-> day_of_week r ∈ weekend_days.
Proof. unfold is_weekend. apply bool_decide_spec. Qed.

Lemma payment_mask_spec payment_type (r : TripRow) :
  Is_true (if bool_decide (payment_type ≠ "all")
           then bool_decide (payment_type_name r = payment_type) else true)
  <-> payment_selected payment_type r.
Proof.
  unfold payment_selected. destruct (decide (payment_type = "all")) as [->|Hne].
  - simpl. split; [by left | done].
  - rewrite bool_decide_eq_true_2 by done. rewrite bool_decide_spec. tauto.
Qed.

Lemma weather_mask_spec weather (r : TripRow) :
  Is_true (if not_all weather then rainy_is weather r else true)
  <-> weather_selected weather r.
Proof.
  unfold not_all, rainy_is, weather_selected. destruct weather as [s|b].
  - destruct (decide (s = "all")) as [->|Hne].
    + simpl. by split.
    + rewrite bool_decide_eq_true_2 by done.
      destruct (is_rainy r); simpl; split; done.
  - destruct (is_rainy r) as [b'|]; simpl.
    + rewrite bool_decide_spec. split; congruence.
    + split; [done | congruence].
Qed.

Lemma day_mask_spec day_type (r : TripRow) :
  Is_true (if bool_decide (day_type = "weekday") then negb (is_weekend r)
           else if bool_decide (day_type = "weekend") then is_weekend r else true)
  <-> day_type_selected day_type r.
Proof.
  unfold day_type_selected. destruct (decide (day_type = "weekday")) as [->|H1].
  - simpl. rewrite negb_True, is_weekend_spec. split.
    + intros Hn. split; [done | intros [=]].
    + intros [Hn _]. by apply Hn.
  - rewrite (bool_decide_eq_false_2 (day_type = "weekday")) by done.
    destruct (decide (day_type = "weekend")) as [->|H2].
    + simpl. rewrite is_weekend_spec. split.
      * intros Hin. split; [intros [=] | done].
      * intros [_ Hin]. by apply Hin.
    + rewrite bool_decide_eq_false_2 by done.
      split; [|done]. intros _. split; intros ->; done.
Qed.

Lemma masks_spec start_date end_date h0 h1 rest payment_type weather day_type r :
  forallb (fun c => mask_of (mkFilters start_date end_date (h0 :: h1 :: rest)
                                       payment_type weather day_type) h0 h1 c r)
          controls
  <-> satisfies start_date end_date h0 h1 payment_type weather day_type r.
Proof.
  unfold satisfies, controls; simpl.
  rewrite !andb_True, !in_range_spec.
  rewrite payment_mask_spec, weather_mask_spec, day_mask_spec.
  unfold date_between, hour_between. change (Is_true true) with True. tauto.
Qed.

Lemma count_rows_filter (P : TripRow -> Prop) `{!forall r, Decision (P r)} table :
  length (filter P table) = count_rows P table.
Proof.
  induction table as [|r table IH]; [done|]. simpl.
  rewrite filter_cons. destruct (decide (P r)); simpl; by rewrite IH.
Qed.

(** ** Frames: what a callback leaves alone *)

(** An assignment to a column of a frame made after [s0] does not reach
    the frames of [s0]. *)
Lemma set_column_extends s0 s l f :
  extends s0 s -> l ∉ dom (heap s0) -> extends s0 (set_column l f s).2.
Proof.
  intros He Hl. unfold set_column. rewrite bind_eq. unfold rows_of.
  destruct (heap s !! l) as [rows|]; [|done]. simpl.
  destruct He as (Ha & Hd & Ht). repeat split; simpl.
  - intros l' Hl'. rewrite lookup_insert_ne; [by apply Ha|]. by intros ->.
  - rewrite dom_insert_L. set_solver.
  - done.
Qed.

Lemma set_column_store l f s : store (set_column l f s).2 = store s.
Proof.
  unfold set_column. rewrite bind_eq. unfold rows_of.
  by destruct (heap s !! l).
Qed.

Lemma frames_load_filtered_data j : frames (load_filtered_data j).
Proof.
  intros s. destruct j as [rows|]; [|apply extends_refl].
  unfold load_filtered_data. rewrite bind_eq.
  destruct (alloc_returns rows s) as (l & s1 & Hal & Hl & Hfresh & He & _).
  rewrite Hal.
  pose proof (set_column_extends s s1 l (fun r => r) He Hfresh) as He2.
  rewrite bind_eq. destruct (set_column l (fun r => r) s1) as [[[]|] s2]; [|done].
  simpl in He2.
  pose proof (set_column_extends s s2 l (fun r => r) He2 Hfresh) as He3.
  rewrite bind_eq. by destruct (set_column l (fun r => r) s2) as [[[]|] s3].
Qed.

Lemma store_load_filtered_data j s : store (load_filtered_data j s).2 = store s.
Proof.
  destruct j as [rows|]; [|done].
  unfold load_filtered_data. rewrite bind_eq.
  destruct (alloc_returns rows s) as (l & s1 & Hal & _ & _ & _ & Hs1).
  rewrite Hal. rewrite bind_eq.
  pose proof (set_column_store l (fun r => r) s1) as Hs2.
  destruct (set_column l (fun r => r) s1) as [[[]|] s2]; simpl in *; [|congruence].
  rewrite bind_eq.
  pose proof (set_column_store l (fun r => r) s2) as Hs3.
  destruct (set_column l (fun r => r) s2) as [[[]|] s3]; simpl in *; congruence.
Qed.

Lemma keeps_store_bind {A B} (m : Py A) (k : A -> Py B) :
  keeps_store m -> (forall a, keeps_store (k a)) -> keeps_store (m ≫= k).
Proof.
  intros Hm Hk s. rewrite bind_eq. specialize (Hm s).
  destruct (m s) as [[a|] s']; simpl in *; [|done].
  by rewrite Hk.
Qed.

Lemma keeps_store_ret {A} (a : A) : keeps_store (mret a : Py A).
Proof. done. Qed.

Lemma keeps_store_gets {A} (f : Dash -> A) : keeps_store (gets f).
Proof. done. Qed.

Lemma keeps_store_rows_of l : keeps_store (rows_of l).
Proof. intros s. unfold rows_of. by destruct (heap s !! l). Qed.

Lemma keeps_store_alloc rows : keeps_store (alloc rows).
Proof. done. Qed.

Ltac step_frames :=
  repeat first
    [ apply frames_load_filtered_data
    | apply frames_rows_of
    | apply frames_alloc
    | apply frames_df_select
    | apply frames_df_copy
    | apply frames_index
    | apply frames_gets
    | apply frames_ret
    | apply frames_bind
    | intros ?
    | case_match ].

Ltac step_store :=
  repeat first
    [ apply store_load_filtered_data
    | apply keeps_store_rows_of
    | apply keeps_store_alloc
    | apply keeps_store_gets
    | apply keeps_store_ret
    | apply keeps_store_bind
    | intros ?
    | case_match ].

Lemma frames_update_filtered_data a b hr p w d :
  frames (update_filtered_data a b hr p w d).
Proof. unfold update_filtered_data, to_json. step_frames. Qed.

Lemma frames_fire env e : frames (fire env e).
Proof.
  destruct e; simpl.
  - apply frames_bind; [apply frames_update_filtered_data|].
    intros j s. by repeat split.
  - unfold update_metrics. step_frames.
  - unfold update_time_series. step_frames.
  - unfold update_heatmap. step_frames.
  - unfold update_weather_chart. step_frames.
  - unfold update_scatter. step_frames.
  - unfold update_borough_boxplot. step_frames.
  - unfold update_payment_breakdown. step_frames.
Qed.

Lemma chart_keeps_store env e : is_chart e -> keeps_store (fire env e).
Proof.
  destruct e; simpl; [done|..]; intros _.
  - unfold update_metrics. step_store.
  - unfold update_time_series. step_store.
  - unfold update_heatmap. step_store.
  - unfold update_weather_chart. step_store.
  - unfold update_scatter. step_store.
  - unfold update_borough_boxplot. step_store.
  - unfold update_payment_breakdown. step_store.
Qed.

(** ** What a chart callback returns *)

Lemma set_column_returns l f rows s :
  heap s !! l = Some rows ->
  returns (set_column l f) s (fun _ s' => heap s' !! l = Some (f <$> rows)).
Proof.
  intros Hl. eexists tt, _. split.
  - unfold set_column. rewrite bind_eq. unfold rows_of. rewrite Hl. reflexivity.
  - cbn. apply lookup_insert_eq.
Qed.

Lemma load_filtered_data_returns rows s :
  returns (load_filtered_data (Some rows)) s
    (fun r s' => exists l, r = Some l /\ heap s' !! l = Some rows).
Proof.
  unfold load_filtered_data.
  eapply returns_bind; [apply alloc_returns|]. intros l s1 (Hl & _).
  eapply returns_bind; [by apply set_column_returns|]. intros [] s2 Hl2.
  rewrite list_fmap_id in Hl2.
  eapply returns_bind; [by apply set_column_returns|]. intros [] s3 Hl3.
  rewrite list_fmap_id in Hl3.
  apply returns_ret. eauto.
Qed.

Lemma ret_returns {A} (a : A) s :
  returns (mret a : Py A) s (fun a' s' => a' = a /\ s' = s).
Proof. by apply returns_ret. Qed.

Lemma returns_always {A} (m : Py A) (v : A) :
  (forall s, returns m s (fun a _ => a = v)) -> always m v.
Proof. intros Hm s. destruct (Hm s) as (a & s' & -> & ->). done. Qed.

(** A callback that reads the frame made of the store's data and returns
    a function of its rows. *)
Ltac reads_frame :=
  let s := fresh "s" in
  eexists; apply returns_always; intros s;
  first
    [ eapply returns_bind; [apply load_filtered_data_returns|];
      intros ? ? (? & -> & ?);
      eapply returns_bind; [by apply rows_of_returns|];
      intros ? ? [-> ->]; apply returns_ret; cbn beta; reflexivity
    | eapply returns_bind; [apply ret_returns|];
      intros ? ? [-> ->]; apply returns_ret; cbn beta; reflexivity ].

Lemma update_metrics_always j : exists v, always (update_metrics j) v.
Proof. unfold update_metrics. destruct j; reads_frame. Qed.

Lemma update_time_series_always j : exists v, always (update_time_series j) v.
Proof. unfold update_time_series. destruct j; reads_frame. Qed.

Lemma update_heatmap_always j : exists v, always (update_heatmap j) v.
Proof. unfold update_heatmap. destruct j; reads_frame. Qed.

Lemma update_weather_chart_always j : exists v, always (update_weather_chart j) v.
Proof. unfold update_weather_chart. destruct j; reads_frame. Qed.

Lemma update_borough_boxplot_always j : exists v, always (update_borough_boxplot j) v.
Proof. unfold update_borough_boxplot. destruct j; reads_frame. Qed.

Lemma update_payment_breakdown_always j : exists v, always (update_payment_breakdown j) v.
Proof. unfold update_payment_breakdown. destruct j; reads_frame. Qed.

Lemma update_scatter_always env j : exists v, always (update_scatter env j) v.
Proof.
  unfold update_scatter. destruct j as [rows|]; [|reads_frame].
  exists (Some (if (5000 <? length rows)%nat
                then Sys.df_sample env _ 5000 rows else rows)).
  apply returns_always. intros s.
  eapply returns_bind; [apply load_filtered_data_returns|].
  intros ? s1 (l & -> & Hl).
  eapply returns_bind; [by apply rows_of_returns|]. intros ? ? [-> ->].
  destruct (5000 <? length rows)%nat.
  - eapply returns_bind; [apply alloc_returns|]. intros l' s' (Hl' & _).
    eapply returns_bind; [by apply rows_of_returns|]. intros ? ? [-> ->].
    by apply returns_ret.
  - eapply returns_bind; [apply ret_returns|]. intros ? ? [-> ->].
    eapply returns_bind; [by apply rows_of_returns|]. intros ? ? [-> ->].
    by apply returns_ret.
Qed.

(** A chart callback returns, and what it returns is decided by the
    store's data alone. *)
Lemma chart_output env e s s' :
  is_chart e -> store s = store s' ->
  exists o, (fire env e s).1 = Ok o /\ (fire env e s').1 = Ok o.
Proof.
  intros He Hstore.
  assert (Hrun : forall {A} (m : option Json -> Py A) (wrap : A -> Output),
             (forall j, exists v, always (m j) v) ->
             exists o,
               ((j ← gets store; a ← m j; mret (wrap a)) s).1 = Ok o /\
               ((j ← gets store; a ← m j; mret (wrap a)) s').1 = Ok o).
  { intros A m wrap Hm. destruct (Hm (store s)) as [v Hv].
    exists (wrap v). rewrite !bind_eq. cbn. rewrite <- Hstore.
    rewrite !bind_eq. pose proof (Hv s) as H1. pose proof (Hv s') as H2.
    destruct (m (store s) s) as [r1 s1], (m (store s) s') as [r2 s2].
    cbn in H1, H2. by subst. }
  destruct e; cbn in He; [done|..]; cbn [fire]; apply Hrun; intros j.
  - apply update_metrics_always.
  - apply update_time_series_always.
  - apply update_heatmap_always.
  - apply update_weather_chart_always.
  - apply update_scatter_always.
  - apply update_borough_boxplot_always.
  - apply update_payment_breakdown_always.
Qed.

Lemma interact_global env es s table :
  heap s !! taxi_df s = Some table ->
  heap (interact env es s) !! taxi_df (interact env es s) = Some table /\
  taxi_df (interact env es s) = taxi_df s.
Proof.
  revert s. induction es as [|e es IH]; intros s Hg; [done|].
  simpl. pose proof (frames_fire env e s) as He.
  destruct (IH (handle env s e)) as [IH1 IH2].
  { by eapply extends_global. }
  split; [done|]. rewrite IH2. apply He.
Qed.

Lemma interact_charts_store env es s :
  Forall is_chart es -> store (interact env es s) = store s.
Proof.
  intros Hes. revert s. induction Hes as [|e es He _ IH]; intros s; [done|].
  simpl. rewrite IH. by apply chart_keeps_store.
Qed.

(** ** The day-type control comes last *)

Lemma select_all_day_type_last f h0 h1 table :
  select_all f h0 h1 controls table
  = filter (fun r => mask_of f h0 h1 ByDayType r)
           (select_all f h0 h1 before_day_type table).
Proof. reflexivity. Qed.

Lemma boot_global table : heap (boot table) !! taxi_df (boot table) = Some table.
Proof. apply lookup_singleton_eq. Qed.

End AppFacts.

(** * The dashboard filter *)

Import Spec.

(** C1.  For every trip table, at any moment of a session, and for every
    setting of the five controls (the hour range having its two ends),
    [update_filtered_data] returns, and what it returns is the rows of the
    table, in table order, that satisfy the conjunction of the five
    predicates; a row is in the result exactly when it is in the table and
    satisfies them, and the number of rows returned is the number of rows
    of the table that satisfy them. *)
Theorem filtered_rows_exact
    (env : Sys.Env) (table : list TripRow) (es : list App.Event)
    (start_date end_date h0 h1 : Z) (rest : list Z)
    (payment_type : string) (weather : App.dropdown_value) (day_type : string) :
  exists out s',
    App.update_filtered_data start_date end_date (h0 :: h1 :: rest)
                             payment_type weather day_type
                             (App.interact env es (App.boot table))
    = (Exec.Ok out, s') /\
    out = filter (satisfies start_date end_date h0 h1 payment_type weather day_type) table /\
    (forall r, r ∈ out <->
               r ∈ table /\
               satisfies start_date end_date h0 h1 payment_type weather day_type r) /\
    length out
    = count_rows (satisfies start_date end_date h0 h1 payment_type weather day_type) table.
Proof.
  destruct (AppFacts.interact_global env es _ table (AppFacts.boot_global table))
    as [Hglobal _].
  destruct (AppFacts.update_filtered_data_returns
              start_date end_date h0 h1 rest payment_type weather day_type
              table _ Hglobal)
    as (out & s' & Hrun & Hout & _ & _).
  assert (Hfilter : out = filter (satisfies start_date end_date h0 h1
                                            payment_type weather day_type) table).
  { rewrite Hout, AppFacts.select_all_filter. apply list_filter_iff.
    intros r. apply AppFacts.masks_spec. }
  exists out, s'. split_and!; [done|done| |].
  - intros r. rewrite Hfilter, list_elem_of_filter. tauto.
  - rewrite Hfilter. apply AppFacts.count_rows_filter.
Qed.

(** C2.  The five filters commute: at any moment of a session, the
    controls taken in any order give the dataset [update_filtered_data]
    gives.  The chart callbacks that consume it are independent of one
    another and of their order: each leaves the store's data as it is, and
    what each returns is decided by the store's data alone. *)
Theorem filters_commute
    (env : Sys.Env) (table : list TripRow) (es : list App.Event)
    (start_date end_date h0 h1 : Z)
    (rest : list Z) (payment_type : string) (weather : App.dropdown_value)
    (day_type : string) (order : list Spec.Control) (charts : list App.Event) :
  order ≡ₚ Spec.controls ->
  Forall Spec.is_chart charts ->
  (exists out,
     (Spec.filtered_in_order
        (App.mkFilters start_date end_date (h0 :: h1 :: rest) payment_type weather day_type)
        order (App.interact env es (App.boot table))).1 = Exec.Ok out /\
     (App.update_filtered_data start_date end_date (h0 :: h1 :: rest)
                               payment_type weather day_type
                               (App.interact env es (App.boot table))).1
     = Exec.Ok out) /\
  (forall s, App.store (App.interact env charts s) = App.store s) /\
  (forall e s1 s2,
     e ∈ charts -> App.store s1 = App.store s2 ->
     exists o, (App.fire env e s1).1 = Exec.Ok o /\ (App.fire env e s2).1 = Exec.Ok o).
Proof.
  intros Hperm Hcharts.
  destruct (AppFacts.interact_global env es _ table (AppFacts.boot_global table))
    as [Hglobal _].
  destruct (AppFacts.update_filtered_data_returns
              start_date end_date h0 h1 rest payment_type weather day_type
              table _ Hglobal)
    as (out & s1 & Hrun & Hout & _ & _).
  destruct (AppFacts.filtered_in_order_returns
              start_date end_date h0 h1 rest payment_type weather day_type
              order table _ Hglobal)
    as (out' & s2 & Hrun' & Hout' & _ & _).
  split_and!.
  - exists out. split; [|by rewrite Hrun].
    rewrite Hrun'. simpl. f_equal. rewrite Hout', Hout.
    by apply AppFacts.select_all_perm.
  - intros s. by apply AppFacts.interact_charts_store.
  - intros e sa sb He Hstore. apply AppFacts.chart_output; [|done].
    rewrite Forall_forall in Hcharts. by apply Hcharts.
Qed.

(** C7.  After any sequence of filter changes and chart renderings, the
    global [taxi_df] names the frame it named when the server started, and
    that frame holds the rows it held then. *)
Theorem callbacks_leave_trip_table
    (env : Sys.Env) (table : list TripRow) (es : list App.Event) :
  let s := App.interact env es (App.boot table) in
  App.heap s !! App.taxi_df s = Some table /\
  App.taxi_df s = App.taxi_df (App.boot table).
Proof.
  apply AppFacts.interact_global, AppFacts.boot_global.
Qed.

(** C9.  With the other four controls fixed, at any moment of a session,
    the rows returned for 'weekday' and for 'weekend' have no row in
    common, together they are the rows returned for 'all', and a row is
    returned for 'all' exactly when it is returned for one of the two. *)
Theorem day_type_partitions
    (env : Sys.Env) (table : list TripRow) (es : list App.Event)
    (start_date end_date h0 h1 : Z) (rest : list Z)
    (payment_type : string) (weather : App.dropdown_value) :
  let s := App.interact env es (App.boot table) in
  exists weekday weekend all_days,
    (App.update_filtered_data start_date end_date (h0 :: h1 :: rest)
                              payment_type weather "weekday" s).1
    = Exec.Ok weekday /\
    (App.update_filtered_data start_date end_date (h0 :: h1 :: rest)
                              payment_type weather "weekend" s).1
    = Exec.Ok weekend /\
    (App.update_filtered_data start_date end_date (h0 :: h1 :: rest)
                              payment_type weather "all" s).1
    = Exec.Ok all_days /\
    (forall r, r ∈ weekday -> r ∉ weekend) /\
    weekday ++ weekend ≡ₚ all_days /\
    (forall r, r ∈ all_days <-> r ∈ weekday \/ r ∈ weekend).
Proof.
  intros s.
  destruct (AppFacts.interact_global env es _ table (AppFacts.boot_global table))
    as [Hglobal _]. fold s in Hglobal.
  pose (base := Logic.select_all
                  (App.mkFilters start_date end_date (h0 :: h1 :: rest)
                                 payment_type weather "all")
                  h0 h1 Logic.before_day_type table).
  destruct (AppFacts.update_filtered_data_returns
              start_date end_date h0 h1 rest payment_type weather "weekday"
              table s Hglobal)
    as (wd & s1 & Hrun1 & Hwd & _ & _).
  destruct (AppFacts.update_filtered_data_returns
              start_date end_date h0 h1 rest payment_type weather "weekend"
              table s Hglobal)
    as (we & s2 & Hrun2 & Hwe & _ & _).
  destruct (AppFacts.update_filtered_data_returns
              start_date end_date h0 h1 rest payment_type weather "all"
              table s Hglobal)
    as (al & s3 & Hrun3 & Hal & _ & _).
  rewrite AppFacts.select_all_day_type_last in Hwd, Hwe, Hal.
  assert (Hwd' : wd = filter (fun r : TripRow => ¬ App.is_weekend r) base).
  { rewrite Hwd. apply list_filter_iff. intros r. simpl. by rewrite negb_True. }
  assert (Hwe' : we = filter (fun r : TripRow => App.is_weekend r) base).
  { rewrite Hwe. by apply list_filter_iff. }
  assert (Hal' : al = base).
  { rewrite Hal. apply AppFacts.filter_all_rows. }
  exists wd, we, al. rewrite Hrun1, Hrun2, Hrun3. split_and!; [done|done|done|..].
  - intros r. rewrite Hwd', Hwe', !list_elem_of_filter. tauto.
  - rewrite Hwd', Hwe', Hal'. rewrite (comm (++)). apply filter_app_complement.
  - intros r. rewrite Hwd', Hwe', Hal', !list_elem_of_filter.
    destruct (decide (App.is_weekend r)); tauto.
Qed.

(** * Reasoning about the tables *)

Module TableFacts.
Import Exec Spec.

(** ** Comparisons of cells *)

Lemma Qltb_spec a b : Num.Qltb a b <-> (a < b)%Q.
Proof.
  unfold Num.Qltb. rewrite negb_True, Is_true_true, Qle_bool_iff.
  split; [apply Qnot_le_lt | apply Qlt_not_le].
Qed.

Lemma Qleb_spec a b : Num.Qleb a b <-> (a <= b)%Q.
Proof. unfold Num.Qleb. by rewrite Is_true_true, Qle_bool_iff. Qed.

Lemma within_spec lo hi x :
  Num.gt x lo && Num.le x hi <-> Spec.within lo hi x.
Proof.
  unfold Spec.within, Num.gt, Num.le. destruct x as [q|]; simpl.
  - rewrite andb_True, Qltb_spec, Qleb_spec. split.
    + intros [? ?]. by exists q.
    + by intros (q' & [= <-] & ? & ?).
  - split; [done | by intros (q' & [=] & _)].
Qed.

(** ** [_clean_taxi_data] *)

Lemma elem_of_dropna (t : TimedRow) df :
  t ∈ Clean.dropna_datetimes df ->
  tpep_pickup_datetime t = Some (pickup t) /\
  tpep_dropoff_datetime t = Some (dropoff t).
Proof.
  unfold Clean.dropna_datetimes. rewrite list_elem_of_omap.
  intros (r & _ & Hr).
  destruct (tpep_pickup_datetime r) as [p|] eqn:Hp; [|done].
  destruct (tpep_dropoff_datetime r) as [d|] eqn:Hd; [|done].
  by injection Hr as <-.
Qed.

Lemma clean_in_ranges df (r : CleanRow) :
  r ∈ Clean._clean_taxi_data df -> Spec.in_ranges r.
Proof.
  unfold Clean._clean_taxi_data.
  rewrite list_elem_of_filter, list_elem_of_fmap.
  intros (Hdur & t & -> & Ht).
  rewrite !list_elem_of_filter in Ht.
  destruct Ht as (Hpass & Hdist & Hfare & Ht).
  apply elem_of_dropna in Ht as [Hp Hd].
  unfold Clean.duration_ok in Hdur.
  rewrite andb_True, Qltb_spec, Qleb_spec in Hdur.
  unfold Spec.in_ranges. simpl.
  split_and!; try tauto; by apply within_spec.
Qed.

Lemma clean_all_in_ranges df :
  Forall (fun r : CleanRow => Spec.in_ranges r) (Clean._clean_taxi_data df).
Proof. apply Forall_forall. intros r. apply clean_in_ranges. Qed.

(** ** Payment names and zone lookups *)

Lemma payment_map_lookup c :
  Clean.payment_map !! c
  = if bool_decide (c = 1) then Some "Credit Card"
    else if bool_decide (c = 2) then Some "Cash"
    else if bool_decide (c = 3) then Some "No Charge"
    else if bool_decide (c = 4) then Some "Dispute"
    else if bool_decide (c = 5) then Some "Unknown"
    else None.
Proof.
  unfold Clean.payment_map.
  repeat (case_bool_decide;
          [subst c; by rewrite lookup_insert_eq
          |rewrite lookup_insert_ne by done]).
  apply lookup_empty.
Qed.

Lemma payment_name_unknown code :
  (forall c, code = Some c -> c ∉ [1; 2; 3; 4; 5]) ->
  Clean.payment_name code = "Unknown".
Proof.
  intros Hc. unfold Clean.payment_name. destruct code as [c|]; [|done]. simpl.
  specialize (Hc c eq_refl). rewrite payment_map_lookup.
  repeat (case_bool_decide; [subst c; exfalso; apply Hc; set_solver|]).
  done.
Qed.

Lemma payment_name_known code : Clean.payment_name code ∈ payment_names.
Proof.
  unfold Clean.payment_name, payment_names. destruct code as [c|]; [|set_solver]. simpl.
  rewrite payment_map_lookup.
  repeat (case_bool_decide; [set_solver|]). set_solver.
Qed.

Lemma lookup_miss zone_lookup x :
  zone_lookup !! Some (Zones.PNum x) = None ->
  Zones.lookup_zone_name zone_lookup x = "Unknown" /\
  Zones.lookup_borough zone_lookup x = "Unknown".
Proof. intros H. unfold Zones.lookup_zone_name, Zones.lookup_borough. by rewrite H. Qed.

(** ** [unique] *)

Lemma elem_of_unique_from seen xs x :
  x ∈ Loader.unique_from seen xs <-> x ∈ xs /\ x ∉ seen.
Proof.
  revert seen. induction xs as [|y xs IH]; intros seen; simpl.
  - set_solver.
  - case_bool_decide as Hy.
    + rewrite IH. set_solver.
    + rewrite elem_of_cons, IH. destruct (decide (x = y)) as [->|Hne]; set_solver.
Qed.

Lemma NoDup_unique_from seen xs : NoDup (Loader.unique_from seen xs).
Proof.
  revert seen. induction xs as [|y xs IH]; intros seen; simpl.
  - constructor.
  - case_bool_decide as Hy; [apply IH|].
    apply NoDup_cons. split; [|apply IH].
    rewrite elem_of_unique_from. set_solver.
Qed.

Lemma elem_of_unique xs x : x ∈ Loader.unique xs <-> x ∈ xs.
Proof. unfold Loader.unique. rewrite elem_of_unique_from. set_solver. Qed.

Lemma NoDup_unique xs : NoDup (Loader.unique xs).
Proof. apply NoDup_unique_from. Qed.

Lemma unique_nil_inv xs : Loader.unique xs = [] -> xs = [].
Proof.
  intros H. destruct xs as [|x xs]; [done|].
  assert (Hx : x ∈ Loader.unique (x :: xs)) by (apply elem_of_unique; set_solver).
  rewrite H in Hx. by apply elem_of_nil in Hx.
Qed.

(** ** The left join *)

Lemma filter_none {A} (P : A -> Prop) `{!forall x, Decision (P x)} (l : list A) :
  (forall x, x ∈ l -> ¬ P x) -> filter P l = [].
Proof.
  induction l as [|x l IH]; intros Hl; [done|].
  rewrite filter_cons_False by (apply Hl; set_solver).
  apply IH. intros y Hy. apply Hl. set_solver.
Qed.

(** A table with one row per date has exactly one row for each of its
    dates. *)
Lemma one_match (weather : list WeatherRow) (d : Z) :
  NoDup (w_date <$> weather) ->
  d ∈ w_date <$> weather ->
  exists w, filter (fun w => w_date w = d) weather = [w].
Proof.
  induction weather as [|w0 weather IH]; simpl; intros Hnd Hd.
  - by apply elem_of_nil in Hd.
  - apply NoDup_cons in Hnd as [Hw0 Hnd].
    destruct (decide (w_date w0 = d)) as [Heq|Hne].
    + exists w0. rewrite filter_cons_True by done. f_equal.
      apply filter_none. intros w Hw Hwd.
      apply Hw0. rewrite Heq, <- Hwd. by apply list_elem_of_fmap_2.
    + rewrite filter_cons_False by done. apply IH; [done|].
      apply elem_of_cons in Hd as [Hd|Hd]; [congruence|done].
Qed.

Lemma left_join_total (taxi_df : list ZonedRow) (weather : list WeatherRow) :
  NoDup (w_date <$> weather) ->
  (forall t : ZonedRow, t ∈ taxi_df -> date t ∈ w_date <$> weather) ->
  merged_zoned <$> Merge.left_join taxi_df weather = taxi_df /\
  Forall has_weather (Merge.left_join taxi_df weather).
Proof.
  intros Hnd. unfold Merge.left_join.
  induction taxi_df as [|t taxi_df IH]; intros Hcov; [by split|].
  rewrite bind_cons.
  destruct IH as [IH1 IH2]; [intros t' Ht'; apply Hcov; set_solver|].
  destruct (one_match weather (date t) Hnd) as [w Hw]; [apply Hcov; set_solver|].
  assert (Hw' : filter (fun w => Merge.matches t w) weather = [w]).
  { rewrite <- Hw. apply list_filter_iff. intros w'.
    unfold Merge.matches. apply bool_decide_spec. }
  rewrite Hw'. rewrite fmap_app, Forall_app. split.
  - rewrite IH1. reflexivity.
  - split; [|done]. repeat constructor; simpl; eauto.
Qed.

End TableFacts.

Module LoaderFacts.
Import Exec Sys Loader Stages Spec ExecFacts.

(** Reassociate the right-hand side, then step under its first call. *)
Ltac under_first :=
  etransitivity; [|symmetry; apply bind_assoc]; apply bind_ext.

Lemma recompute_inline env year month sample_size w :
  (taxi_df ← load_taxi_data env year month sample_size;
   match taxi_df with
   | [] => print FailedToLoadTaxiData;; mret None
   | _ =>
       geojson ← load_nyc_zones_geojson env;
       let zone_lookup := Zones.create_zone_lookup geojson in
       let taxi_df := Zones.enrich_taxi_data_with_zones taxi_df zone_lookup in
       weather_df ← generate_synthetic_weather env taxi_df;
       taxi_df ← lift (Merge.merge_weather_data taxi_df weather_df);
       '(agg_data, taxi_df) ← create_aggregations taxi_df;
       print LoadingComplete;;
       print_summary taxi_df;;
       let data := mkPackage taxi_df geojson zone_lookup agg_data in
       save env year month sample_size data;;
       mret (Some data)
   end) w
  = recompute env year month sample_size w.
Proof.
  unfold recompute, build.
  under_first. intros [|r df] w1.
  - under_first. by intros [] w2.
  - under_first. intros g w2. cbv zeta.
    under_first. intros weather_df w3.
    under_first. intros merged w4.
    under_first. intros [agg table] w5.
    under_first. intros [] w6.
    under_first. by intros [] w7.
Qed.

Lemma load_all_data_staged env year month sample_size use_cache w :
  load_all_data env year month sample_size use_cache w
  = staged env year month sample_size use_cache w.
Proof.
  unfold staged, try_cache.
  under_first. intros cached w1.
  apply bind_ext. intros [data|] w2; [done|].
  apply recompute_inline.
Qed.

(** ** What the loading of the trips does *)

Ltac io_unfold_in E :=
  cbv beta delta [mbind M_bind bind mret M_ret ret try_except lift raise gets modify
                  print log_request write_raw write_cache file_exists read_parquet
                  download read_pickle save_pickle print_summary] in E.

(** Split a run, kept as an equation, into its cases: the innermost
    undecided test first. *)
Ltac split_on t :=
  lazymatch t with
  | context [match ?x with _ => _ end] => split_on x
  | _ => destruct t eqn:?
  end.

Ltac io_cases E :=
  io_unfold_in E; cbn in E;
  repeat (match type of E with
          | context [match ?x with _ => _ end] => split_on x
          end;
          cbn in E; rewrite ?lookup_insert_eq in E);
  injection E as <- <-; cbn.

(** A message is not among those of a list of known messages. *)
Ltac not_said H :=
  cbn in H;
  repeat (apply elem_of_cons in H as [H|H]; [discriminate H|]);
  by apply elem_of_nil in H.

(** Name what was printed. *)
Ltac said_is := rewrite <- ?app_assoc; reflexivity.

Lemma load_taxi_data_spec env year month sample_size w df w' :
  load_taxi_data env year month sample_size w = (df, w') ->
  exists (rows : list CleanRow) (msgs : list Msg),
    df = Ok rows /\
    stdout w' = stdout w ++ msgs /\
    cache_files w' = cache_files w /\
    rng w' = rng w /\
    (ErrorLoadingTaxiData ∈ msgs -> rows = []) /\
    (ErrorLoadingGeoJSON ∉ msgs) /\
    Forall (fun r : CleanRow => in_ranges r) rows.
Proof.
  intros E. unfold load_taxi_data in E.
  io_cases E.
  all: eexists _, _; split; [reflexivity|]; split; [said_is|].
  all: split_and!; try done.
  all: try (intros H; not_said H).
  all: try apply TableFacts.clean_all_in_ranges.
Qed.


(** ** What the loading of the zones does *)

Lemma load_zones_spec env w g w' :
  load_nyc_zones_geojson env w = (g, w') ->
  exists msgs : list Msg,
    g = Ok (get_geojson env (length (requests w)) geojson_url) /\
    stdout w' = stdout w ++ msgs /\
    raw_files w' = raw_files w /\
    cache_files w' = cache_files w /\
    rng w' = rng w /\
    requests w' = requests w ++ [geojson_url] /\
    (ErrorLoadingGeoJSON ∈ msgs ->
     get_geojson env (length (requests w)) geojson_url = None) /\
    (ErrorLoadingTaxiData ∉ msgs).
Proof.
  intros E. unfold load_nyc_zones_geojson in E. io_cases E.
  all: eexists; split; [by f_equal|]; split; [said_is|].
  all: split_and!; try done.
  all: intros H; not_said H.
Qed.

(** ** The weather table *)

Lemma advanced_0 w : advanced 0 w = w.
Proof. destruct w. unfold advanced. cbn. by rewrite Nat.add_0_r. Qed.

Lemma advanced_add n k w : advanced k (advanced n w) = advanced (n + k) w.
Proof. unfold advanced. cbn. by rewrite Nat.add_assoc. Qed.

#[local] Opaque Calendar.dayofyear Num.round_dp Num.Qltb.

Lemma weather_of_day_spec env d w :
  exists row n,
    weather_of_day env d w = (Ok row, advanced n w) /\ w_date row = d.
Proof.
  destruct (weather_of_day env d w) as [r w'] eqn:E.
  unfold weather_of_day, draw in E. io_cases E.
  - eexists _, 3%nat.
    split; [apply (f_equal2 pair); [reflexivity | unfold advanced; cbn; f_equal; lia]
           | reflexivity].
  - eexists _, 2%nat.
    split; [apply (f_equal2 pair); [reflexivity | unfold advanced; cbn; f_equal; lia]
           | reflexivity].
Qed.

#[local] Transparent Calendar.dayofyear Num.round_dp Num.Qltb.

Lemma weather_loop env dates w :
  exists rows n,
    for_each (weather_of_day env) dates w = (Ok rows, advanced n w) /\
    w_date <$> rows = dates.
Proof.
  revert w. induction dates as [|d dates IH]; intros w.
  - exists [], 0%nat. by rewrite advanced_0.
  - destruct (weather_of_day_spec env d w) as (row & n & Hrow & Hd).
    destruct (IH (advanced n w)) as (rows & k & Hrows & Hds).
    exists (row :: rows), (n + k)%nat. split.
    + cbn [for_each]. unfold bind at 1. rewrite Hrow.
      unfold bind at 1. rewrite Hrows. by rewrite advanced_add.
    + cbn. by rewrite Hd, Hds.
Qed.

Lemma generate_spec env df w :
  exists rows n,
    generate_synthetic_weather env df w
    = (Ok rows,
       mkWorld (raw_files w) (cache_files w)
               (stdout w ++ [GeneratingWeather; GeneratedWeather (length rows)])
               (requests w) (rng w + n)%nat) /\
    w_date <$> rows = unique ((fun r : ZonedRow => date r) <$> df).
Proof.
  destruct (weather_loop env (unique ((fun r : ZonedRow => date r) <$> df))
              (mkWorld (raw_files w) (cache_files w) (stdout w ++ [GeneratingWeather])
                       (requests w) (rng w)))
    as (rows & n & Hloop & Hdates).
  exists rows, n. split; [|done].
  unfold generate_synthetic_weather.
  cbv beta iota zeta delta [mbind M_bind bind print modify mret M_ret ret].
  rewrite Hloop. unfold advanced. cbn. by rewrite <- app_assoc.
Qed.

(** ** The join with the generated weather *)

Lemma merge_generated (df : list ZonedRow) (weather : list WeatherRow) :
  df ≠ [] ->
  w_date <$> weather = unique ((fun r : ZonedRow => date r) <$> df) ->
  exists merged,
    Merge.merge_weather_data df weather = Ok merged /\
    merged_zoned <$> merged = df /\
    Forall has_weather merged.
Proof.
  intros Hdf Hdates.
  assert (Hne : weather ≠ []).
  { intros ->. symmetry in Hdates. apply TableFacts.unique_nil_inv in Hdates.
    by apply fmap_nil_inv in Hdates. }
  exists (Merge.left_join df weather). split.
  - unfold Merge.merge_weather_data. by destruct weather.
  - apply TableFacts.left_join_total.
    + rewrite Hdates. apply TableFacts.NoDup_unique.
    + intros t Ht. rewrite Hdates, TableFacts.elem_of_unique.
      by apply (list_elem_of_fmap_2 (fun r : ZonedRow => date r)).
Qed.

(** ** Properties of rows carried along the stages *)

Lemma trip_rows_of_merged (P : ZonedRow -> Prop) (merged : list MergedRow) :
  Forall P (merged_zoned <$> merged) ->
  Forall (fun r : TripRow => P r) (Agg.add_date_hour merged).
Proof.
  unfold Agg.add_date_hour. rewrite !Forall_fmap. intros H.
  eapply Forall_impl; [exact H|]. by intros r.
Qed.

Lemma trip_rows_have_weather (merged : list MergedRow) :
  Forall has_weather merged ->
  Forall (fun r : TripRow => has_weather r) (Agg.add_date_hour merged).
Proof.
  unfold Agg.add_date_hour. rewrite Forall_fmap. intros H.
  eapply Forall_impl; [exact H|]. by intros r.
Qed.

Lemma enriched_in_ranges (rows : list CleanRow) zone_lookup :
  Forall (fun r : CleanRow => in_ranges r) rows ->
  Forall (fun z : ZonedRow => in_ranges z)
         (Zones.enrich_taxi_data_with_zones rows zone_lookup).
Proof.
  unfold Zones.enrich_taxi_data_with_zones. rewrite Forall_fmap. intros H.
  eapply Forall_impl; [exact H|]. by intros r.
Qed.

Lemma enriched_without_zones (rows : list CleanRow) :
  Forall zones_unknown (Zones.enrich_taxi_data_with_zones rows ∅).
Proof.
  unfold Zones.enrich_taxi_data_with_zones. rewrite Forall_fmap.
  apply Forall_forall. intros r _. unfold zones_unknown. cbn.
  unfold Zones.lookup_zone_name, Zones.lookup_borough.
  by rewrite ?lookup_empty.
Qed.

(** ** The stage that builds the package *)

Lemma build_spec env year month sample_size w r w' :
  build env year month sample_size w = (r, w') ->
  exists (res : option Package) (msgs : list Msg),
    r = Ok res /\
    stdout w' = stdout w ++ msgs /\
    cache_files w' = cache_files w /\
    (ErrorLoadingTaxiData ∈ msgs -> res = None) /\
    (res = None -> FailedToLoadTaxiData ∈ msgs) /\
    (ErrorLoadingGeoJSON ∈ msgs ->
     exists data, res = Some data /\ geojson data = None /\ zone_lookup data = ∅ /\
                  Forall (fun t : TripRow => zones_unknown t) (raw data)) /\
    (forall data, res = Some data ->
                  raw data ≠ [] /\
                  Forall (fun t : TripRow => in_ranges t) (raw data) /\
                  Forall (fun t : TripRow => has_weather t) (raw data)).
Proof.
  intros E. unfold build in E. rewrite bind_eq in E.
  destruct (load_taxi_data env year month sample_size w) as [df w1] eqn:Etaxi.
  apply load_taxi_data_spec in Etaxi
    as (rows & msgs1 & -> & Hout1 & Hcache1 & _ & Herr1 & Hgeo1 & Hrows).
  destruct rows as [|row rows].
  { io_cases E. exists None, (msgs1 ++ [FailedToLoadTaxiData]).
    rewrite Hout1, Hcache1, app_assoc. split_and!; try done.
    - intros _. set_solver.
    - intros H. apply elem_of_app in H as [H|H]; [done | not_said H]. }
  rewrite bind_eq in E.
  destruct (load_nyc_zones_geojson env w1) as [g w2] eqn:Ezones.
  apply load_zones_spec in Ezones
    as (msgs2 & -> & Hout2 & _ & Hcache2 & _ & _ & Hgeo2 & Herr2).
  set (geo := get_geojson env (length (requests w1)) geojson_url) in *.
  set (zoned := Zones.enrich_taxi_data_with_zones (row :: rows)
                  (Zones.create_zone_lookup geo)) in *.
  cbv zeta in E. rewrite bind_eq in E.
  destruct (generate_spec env zoned w2) as (weather & n & Hgen & Hdates).
  fold zoned in E. rewrite Hgen in E.
  destruct (merge_generated zoned weather) as (merged & Hmerge & Hzoned & Hweather);
    [done|done|].
  rewrite bind_eq in E. unfold lift at 1 in E. rewrite Hmerge in E.
  unfold create_aggregations in E. io_cases E.
  eexists _, (msgs1 ++ msgs2 ++ _). split; [reflexivity|].
  split; [rewrite Hout2, Hout1; said_is|].
  split; [congruence|]. split_and!.
  - intros H. apply elem_of_app in H as [H|H]; [by apply Herr1 in H|].
    apply elem_of_app in H as [H|H]; [done | not_said H].
  - done.
  - intros H. apply elem_of_app in H as [H|H]; [done|].
    apply elem_of_app in H as [H|H]; [|not_said H].
    apply Hgeo2 in H. eexists. split; [reflexivity|]. cbn.
    rewrite H. split_and!; [done|done|].
    apply trip_rows_of_merged. rewrite Hzoned. subst zoned. rewrite H.
    apply enriched_without_zones.
  - intros data [= <-]. cbn. split_and!.
    + intros Hnil. apply fmap_nil_inv in Hnil. subst merged. done.
    + apply (trip_rows_of_merged (fun z => in_ranges z)). rewrite Hzoned.
      by apply enriched_in_ranges.
    + by apply trip_rows_have_weather.
Qed.

(** ** The stage that saves the package *)

Lemma save_spec env year month sample_size data w :
  exists (msgs : list Msg) w',
    save env year month sample_size data w = (Ok tt, w') /\
    stdout w' = stdout w ++ msgs /\
    raw_files w' = raw_files w /\
    requests w' = requests w /\
    rng w' = rng w /\
    (ErrorLoadingTaxiData ∉ msgs) /\ (ErrorLoadingGeoJSON ∉ msgs) /\
    (FailedToLoadTaxiData ∉ msgs) /\
    ((cache_files w' = cache_files w) \/
     (cache_files w' = <[cache_path year month sample_size := None]> (cache_files w)) \/
     (cache_files w' = <[cache_path year month sample_size := Some data]> (cache_files w))) /\
    (cache_write env = WriteDone ->
     cache_files w' = <[cache_path year month sample_size := Some data]> (cache_files w)).
Proof.
  destruct (save env year month sample_size data w) as [r w'] eqn:E.
  unfold save in E. io_cases E.
  all: eexists _, _; split; [reflexivity|]; split; [said_is|].
  all: split_and!; try done.
  all: try (intros H; not_said H).
  all: eauto.
Qed.


(** ** The stage that reads the cache *)

Lemma try_cache_spec year month sample_size use_cache w r w' :
  try_cache year month sample_size use_cache w = (r, w') ->
  exists (res : option Package) (msgs : list Msg),
    r = Ok res /\
    stdout w' = stdout w ++ msgs /\
    raw_files w' = raw_files w /\
    cache_files w' = cache_files w /\
    requests w' = requests w /\
    rng w' = rng w /\
    (ErrorLoadingTaxiData ∉ msgs) /\ (ErrorLoadingGeoJSON ∉ msgs) /\
    (res = match cache_files w !! cache_path year month sample_size with
           | Some (Some data) => if use_cache then Some data else None
           | _ => None
           end) /\
    (use_cache = true ->
     cache_files w !! cache_path year month sample_size = Some None ->
     msgs = [LoadingFromCache; CacheLoadFailed]) /\
    (use_cache = false \/ cache_files w !! cache_path year month sample_size = None ->
     msgs = []).
Proof.
  intros E. unfold try_cache in E.
  destruct use_cache; io_cases E.
  all: eexists _, _; split; [reflexivity|].
  all: split; [first [said_is | symmetry; apply app_nil_r]|].
  all: split_and!; try done.
  all: try (intros H; not_said H).
  all: repeat match goal with
              | H : bool_decide _ = true |- _ => apply bool_decide_eq_true in H
              | H : bool_decide _ = false |- _ => apply bool_decide_eq_false in H
              end.
  all: try (intros [?|Hn]; [done | congruence]).
  all: try (intros [?|Hn]; [done|];
            match goal with H : is_Some _ |- _ => rewrite Hn in H; by destruct H end).
  all: try (intros _ Hn; done).
  all: try (intros _ Hn;
            match goal with H : ¬ is_Some _ |- _ => rewrite Hn in H; exfalso; eauto end).
  all: try (destruct (cache_files w !! _) as [[?|]|]; first [done | exfalso; eauto]).
Qed.

(** ** Recomputing *)

Lemma recompute_spec env year month sample_size w r w' :
  recompute env year month sample_size w = (r, w') ->
  exists (res : option Package) (msgs : list Msg),
    r = Ok res /\
    stdout w' = stdout w ++ msgs /\
    (ErrorLoadingTaxiData ∈ msgs -> res = None) /\
    (res = None -> FailedToLoadTaxiData ∈ msgs /\ cache_files w' = cache_files w) /\
    (ErrorLoadingGeoJSON ∈ msgs ->
     exists data, res = Some data /\ geojson data = None /\ zone_lookup data = ∅ /\
                  Forall (fun t : TripRow => zones_unknown t) (raw data)) /\
    (forall data,
       res = Some data ->
       raw data ≠ [] /\
       Forall (fun t : TripRow => in_ranges t) (raw data) /\
       Forall (fun t : TripRow => has_weather t) (raw data) /\
       ((cache_files w' = cache_files w) \/
        (cache_files w' = <[cache_path year month sample_size := None]> (cache_files w)) \/
        (cache_files w'
         = <[cache_path year month sample_size := Some data]> (cache_files w))) /\
       (cache_write env = WriteDone ->
        cache_files w'
        = <[cache_path year month sample_size := Some data]> (cache_files w))).
Proof.
  intros E. unfold recompute in E. rewrite bind_eq in E.
  destruct (build env year month sample_size w) as [b w1] eqn:Ebuild.
  apply build_spec in Ebuild
    as (res & msgs1 & -> & Hout1 & Hcache1 & Herr & Hnone & Hgeo & Hdata).
  destruct res as [data|].
  - rewrite bind_eq in E.
    destruct (save_spec env year month sample_size data w1)
      as (msgs2 & w2 & Hsave & Hout2 & _ & _ & _ & Herr2 & Hgeo2 & _ & Hcache2 & Hdone).
    rewrite Hsave in E. injection E as <- <-.
    exists (Some data), (msgs1 ++ msgs2). split; [done|].
    split; [by rewrite Hout2, Hout1, app_assoc|]. split_and!.
    + intros H. apply elem_of_app in H as [H|H]; [by apply Herr | done].
    + done.
    + intros H. apply elem_of_app in H as [H|H]; [by apply Hgeo | done].
    + intros data' [= <-]. destruct (Hdata data eq_refl) as (? & ? & ?).
      rewrite <- Hcache1. split_and!; try done.
  - injection E as <- <-. exists None, msgs1. split_and!; try done.
    intros _. split; [by apply Hnone | done].
Qed.

(** ** Computations that read neither the output nor the cache *)

Lemma sim_refl w : sim w w.
Proof. by repeat split. Qed.

Lemma uniform_ret {A} (a : A) : uniform (mret a : IO A).
Proof. by intros w1 w2 H. Qed.

Lemma uniform_raise {A} : uniform (raise : IO A).
Proof. by intros w1 w2 H. Qed.

Lemma uniform_lift {A} (r : result A) : uniform (lift r : IO A).
Proof. by intros w1 w2 H. Qed.

Lemma uniform_bind {A B} (m : IO A) (k : A -> IO B) :
  uniform m -> (forall a, uniform (k a)) -> uniform (m ≫= k).
Proof.
  intros Hm Hk w1 w2 Hsim. rewrite !bind_eq.
  destruct (Hm w1 w2 Hsim) as [Hr Hs].
  destruct (m w1) as [[a|] w1'], (m w2) as [[a'|] w2']; cbn in *; try done.
  injection Hr as <-. by apply Hk.
Qed.

Lemma uniform_try_except {A} (body handler : IO A) :
  uniform body -> uniform handler -> uniform (try_except body handler).
Proof.
  intros Hb Hh w1 w2 Hsim. rewrite !try_except_eq.
  destruct (Hb w1 w2 Hsim) as [Hr Hs].
  destruct (body w1) as [[a|] w1'], (body w2) as [[a'|] w2']; cbn in *; try done.
  by apply Hh.
Qed.

Lemma uniform_gets {A} (f : World -> A) :
  (forall w1 w2, sim w1 w2 -> f w1 = f w2) -> uniform (gets f).
Proof. intros Hf w1 w2 Hsim. split; [cbn; f_equal; by apply Hf | done]. Qed.

Lemma uniform_print m : uniform (print m).
Proof. by intros w1 w2 (? & ? & ?). Qed.

Lemma uniform_log_request url : uniform (log_request url).
Proof. intros w1 w2 (? & Hr & ?). repeat split; cbn; congruence. Qed.

Lemma uniform_write_raw path blob : uniform (write_raw path blob).
Proof. intros w1 w2 (Hf & ? & ?). repeat split; cbn; congruence. Qed.

Lemma uniform_write_cache path blob : uniform (write_cache path blob).
Proof. by intros w1 w2 (? & ? & ?). Qed.

Lemma uniform_draw stream : uniform (draw stream).
Proof. intros w1 w2 (? & ? & Hrng). repeat split; cbn; congruence. Qed.

Lemma uniform_for_each {A B} (f : A -> IO B) xs :
  (forall x, uniform (f x)) -> uniform (for_each f xs).
Proof.
  intros Hf. induction xs as [|x xs IH]; [apply uniform_ret|].
  cbn [for_each]. apply (uniform_bind (f x)); [apply Hf|]. intros y.
  apply (uniform_bind (for_each f xs)); [apply IH|]. intros ys. apply uniform_ret.
Qed.

Ltac reads_same :=
  let H1 := fresh in let H2 := fresh in let H3 := fresh in
  intros ? ? (H1 & H2 & H3); cbn; rewrite ?H1, ?H2, ?H3; reflexivity.

Ltac step_uniform :=
  repeat lazymatch goal with
         | |- uniform (mret _) => apply uniform_ret
         | |- uniform raise => apply uniform_raise
         | |- uniform (lift _) => apply uniform_lift
         | |- uniform (print _) => apply uniform_print
         | |- uniform (log_request _) => apply uniform_log_request
         | |- uniform (write_raw _ _) => apply uniform_write_raw
         | |- uniform (write_cache _ _) => apply uniform_write_cache
         | |- uniform (draw _) => apply uniform_draw
         | |- uniform (gets _) => apply uniform_gets; reads_same
         | |- uniform (try_except _ _) => apply uniform_try_except
         | |- uniform (_ ≫= _) => apply uniform_bind
         | |- uniform (match ?x with _ => _ end) => destruct x
         | |- forall _, _ => intros ?
         end.

Lemma uniform_load_taxi_data env year month sample_size :
  uniform (load_taxi_data env year month sample_size).
Proof. unfold load_taxi_data, file_exists, read_parquet, download. step_uniform. Qed.

Lemma uniform_load_zones env : uniform (load_nyc_zones_geojson env).
Proof. unfold load_nyc_zones_geojson. step_uniform. Qed.

Lemma uniform_generate env df : uniform (generate_synthetic_weather env df).
Proof.
  unfold generate_synthetic_weather.
  apply uniform_bind; [apply uniform_print|]. intros _.
  apply uniform_bind; [|intros; step_uniform].
  apply uniform_for_each. intros d. unfold weather_of_day. step_uniform.
Qed.

Lemma uniform_build env year month sample_size :
  uniform (build env year month sample_size).
Proof.
  unfold build.
  apply uniform_bind; [apply uniform_load_taxi_data|]. intros [|row rows].
  { step_uniform. }
  apply uniform_bind; [apply uniform_load_zones|]. intros g. cbv zeta.
  apply uniform_bind; [apply uniform_generate|]. intros weather.
  unfold create_aggregations, print_summary. step_uniform.
Qed.

Lemma uniform_recompute env year month sample_size :
  uniform (recompute env year month sample_size).
Proof.
  unfold recompute.
  apply uniform_bind; [apply uniform_build|]. intros [data|]; [|apply uniform_ret].
  unfold save, save_pickle. step_uniform.
Qed.

(** ** The whole load *)

Lemma printed_app w w' msgs : stdout w' = stdout w ++ msgs -> printed w w' = msgs.
Proof. intros H. unfold printed. rewrite H. apply drop_app_length. Qed.

Lemma load_all_data_spec env year month sample_size use_cache w r w' :
  load_all_data env year month sample_size use_cache w = (r, w') ->
  exists (res : option Package) (msgs : list Msg),
    r = Ok res /\
    stdout w' = stdout w ++ msgs /\
    (ErrorLoadingTaxiData ∈ msgs -> res = None) /\
    (res = None -> FailedToLoadTaxiData ∈ msgs) /\
    (ErrorLoadingGeoJSON ∈ msgs ->
     exists data, res = Some data /\ geojson data = None /\ zone_lookup data = ∅ /\
                  Forall (fun t : TripRow => zones_unknown t) (raw data)) /\
    (caches_in_ranges w ->
     caches_in_ranges w' /\
     forall data, res = Some data -> Forall (fun t : TripRow => in_ranges t) (raw data)) /\
    (forall data,
       res = Some data -> cache_write env = WriteDone ->
       cache_files w' !! cache_path year month sample_size = Some (Some data)).
Proof.
  rewrite load_all_data_staged. intros E. unfold staged in E. rewrite bind_eq in E.
  destruct (try_cache year month sample_size use_cache w) as [c w1] eqn:Ecache.
  apply try_cache_spec in Ecache
    as (hit & msgs1 & -> & Hout1 & _ & Hcache1 & _ & _ & Herr1 & Hgeo1 & Hhit & _ & _).
  destruct hit as [data|].
  - injection E as <- <-. exists (Some data), msgs1.
    assert (Hfile : cache_files w !! cache_path year month sample_size = Some (Some data)).
    { destruct (cache_files w !! _) as [[d|]|]; try done.
      destruct use_cache; by simplify_eq. }
    split_and!; try done.
    + intros Hw. split.
      * intros path d. rewrite Hcache1. apply Hw.
      * intros data' [= <-]. by eapply Hw.
    + intros data' [= <-] _. by rewrite Hcache1.
  - destruct (recompute_spec _ _ _ _ _ _ _ E)
      as (res & msgs2 & -> & Hout2 & Herr2 & Hnone2 & Hgeo2 & Hdata2).
    exists res, (msgs1 ++ msgs2). split; [done|].
    split; [by rewrite Hout2, Hout1, app_assoc|]. split_and!.
    + intros H. apply elem_of_app in H as [H|H]; [done | by apply Herr2].
    + intros H. apply elem_of_app. right. by apply Hnone2.
    + intros H. apply elem_of_app in H as [H|H]; [done | by apply Hgeo2].
    + intros Hw. destruct res as [data|].
      * destruct (Hdata2 data eq_refl) as (_ & Hranges & _ & Hfiles & _).
        split; [|by intros data' [= <-]].
        intros path d Hd.
        destruct Hfiles as [Hf|[Hf|Hf]]; rewrite Hf, ?Hcache1 in Hd.
        -- by eapply Hw.
        -- apply lookup_insert_Some in Hd as [[_ [=]]|[_ Hd]]. by eapply Hw.
        -- apply lookup_insert_Some in Hd as [[_ [= <-]]|[_ Hd]]; [done | by eapply Hw].
      * destruct (Hnone2 eq_refl) as [_ Hf].
        split; [|done]. intros path d. rewrite Hf, Hcache1. apply Hw.
    + intros data -> Hdone.
      destruct (Hdata2 data eq_refl) as (_ & _ & _ & _ & Hf).
      rewrite (Hf Hdone). apply lookup_insert_eq.
Qed.

(** A readable snapshot is returned as it is, with no request and no
    change to a file. *)
Lemma load_all_data_hit env year month sample_size w data :
  cache_files w !! cache_path year month sample_size = Some (Some data) ->
  let run := load_all_data env year month sample_size true w in
  run.1 = Ok (Some data) /\
  requests run.2 = requests w /\
  raw_files run.2 = raw_files w /\
  cache_files run.2 = cache_files w.
Proof.
  intros Hfile. cbn zeta. rewrite load_all_data_staged. unfold staged. rewrite bind_eq.
  destruct (try_cache year month sample_size true w) as [c w1] eqn:Ecache.
  apply try_cache_spec in Ecache
    as (hit & msgs1 & -> & _ & Hraw & Hcache & Hreq & _ & _ & _ & Hhit & _ & _).
  rewrite Hfile in Hhit. subst hit. by cbn.
Qed.

(** The result of recomputing does not depend on whether the cache can
    be written. *)
Lemma recompute_any_write env o year month sample_size w :
  (recompute (with_cache_write o env) year month sample_size w).1
  = (recompute env year month sample_size w).1.
Proof.
  unfold recompute. rewrite !bind_eq.
  change (build (with_cache_write o env) year month sample_size)
    with (build env year month sample_size).
  destruct (build env year month sample_size w) as [[[data|]|] w1]; try done.
  rewrite !bind_eq.
  destruct (save_spec (with_cache_write o env) year month sample_size data w1)
    as (? & ? & -> & _).
  destruct (save_spec env year month sample_size data w1) as (? & ? & -> & _).
  done.
Qed.

(** ** A trip file that cannot be had *)

Lemma load_taxi_data_fails env year month sample_size w :
  trip_file_fails env year month w ->
  exists (msgs : list Msg) w',
    load_taxi_data env year month sample_size w = (Ok [], w') /\
    stdout w' = stdout w ++ msgs /\
    ErrorLoadingTaxiData ∈ msgs.
Proof.
  unfold trip_file_fails. intros Hfails.
  destruct (load_taxi_data env year month sample_size w) as [r w'] eqn:E.
  unfold load_taxi_data in E.
  destruct (raw_files w !! raw_path year month) as [blob|] eqn:Hfile.
  - subst blob. io_cases E.
    all: repeat match goal with
                | H : bool_decide _ = false |- _ => apply bool_decide_eq_false in H
                end.
    all: try congruence.
    all: try (exfalso; eauto; fail).
    all: eexists _, _; split; [reflexivity|]; split; [said_is|]; set_solver.
  - io_cases E.
    all: repeat match goal with
                | H : bool_decide _ = true |- _ => apply bool_decide_eq_true in H
                end.
    all: try match goal with
             | H : is_Some _ |- _ => rewrite Hfile in H; by destruct H
             end.
    all: try match goal with
             | H : get_parquet _ _ _ = _ |- _ => rewrite H in Hfails; done
             end.
    all: try congruence.
    all: try contradiction.
    all: eexists _, _; split; [reflexivity|]; split; [said_is|]; set_solver.
Qed.

(** ** Start-up *)

Lemma startup_spec env w out w' :
  App.startup env w = (out, w') ->
  exists msgs : list Msg,
    stdout w' = stdout w ++ msgs /\
    (ErrorLoadingTaxiData ∈ msgs ->
     out = Ok (App.Exited 1) /\
     FailedToLoadTaxiData ∈ msgs /\ AppFailedExiting ∈ msgs) /\
    (ErrorLoadingGeoJSON ∈ msgs ->
     exists g, out = Ok (App.Serving g) /\ App.g_geojson g = None /\
               Forall (fun t : TripRow => zones_unknown t) (App.g_taxi_df g)) /\
    (caches_in_ranges w ->
     caches_in_ranges w' /\
     forall g, out = Ok (App.Serving g) ->
               Forall (fun t : TripRow => in_ranges t) (App.g_taxi_df g)).
Proof.
  intros E. unfold App.startup in E. rewrite bind_eq in E.
  unfold print at 1, modify in E. rewrite bind_eq in E.
  match type of E with
  | context [load_all_data env 2023 1 50000 true ?w0] =>
      destruct (load_all_data env 2023 1 50000 true w0) as [r w1] eqn:Eload
  end.
  apply load_all_data_spec in Eload
    as (res & msgs & -> & Hout & Herr & Hnone & Hgeo & Hranges & _).
  cbn in Hout, Hranges.
  destruct res as [data|]; io_cases E.
  - exists ([AppLoading] ++ msgs ++ [AppLoaded]).
    split; [rewrite Hout; said_is|]. split_and!.
    + intros H. apply elem_of_cons in H as [H|H]; [done|].
      apply elem_of_app in H as [H|H]; [by apply Herr in H | not_said H].
    + intros H. apply elem_of_cons in H as [H|H]; [done|].
      apply elem_of_app in H as [H|H]; [|not_said H].
      destruct (Hgeo H) as (data' & [= <-] & Hg & _ & Hz). eauto.
    + intros Hw. destruct (Hranges Hw) as [Hw1 Hdata]. split; [done|].
      intros g [= <-]. cbn. by apply Hdata.
  - exists ([AppLoading] ++ msgs ++ [AppFailedExiting]).
    split; [rewrite Hout; said_is|]. split_and!.
    + intros _. split_and!; [done| |].
      * apply elem_of_cons. right. apply elem_of_app. left. by apply Hnone.
      * apply elem_of_cons. right. apply elem_of_app. right. set_solver.
    + intros H. apply elem_of_cons in H as [H|H]; [done|].
      apply elem_of_app in H as [H|H]; [|not_said H].
      by destruct (Hgeo H) as (data' & [=] & _).
    + intros Hw. destruct (Hranges Hw) as [Hw1 _]. by split.
Qed.

Lemma startup_trip_failure env w out w' :
  App.startup env w = (out, w') ->
  no_snapshot 2023 1 50000 w ->
  trip_file_fails env 2023 1 w ->
  ErrorLoadingTaxiData ∈ printed w w'.
Proof.
  intros E Hnone Hfails. unfold App.startup in E. rewrite bind_eq in E.
  unfold print at 1, modify in E.
  rewrite bind_eq, load_all_data_staged in E. unfold staged in E.
  rewrite bind_eq in E.
  match type of E with
  | context [try_cache 2023 1 50000 true ?w0] =>
      destruct (try_cache 2023 1 50000 true w0) as [c w1] eqn:Ecache
  end.
  apply try_cache_spec in Ecache
    as (hit & msgs1 & -> & Hout1 & Hraw1 & _ & Hreq1 & _ & _ & _ & Hhit & _ & _).
  cbn in Hout1, Hraw1, Hreq1, Hhit.
  assert (hit = None) as ->.
  { destruct (cache_files w !! cache_path 2023 1 50000) as [[data|]|] eqn:Hfile;
      try done. by destruct (Hnone data). }
  assert (Hfails1 : trip_file_fails env 2023 1 w1).
  { unfold trip_file_fails in *. by rewrite Hraw1, Hreq1. }
  destruct (load_taxi_data_fails env 2023 1 50000 w1 Hfails1)
    as (msgs2 & w2 & Htaxi & Hout2 & Hsaid).
  unfold recompute, build in E. rewrite !bind_eq, Htaxi in E.
  io_cases E.
  unfold printed. cbn. rewrite Hout2, Hout1, <- !app_assoc, drop_app_length.
  set_solver.
Qed.

End LoaderFacts.

(** * The loader *)

(** C6.  Every row of the table [_clean_taxi_data] returns has its fare in
    (0, 300], its distance in (0, 100], its passenger count in (0, 8], its
    duration in (0, 480] and both its timestamps.  The rows of the trip
    table the dashboard starts with have the same property, and the
    snapshots on disk keep it, when the snapshots found on disk have it. *)
Theorem cleaned_rows_in_ranges :
  (forall (df : list RawRow) (r : CleanRow),
     r ∈ Clean._clean_taxi_data df -> in_ranges r) /\
  (forall env w g w',
     caches_in_ranges w ->
     App.startup env w = (Exec.Ok (App.Serving g), w') ->
     Forall (fun t : TripRow => in_ranges t) (App.g_taxi_df g) /\
     caches_in_ranges w').
Proof.
  split.
  - apply TableFacts.clean_in_ranges.
  - intros env w g w' Hw Hrun.
    destruct (LoaderFacts.startup_spec env w _ _ Hrun) as (msgs & _ & _ & _ & Hranges).
    destruct (Hranges Hw) as [Hw' Hg]. split; [by apply Hg | done].
Qed.

(** C8, amended.  [generate_synthetic_weather] returns, and what it
    returns has one row for each distinct date of the taxi table and no
    other row.  When the taxi table is not empty, the left join of
    [merge_weather_data] returns the rows of the taxi table, as many and in
    the same order, each with its three weather cells not null. *)
Theorem weather_join_total (env : Sys.Env) (df : list ZonedRow) (w : Sys.World) :
  exists weather w',
    Loader.generate_synthetic_weather env df w = (Exec.Ok weather, w') /\
    NoDup (w_date <$> weather) /\
    (forall d, d ∈ w_date <$> weather <-> d ∈ (fun r : ZonedRow => date r) <$> df) /\
    (df ≠ [] ->
     exists merged,
       Merge.merge_weather_data df weather = Exec.Ok merged /\
       length merged = length df /\
       merged_zoned <$> merged = df /\
       Forall has_weather merged).
Proof.
  destruct (LoaderFacts.generate_spec env df w) as (weather & n & Hgen & Hdates).
  eexists weather, _. split; [exact Hgen|]. split_and!.
  - rewrite Hdates. apply TableFacts.NoDup_unique.
  - intros d. rewrite Hdates. apply TableFacts.elem_of_unique.
  - intros Hdf.
    destruct (LoaderFacts.merge_generated df weather Hdf Hdates)
      as (merged & Hmerge & Hrows & Hcells).
    exists merged. split_and!; try done.
    by rewrite <- Hrows, length_fmap.
Qed.

(** C10.  A payment code that is null or outside 1..5 is named 'Unknown';
    a location id that the zone lookup does not have gives 'Unknown' for
    the zone and for the borough, and with the lookup of a missing zone
    file every row has its four zone cells 'Unknown'.  Enrichment loses no
    row, and in every enriched row the payment name is one of the five
    names and each zone cell is 'Unknown' or a name the lookup holds for
    the row's location id. *)
Theorem enrichment_falls_back :
  (forall code : option Z,
     (forall c, code = Some c -> c ∉ [1; 2; 3; 4; 5]) ->
     Clean.payment_name code = "Unknown") /\
  (forall (zone_lookup : Zones.ZoneLookup) (r : CleanRow),
     (zone_lookup !! Some (Zones.PNum (PULocationID r)) = None ->
      pickup_zone (Zones.enrich_row zone_lookup r) = "Unknown" /\
      pickup_borough (Zones.enrich_row zone_lookup r) = "Unknown") /\
     (zone_lookup !! Some (Zones.PNum (DOLocationID r)) = None ->
      dropoff_zone (Zones.enrich_row zone_lookup r) = "Unknown" /\
      dropoff_borough (Zones.enrich_row zone_lookup r) = "Unknown")) /\
  (forall df : list RawRow,
     Forall zones_unknown
       (Zones.enrich_taxi_data_with_zones (Clean._clean_taxi_data df)
                                          (Zones.create_zone_lookup None))) /\
  (forall (df : list RawRow) (zone_lookup : Zones.ZoneLookup),
     let out := Zones.enrich_taxi_data_with_zones (Clean._clean_taxi_data df) zone_lookup in
     length out = length (Clean._clean_taxi_data df) /\
     Forall (fun z : ZonedRow =>
               payment_type_name z ∈ payment_names /\
               (pickup_zone z = "Unknown" \/
                exists info, zone_lookup !! Some (Zones.PNum (PULocationID z)) = Some info /\
                             pickup_zone z = Zones.zi_zone_name info) /\
               (pickup_borough z = "Unknown" \/
                exists info, zone_lookup !! Some (Zones.PNum (PULocationID z)) = Some info /\
                             pickup_borough z = Zones.zi_borough info) /\
               (dropoff_zone z = "Unknown" \/
                exists info, zone_lookup !! Some (Zones.PNum (DOLocationID z)) = Some info /\
                             dropoff_zone z = Zones.zi_zone_name info) /\
               (dropoff_borough z = "Unknown" \/
                exists info, zone_lookup !! Some (Zones.PNum (DOLocationID z)) = Some info /\
                             dropoff_borough z = Zones.zi_borough info))
            out).
Proof.
  split_and!.
  - apply TableFacts.payment_name_unknown.
  - intros zone_lookup r. split; intros Hmiss; by apply TableFacts.lookup_miss.
  - intros df. apply LoaderFacts.enriched_without_zones.
  - intros df zone_lookup out. subst out.
    unfold Zones.enrich_taxi_data_with_zones. split; [apply length_fmap|].
    rewrite Forall_fmap. apply Forall_forall. intros r Hr. cbn.
    split.
    { apply list_elem_of_filter in Hr as [_ Hr].
      apply list_elem_of_fmap in Hr as (t & -> & _). apply TableFacts.payment_name_known. }
    unfold Zones.lookup_zone_name, Zones.lookup_borough.
    destruct (zone_lookup !! Some (Zones.PNum (PULocationID r))) as [pu|];
      destruct (zone_lookup !! Some (Zones.PNum (DOLocationID r))) as [do|];
      cbn; split_and!; eauto.
Qed.

(** C3, amended.  A failure while the trip file is loaded (the loader
    prints its error) ends the process: start-up prints that it failed and
    exits with code 1; so it is whenever there is no snapshot to read and
    the trip file, on disk or from the server, is missing or unreadable.
    A failure while the zone file is loaded (the loader prints its error)
    does not end it: start-up goes on to serve the dashboard, with no
    GeoJSON and with every zone cell of the trip table 'Unknown'. *)
Theorem load_failure_outcomes (env : Sys.Env) (w : Sys.World) out w' :
  App.startup env w = (out, w') ->
  (Sys.ErrorLoadingTaxiData ∈ Stages.printed w w' ->
   out = Exec.Ok (App.Exited 1) /\
   Sys.FailedToLoadTaxiData ∈ Stages.printed w w' /\
   Sys.AppFailedExiting ∈ Stages.printed w w') /\
  (no_snapshot 2023 1 50000 w -> trip_file_fails env 2023 1 w ->
   Sys.ErrorLoadingTaxiData ∈ Stages.printed w w' /\
   out = Exec.Ok (App.Exited 1)) /\
  (Sys.ErrorLoadingGeoJSON ∈ Stages.printed w w' ->
   exists g,
     out = Exec.Ok (App.Serving g) /\
     App.g_geojson g = None /\
     Forall (fun t : TripRow => zones_unknown t) (App.g_taxi_df g)).
Proof.
  intros Hrun.
  destruct (LoaderFacts.startup_spec env w _ _ Hrun) as (msgs & Hout & Htaxi & Hgeo & _).
  pose proof (LoaderFacts.startup_trip_failure env w _ _ Hrun) as Hfails.
  rewrite (LoaderFacts.printed_app _ _ _ Hout) in *. split_and!; [done| |done].
  intros Hnone Hfile. specialize (Hfails Hnone Hfile). split; [done|].
  by apply Htaxi.
Qed.



(** * Reasoning about group-by *)

Module GroupFacts.
Import GroupBy.

Section Ordered.
Context {A K : Type} (key : A -> K) (keq klt : K -> K -> bool).
Hypothesis keq_eq : forall a b, keq a b = true <-> a = b.
Hypothesis klt_irrefl : forall a, klt a a = false.
Hypothesis klt_trans : forall a b c, klt a b = true -> klt b c = true -> klt a c = true.
Hypothesis klt_total : forall a b, a = b \/ klt a b = true \/ klt b a = true.

Lemma elem_of_insert_key k ks x :
  x ∈ insert_key keq klt k ks <-> x = k \/ x ∈ ks.
Proof.
  induction ks as [|k' ks IH]; simpl.
  - set_solver.
  - destruct (keq k k') eqn:E.
    + apply keq_eq in E as ->. set_solver.
    + destruct (klt k k'); [set_solver|]. rewrite elem_of_cons, IH. set_solver.
Qed.

Lemma insert_key_sorted k ks :
  StronglySorted (fun a b => klt a b = true) ks ->
  StronglySorted (fun a b => klt a b = true) (insert_key keq klt k ks).
Proof.
  induction 1 as [|k' ks Hs IH Hall]; simpl.
  - repeat constructor.
  - destruct (keq k k') eqn:E; [by constructor|].
    destruct (klt k k') eqn:L.
    + constructor; [by constructor|]. constructor; [done|].
      eapply Forall_impl; [exact Hall|]. intros c Hc. by eapply klt_trans.
    + constructor; [done|]. apply Forall_forall. intros x Hx.
      apply elem_of_insert_key in Hx as [->|Hx].
      * destruct (klt_total k k') as [->|[?|?]]; [|congruence|done].
        rewrite (proj2 (keq_eq k' k')) in E; done.
      * rewrite Forall_forall in Hall. by apply Hall.
Qed.

Lemma group_keys_sorted df :
  StronglySorted (fun a b => klt a b = true) (group_keys key keq klt df).
Proof.
  unfold group_keys. induction (key <$> df) as [|k ks IH]; simpl.
  - constructor.
  - by apply insert_key_sorted.
Qed.

Lemma elem_of_group_keys df k : k ∈ group_keys key keq klt df <-> k ∈ key <$> df.
Proof.
  unfold group_keys. induction (key <$> df) as [|k' ks IH]; simpl.
  - done.
  - rewrite elem_of_insert_key, IH. set_solver.
Qed.

Lemma sorted_NoDup ks : StronglySorted (fun a b => klt a b = true) ks -> NoDup ks.
Proof.
  induction 1 as [|k ks Hs IH Hall]; constructor; [|done].
  intros Hk. rewrite Forall_forall in Hall. specialize (Hall k Hk).
  by rewrite klt_irrefl in Hall.
Qed.

Lemma group_size_cons r df k :
  length (filter (fun r => keq (key r) k) (r :: df))
  = ((if keq (key r) k then 1 else 0) + length (filter (fun r => keq (key r) k) df))%nat.
Proof.
  rewrite filter_cons. destruct (decide _) as [H|H].
  - apply Is_true_true in H. by rewrite H.
  - apply Is_true_false in H. by rewrite H.
Qed.

Lemma no_group k0 ks :
  k0 ∉ ks -> sum_list_with (fun k => if keq k0 k then 1 else 0)%nat ks = 0%nat.
Proof.
  induction ks as [|k ks IH]; simpl; [done|]. intros Hk.
  rewrite IH by set_solver. destruct (keq k0 k) eqn:E; [|done].
  apply keq_eq in E as ->. set_solver.
Qed.

Lemma one_group k0 ks :
  NoDup ks -> k0 ∈ ks ->
  sum_list_with (fun k => if keq k0 k then 1 else 0)%nat ks = 1%nat.
Proof.
  induction 1 as [|k ks Hk Hnd IH]; simpl; intros Hin; [by apply elem_of_nil in Hin|].
  destruct (keq k0 k) eqn:E.
  - apply keq_eq in E as ->. by rewrite no_group.
  - apply elem_of_cons in Hin as [->|Hin].
    + rewrite (proj2 (keq_eq k k)) in E; done.
    + by rewrite IH.
Qed.

Lemma group_sizes ks df :
  NoDup ks ->
  (forall r, r ∈ df -> key r ∈ ks) ->
  sum_list_with (fun k => length (filter (fun r => keq (key r) k) df)) ks = length df.
Proof.
  intros Hnd. induction df as [|r df IH]; intros Hcover.
  - clear. induction ks as [|k ks IHk]; [done|]. cbn [sum_list_with]. by rewrite IHk.
  - transitivity (sum_list_with (fun k => if keq (key r) k then 1 else 0)%nat ks
                  + sum_list_with
                      (fun k => length (filter (fun r => keq (key r) k) df)) ks)%nat.
    { clear. induction ks as [|k ks IHk]; [done|]. cbn [sum_list_with].
      rewrite group_size_cons, IHk. lia. }
    rewrite one_group, IH; [done| |done|].
    + intros r' Hr'. apply Hcover. by right.
    + apply Hcover. left.
Qed.

(** The groups of [groupby]: their keys ascend strictly, no group is
    empty, and their sizes add up to the number of rows. *)
Lemma groupby_keys df :
  (groupby key keq klt df).*1 = group_keys key keq klt df.
Proof.
  unfold groupby. rewrite <- list_fmap_compose. apply list_fmap_id.
Qed.

Lemma groupby_sizes df :
  sum_list_with (fun g : K * list A => length g.2) (groupby key keq klt df) = length df.
Proof.
  unfold groupby.
  rewrite <- (group_sizes (group_keys key keq klt df) df).
  - generalize (group_keys key keq klt df). intros ks.
    induction ks as [|k ks IH]; [done|]. cbn [sum_list_with fmap list_fmap snd].
    by rewrite IH.
  - apply sorted_NoDup, group_keys_sorted.
  - intros r Hr. apply elem_of_group_keys. by apply list_elem_of_fmap_2.
Qed.

Lemma groupby_nonempty df :
  Forall (fun g : K * list A => g.2 ≠ []) (groupby key keq klt df).
Proof.
  unfold groupby. rewrite Forall_fmap. apply Forall_forall. intros k Hk. simpl.
  apply elem_of_group_keys, list_elem_of_fmap in Hk as (r & -> & Hr).
  intros Hnil. assert (Hin : r ∈ filter (fun r0 => keq (key r0) (key r)) df).
  { apply list_elem_of_filter. split; [|done]. apply Is_true_true. by apply keq_eq. }
  rewrite Hnil in Hin. by apply elem_of_nil in Hin.
Qed.

End Ordered.

Lemma sorted_weaken {K} (R R' : K -> K -> Prop) ks :
  (forall a b, R a b -> R' a b) -> StronglySorted R ks -> StronglySorted R' ks.
Proof.
  intros HR. induction 1 as [|k ks Hs IH Hall]; constructor; [done|].
  eapply Forall_impl; [exact Hall|]. intros b. apply HR.
Qed.

End GroupFacts.

Module AggFacts.
Import GroupBy GroupFacts.

Lemma string_compare_refl a : String.compare a a = Eq.
Proof.
  pose proof (String.compare_antisym a a) as H.
  destruct (String.compare a a); done.
Qed.

Lemma string_ltb_irrefl a : String.ltb a a = false.
Proof. unfold String.ltb. by rewrite string_compare_refl. Qed.

Lemma string_ltb_trans a b c :
  String.ltb a b = true -> String.ltb b c = true -> String.ltb a c = true.
Proof.
  unfold String.ltb. intros Hab Hbc.
  destruct (String.compare a b) eqn:Eab; try done.
  destruct (String.compare b c) eqn:Ebc; try done.
  assert (Hle : String.le a c).
  { transitivity b; unfold String.le, String.leb; [by rewrite Eab | by rewrite Ebc]. }
  unfold String.le, String.leb in Hle.
  destruct (String.compare a c) eqn:Eac; try done.
  apply String.compare_eq_iff in Eac as ->.
  rewrite String.compare_antisym, Eab in Ebc. done.
Qed.

Lemma string_ltb_total a b : a = b \/ String.ltb a b = true \/ String.ltb b a = true.
Proof.
  unfold String.ltb. rewrite (String.compare_antisym b a).
  destruct (String.compare a b) eqn:E; simpl; auto.
  left. by apply String.compare_eq_iff.
Qed.

Lemma pair_eqb_eq a b : pair_eqb a b = true <-> a = b.
Proof.
  unfold pair_eqb. destruct a as [x s], b as [y t]; simpl.
  rewrite andb_true_iff, Z.eqb_eq, String.eqb_eq. naive_solver.
Qed.

Lemma pair_ltb_irrefl a : pair_ltb a a = false.
Proof.
  unfold pair_ltb. by rewrite Z.ltb_irrefl, string_ltb_irrefl, andb_false_r.
Qed.

Lemma pair_ltb_trans a b c :
  pair_ltb a b = true -> pair_ltb b c = true -> pair_ltb a c = true.
Proof.
  unfold pair_ltb. destruct a as [x s], b as [y t], c as [z u]; simpl.
  rewrite !orb_true_iff, !andb_true_iff, !Z.ltb_lt, !Z.eqb_eq.
  intros [?|[-> ?]] [?|[-> ?]]; [left; lia | by left | by left |].
  right. split; [done|]. by eapply string_ltb_trans.
Qed.

Lemma pair_ltb_total a b : a = b \/ pair_ltb a b = true \/ pair_ltb b a = true.
Proof.
  unfold pair_ltb. destruct a as [x s], b as [y t]; simpl.
  rewrite !orb_true_iff, !andb_true_iff, !Z.ltb_lt, !Z.eqb_eq.
  destruct (Z.lt_trichotomy x y) as [?|[->|?]]; [tauto| |tauto].
  destruct (string_ltb_total s t) as [->|[?|?]]; tauto.
Qed.

Lemma Z_ltb_trans a b c : (a <? b) = true -> (b <? c) = true -> (a <? c) = true.
Proof. rewrite !Z.ltb_lt. lia. Qed.

Lemma Z_ltb_total a b : a = b \/ (a <? b) = true \/ (b <? a) = true.
Proof. rewrite !Z.ltb_lt. lia. Qed.

Lemma sum_list_fmap {A} (f : A -> nat) (l : list A) :
  sum_list (f <$> l) = sum_list_with f l.
Proof. induction l as [|x l IH]; [done|]. cbn. by rewrite IH. Qed.

(** The three orders the program groups by. *)
Ltac order_facts :=
  first [ apply Z.eqb_eq | apply Z.ltb_irrefl | apply Z_ltb_trans | apply Z_ltb_total
        | apply String.eqb_eq | apply string_ltb_irrefl | apply string_ltb_trans
        | apply string_ltb_total
        | apply pair_eqb_eq | apply pair_ltb_irrefl | apply pair_ltb_trans
        | apply pair_ltb_total ].

(** The sizes of the groups, whatever the key, add up to the table. *)
Lemma by_Z_sizes {A} (key : A -> Z) df :
  sum_list_with (fun g : Z * list A => length g.2) (groupby key Z.eqb Z.ltb df) = length df.
Proof. apply groupby_sizes; order_facts. Qed.

Lemma by_string_sizes {A} (key : A -> string) df :
  sum_list_with (fun g : string * list A => length g.2)
                (groupby key String.eqb String.ltb df) = length df.
Proof. apply groupby_sizes; order_facts. Qed.

Lemma by_pair_sizes {A} (key : A -> Z * string) df :
  sum_list_with (fun g : (Z * string) * list A => length g.2)
                (groupby key pair_eqb pair_ltb df) = length df.
Proof. apply groupby_sizes; order_facts. Qed.

(** The keys of a group-by on a number: ascending, and those of the table. *)
Lemma by_Z_keys_sorted {A} (key : A -> Z) df :
  StronglySorted Z.lt (groupby key Z.eqb Z.ltb df).*1.
Proof.
  rewrite groupby_keys.
  apply (sorted_weaken (fun a b => (a <? b) = true)); [intros a b; apply Z.ltb_lt|].
  apply group_keys_sorted; order_facts.
Qed.

Lemma by_Z_keys {A} (key : A -> Z) df k :
  k ∈ (groupby key Z.eqb Z.ltb df).*1 <-> k ∈ key <$> df.
Proof. rewrite groupby_keys. apply elem_of_group_keys; order_facts. Qed.

Lemma by_Z_nonempty {A} (key : A -> Z) df :
  Forall (fun g : Z * list A => (0 < length g.2)%nat) (groupby key Z.eqb Z.ltb df).
Proof.
  eapply Forall_impl; [apply (groupby_nonempty key Z.eqb Z.ltb); order_facts|].
  intros [k g] Hg. simpl in *. destruct g; [done | simpl; lia].
Qed.

Lemma counts_of_groups {A K B} (row : K * list A -> B) (count : B -> nat)
    (groups : list (K * list A)) :
  (forall g, count (row g) = length g.2) ->
  sum_list (count <$> (row <$> groups))
  = sum_list_with (fun g : K * list A => length g.2) groups.
Proof.
  intros Hrow. rewrite sum_list_fmap.
  induction groups as [|g groups IH]; [done|]. cbn. by rewrite Hrow, IH.
Qed.

Lemma tables_count_every_trip (df : list TripRow) :
  sum_list (Agg.d_trip_count <$> Agg.daily_of df) = length df /\
  sum_list (Agg.h_trip_count <$> Agg.hourly_of df) = length df /\
  sum_list (Agg.hd_trip_count <$> Agg.hour_dow_of df) = length df /\
  sum_list (Agg.b_trip_count <$> Agg.borough_of df) = length df /\
  sum_list (Agg.p_trip_count <$> Agg.payment_of df) = length df.
Proof.
  unfold Agg.daily_of, Agg.hourly_of, Agg.hour_dow_of, Agg.borough_of, Agg.payment_of.
  rewrite !counts_of_groups by done.
  rewrite !by_Z_sizes, !by_string_sizes, by_pair_sizes. done.
Qed.

End AggFacts.

(** * Reasoning about the store and the charts *)

Module CallbackFacts.
Import Exec App Spec Logic ExecFacts AppFacts.

Lemma keeps_store_raise {A} : keeps_store (raise : Py A).
Proof. by intros s. Qed.

Lemma keeps_store_index xs i : keeps_store (index xs i).
Proof. unfold index. destruct (xs !! i); [apply keeps_store_ret | apply keeps_store_raise]. Qed.

Lemma keeps_store_df_select l mask : keeps_store (df_select l mask).
Proof. unfold df_select. step_store. Qed.

Lemma keeps_store_df_copy l : keeps_store (df_copy l).
Proof. unfold df_copy. step_store. Qed.

Lemma keeps_store_update_filtered_data a b hr p w d :
  keeps_store (update_filtered_data a b hr p w d).
Proof.
  unfold update_filtered_data, to_json.
  repeat first
    [ apply keeps_store_df_select
    | apply keeps_store_df_copy
    | apply keeps_store_index
    | apply keeps_store_rows_of
    | apply keeps_store_gets
    | apply keeps_store_ret
    | apply keeps_store_bind
    | intros ?
    | case_match ].
Qed.

(** With fewer than two ends in the hour range the callback raises. *)
Lemma update_filtered_data_short a b hr p w d table s :
  heap s !! taxi_df s = Some table ->
  (length hr < 2)%nat ->
  (update_filtered_data a b hr p w d s).1 = Raise.
Proof.
  intros Hglobal Hshort. unfold update_filtered_data.
  rewrite bind_eq. cbn [gets].
  destruct (df_copy_returns _ _ _ Hglobal) as (l1 & s1 & E1 & H1 & _).
  rewrite bind_eq, E1.
  destruct (df_select_returns l1 (fun r => in_range a b (date r)) _ _ H1)
    as (l2 & s2 & E2 & _).
  rewrite bind_eq, E2.
  destruct hr as [|h0 [|h1 rest]]; [done|done|]. simpl in Hshort. lia.
Qed.

(** What a change of the controls does to the store. *)
Lemma fire_filters_changed env f h0 h1 rest table s :
  heap s !! taxi_df s = Some table ->
  hour_range f = h0 :: h1 :: rest ->
  exists s',
    fire env (FiltersChanged f) s = (Ok ToStore, s') /\
    store s'
    = Some (filter (satisfies (start_date f) (end_date f) h0 h1 (payment_type_sel f)
                              (weather_sel f) (day_type_sel f)) table) /\
    extends s s'.
Proof.
  intros Hglobal Hrange.
  destruct (update_filtered_data_returns
              (start_date f) (end_date f) h0 h1 rest (payment_type_sel f)
              (weather_sel f) (day_type_sel f) table s Hglobal)
    as (out & s1 & Hrun & Hout & Hext & _).
  unfold fire. rewrite Hrange, bind_eq, Hrun. cbn.
  eexists. split; [reflexivity|]. cbn. split.
  - f_equal. rewrite Hout, select_all_filter. apply list_filter_iff.
    intros r. apply masks_spec.
  - done.
Qed.

Lemma fire_filters_short env f table s :
  heap s !! taxi_df s = Some table ->
  (length (hour_range f) < 2)%nat ->
  (fire env (FiltersChanged f) s).1 = Raise /\
  store (fire env (FiltersChanged f) s).2 = store s.
Proof.
  intros Hglobal Hshort.
  pose proof (update_filtered_data_short
                (start_date f) (end_date f) (hour_range f) (payment_type_sel f)
                (weather_sel f) (day_type_sel f) table s Hglobal Hshort) as Hraise.
  pose proof (keeps_store_update_filtered_data
                (start_date f) (end_date f) (hour_range f) (payment_type_sel f)
                (weather_sel f) (day_type_sel f) s) as Hstore.
  unfold fire. rewrite bind_eq.
  destruct (update_filtered_data _ _ _ _ _ _ s) as [[j|] s1]; [discriminate Hraise|].
  done.
Qed.

(** A chart callback run on the store's data [rows]. *)
Lemma chart_on_rows {A} (k : Frame -> A) rows s :
  returns (df ← load_filtered_data (Some rows);
           match df with
           | None => mret None
           | Some df => rows ← rows_of df; mret (Some (k rows))
           end) s (fun a _ => a = Some (k rows)).
Proof.
  eapply returns_bind; [apply load_filtered_data_returns|].
  intros ? ? (l & -> & Hl).
  eapply returns_bind; [by apply rows_of_returns|].
  intros ? ? [-> ->]. by apply returns_ret.
Qed.

Lemma update_metrics_rows rows s :
  (update_metrics (Some rows) s).1
  = Ok (Cards (length rows)
              (Num.nanmean ((fun r : TripRow => fare_amount r) <$> rows))
              (Num.nanmean ((fun r : TripRow => trip_distance r) <$> rows))
              (Num.nansum ((fun r : TripRow => fare_amount r) <$> rows))).
Proof.
  assert (H : returns (update_metrics (Some rows)) s
                (fun a _ => a = Cards (length rows)
              (Num.nanmean ((fun r : TripRow => fare_amount r) <$> rows))
              (Num.nanmean ((fun r : TripRow => trip_distance r) <$> rows))
              (Num.nansum ((fun r : TripRow => fare_amount r) <$> rows)))).
  { unfold update_metrics.
    eapply returns_bind; [apply load_filtered_data_returns|].
    intros ? ? (l & -> & Hl).
    eapply returns_bind; [by apply rows_of_returns|].
    intros ? ? [-> ->]. by apply returns_ret. }
  destruct H as (a & s' & -> & ->). done.
Qed.

Lemma update_time_series_rows rows s :
  (update_time_series (Some rows) s).1
  = Ok (Some ((fun g : Z * Frame => (g.1, length g.2))
                <$> GroupBy.groupby (fun r : TripRow => Calendar.date_of (pickup r))
                                    Z.eqb Z.ltb rows)).
Proof.
  destruct (chart_on_rows
              (fun rows => (fun g : Z * Frame => (g.1, length g.2))
                <$> GroupBy.groupby (fun r : TripRow => Calendar.date_of (pickup r))
                                    Z.eqb Z.ltb rows) rows s) as (a & s' & E & ->).
  unfold update_time_series. by rewrite E.
Qed.

Lemma update_heatmap_rows rows s :
  (update_heatmap (Some rows) s).1
  = Ok (Some ((fun g : (Z * string) * Frame =>
                     (g.1.1, g.1.2, length g.2,
                      Num.nanmean ((fun r : TripRow => fare_amount r) <$> g.2)))
                    <$> GroupBy.groupby
                          (fun r : TripRow => (hour r, day_of_week r))
                          GroupBy.pair_eqb GroupBy.pair_ltb rows)).
Proof.
  destruct (chart_on_rows
              (fun rows => (fun g : (Z * string) * Frame =>
                     (g.1.1, g.1.2, length g.2,
                      Num.nanmean ((fun r : TripRow => fare_amount r) <$> g.2)))
                    <$> GroupBy.groupby
                          (fun r : TripRow => (hour r, day_of_week r))
                          GroupBy.pair_eqb GroupBy.pair_ltb rows) rows s)
    as (a & s' & E & ->).
  unfold update_heatmap. by rewrite E.
Qed.

Lemma update_payment_breakdown_rows rows s :
  (update_payment_breakdown (Some rows) s).1
  = Ok (Some ((fun g : string * Frame =>
                     (g.1, length g.2,
                      Num.nanmean ((fun r : TripRow => fare_amount r) <$> g.2),
                      Num.nanmean ((fun r : TripRow => tip_amount r) <$> g.2)))
                    <$> GroupBy.groupby
                          (fun r : TripRow => payment_type_name r)
                          String.eqb String.ltb rows)).
Proof.
  destruct (chart_on_rows
              (fun rows => (fun g : string * Frame =>
                     (g.1, length g.2,
                      Num.nanmean ((fun r : TripRow => fare_amount r) <$> g.2),
                      Num.nanmean ((fun r : TripRow => tip_amount r) <$> g.2)))
                    <$> GroupBy.groupby
                          (fun r : TripRow => payment_type_name r)
                          String.eqb String.ltb rows) rows s)
    as (a & s' & E & ->).
  unfold update_payment_breakdown. by rewrite E.
Qed.

Lemma fire_metrics_rows env rows s :
  store s = Some rows ->
  (fire env RenderMetrics s).1
  = Ok (MetricCards
          (Cards (length rows)
                 (Num.nanmean ((fun r : TripRow => fare_amount r) <$> rows))
                 (Num.nanmean ((fun r : TripRow => trip_distance r) <$> rows))
                 (Num.nansum ((fun r : TripRow => fare_amount r) <$> rows)))).
Proof.
  intros Hstore. unfold fire. rewrite bind_eq. cbn [gets]. rewrite Hstore, bind_eq.
  pose proof (update_metrics_rows rows s) as Hm.
  destruct (update_metrics (Some rows) s) as [[c|] s2] eqn:E; cbn [fst] in Hm;
    [|discriminate Hm].
  by injection Hm as ->.
Qed.

End CallbackFacts.

Module FilterFacts.
Import Exec App Spec Logic ExecFacts AppFacts.

Lemma update_filtered_data_filter a b h0 h1 rest p w d table s :
  heap s !! taxi_df s = Some table ->
  (update_filtered_data a b (h0 :: h1 :: rest) p w d s).1
  = Ok (filter (satisfies a b h0 h1 p w d) table).
Proof.
  intros Hglobal.
  destruct (update_filtered_data_returns a b h0 h1 rest p w d table s Hglobal)
    as (out & s' & Hrun & Hout & _).
  rewrite Hrun. cbn [fst]. f_equal. rewrite Hout, select_all_filter. apply list_filter_iff.
  intros r. apply masks_spec.
Qed.

Lemma filter_stronger {A} (P Q : A -> Prop)
    `{!forall x, Decision (P x), !forall x, Decision (Q x)} (l : list A) :
  (forall x, P x -> Q x) -> filter P l `sublist_of` filter Q l.
Proof.
  intros HPQ. rewrite <- (list_filter_filter_l P Q l HPQ). apply sublist_filter.
Qed.

End FilterFacts.

Module ChartFacts.
Import Exec App Spec Logic ExecFacts AppFacts.

(** With nothing in the store a chart callback returns at once. *)
Lemma fire_chart_blank env e s :
  is_chart e -> store s = None ->
  (fire env e s).2 = s /\
  match (fire env e s).1 with
  | Ok (MetricCards c) => c = NoData
  | Ok (TimeSeries t) => t = None
  | Ok (Heatmap t) => t = None
  | Ok (WeatherChart t) => t = None
  | Ok (Scatter t) => t = None
  | Ok (BoroughBoxplot t) => t = None
  | Ok (PaymentBreakdown t) => t = None
  | _ => False
  end.
Proof.
  intros He Hstore. destruct e; [done|..]; unfold fire;
    rewrite bind_eq; cbn [gets]; rewrite Hstore; done.
Qed.

Lemma interact_blank env es s :
  Forall is_chart es -> store s = None -> interact env es s = s.
Proof.
  intros Hes Hstore. induction Hes as [|e es He Hes IH]; [done|].
  cbn. unfold handle at 2.
  destruct (fire_chart_blank env e s He Hstore) as [-> _]. by apply IH.
Qed.

End ChartFacts.

(** * The store and the charts *)

(** X1.  A change of the controls, at any moment of a session, replaces
    the store's data by the rows of the trip table that satisfy the five
    predicates, when the hour range has its two ends.  With fewer than two
    ends the callback raises, and the store keeps the data it had. *)
Theorem filter_change_sets_store
    (env : Sys.Env) (table : list TripRow) (es : list App.Event) (f : App.Filters) :
  let s := App.interact env es (App.boot table) in
  (forall h0 h1 rest,
     App.hour_range f = h0 :: h1 :: rest ->
     exists s',
       App.fire env (App.FiltersChanged f) s = (Exec.Ok App.ToStore, s') /\
       App.store s'
       = Some (filter (satisfies (App.start_date f) (App.end_date f) h0 h1
                                 (App.payment_type_sel f) (App.weather_sel f)
                                 (App.day_type_sel f)) table)) /\
  ((length (App.hour_range f) < 2)%nat ->
   (App.fire env (App.FiltersChanged f) s).1 = Exec.Raise /\
   App.store (App.fire env (App.FiltersChanged f) s).2 = App.store s).
Proof.
  intros s.
  destruct (AppFacts.interact_global env es _ table (AppFacts.boot_global table))
    as [Hglobal _]. fold s in Hglobal.
  split.
  - intros h0 h1 rest Hrange.
    destruct (CallbackFacts.fire_filters_changed env f h0 h1 rest table s Hglobal Hrange)
      as (s' & Hrun & Hstore & _).
    by exists s'.
  - intros Hshort. by apply (CallbackFacts.fire_filters_short env f table).
Qed.

(** Witness of X1 *)
Lemma filter_change_sets_store_witness :
  (exists s',
     App.fire Fixture.online (App.FiltersChanged Fixture.rainy_weekdays)
              (App.interact Fixture.online [App.RenderMetrics] (App.boot Fixture.trips))
     = (Exec.Ok App.ToStore, s') /\
     App.store s'
     = Some (filter (satisfies 19358 19364 0 23 "all" (App.DBool true) "weekday")
                    Fixture.trips)) /\
  (App.fire Fixture.online
            (App.FiltersChanged (App.mkFilters 19358 19364 [6] "all" (App.DStr "all") "all"))
            (App.interact Fixture.online [App.RenderMetrics] (App.boot Fixture.trips))).1
  = Exec.Raise.
Proof.
  split.
  - destruct (filter_change_sets_store Fixture.online Fixture.trips [App.RenderMetrics]
                Fixture.rainy_weekdays) as [Hset _].
    apply (Hset 0 23 []). reflexivity.
  - destruct (filter_change_sets_store Fixture.online Fixture.trips [App.RenderMetrics]
                (App.mkFilters 19358 19364 [6] "all" (App.DStr "all") "all"))
      as [_ Hshort].
    apply Hshort. simpl. lia.
Defined.

(** X2.  Once the controls have fired, the four cards show the filtered
    rows: their number is the number of rows of the trip table that satisfy
    the five predicates, the averages and the revenue are taken over them.
    When no row satisfies them the cards show a count of 0 and averages
    that are not numbers, not the placeholders of an empty store. *)
Theorem metrics_count_filtered_rows
    (env : Sys.Env) (table : list TripRow) (es : list App.Event) (f : App.Filters)
    (h0 h1 : Z) (rest : list Z) :
  App.hour_range f = h0 :: h1 :: rest ->
  let sat := satisfies (App.start_date f) (App.end_date f) h0 h1
                       (App.payment_type_sel f) (App.weather_sel f) (App.day_type_sel f) in
  let s := App.handle env (App.interact env es (App.boot table)) (App.FiltersChanged f) in
  (App.fire env App.RenderMetrics s).1
  = Exec.Ok (App.MetricCards
               (App.Cards (count_rows sat table)
                          (Num.nanmean ((fun r : TripRow => fare_amount r) <$> filter sat table))
                          (Num.nanmean ((fun r : TripRow => trip_distance r) <$> filter sat table))
                          (Num.nansum ((fun r : TripRow => fare_amount r) <$> filter sat table)))) /\
  (count_rows sat table = O ->
   (App.fire env App.RenderMetrics s).1
   = Exec.Ok (App.MetricCards (App.Cards 0 None None 0))).
Proof.
  intros Hrange sat s.
  destruct (AppFacts.interact_global env es _ table (AppFacts.boot_global table))
    as [Hglobal _].
  destruct (CallbackFacts.fire_filters_changed env f h0 h1 rest table _ Hglobal Hrange)
    as (s' & Hrun & Hstore & _).
  fold sat in Hstore.
  assert (Hs : s = s') by (unfold s, App.handle; by rewrite Hrun).
  assert (Hcards : (App.fire env App.RenderMetrics s).1
                   = Exec.Ok (App.MetricCards
               (App.Cards (count_rows sat table)
                          (Num.nanmean ((fun r : TripRow => fare_amount r) <$> filter sat table))
                          (Num.nanmean ((fun r : TripRow => trip_distance r) <$> filter sat table))
                          (Num.nansum ((fun r : TripRow => fare_amount r) <$> filter sat table))))).
  { rewrite Hs, (CallbackFacts.fire_metrics_rows env _ s' Hstore).
    do 3 f_equal. apply AppFacts.count_rows_filter. }
  split; [exact Hcards|].
  intros Hzero. rewrite Hcards, Hzero.
  assert (Hnil : filter sat table = []).
  { apply length_zero_iff_nil. by rewrite AppFacts.count_rows_filter. }
  by rewrite Hnil.
Qed.

(** Witness of X2 *)
Lemma metrics_count_filtered_rows_witness :
  (App.fire Fixture.online App.RenderMetrics
            (App.handle Fixture.online (App.boot Fixture.trips)
                        (App.FiltersChanged
                           (App.mkFilters 19364 19358 [0; 23] "all" (App.DStr "all") "all")))).1
  = Exec.Ok (App.MetricCards (App.Cards 0 None None 0)).
Proof.
  apply (metrics_count_filtered_rows Fixture.online Fixture.trips []
           (App.mkFilters 19364 19358 [0; 23] "all" (App.DStr "all") "all") 0 23 []).
  - reflexivity.
  - vm_compute. reflexivity.
Defined.

(** X3.  Until the controls fire for the first time the store is empty:
    however many charts are rendered, each chart callback returns its
    placeholder (the cards' zeros, the empty figure) and the session is
    left exactly as it started, with the trip table as only frame. *)
Theorem charts_blank_before_first_filter
    (env : Sys.Env) (table : list TripRow) (charts : list App.Event) (e : App.Event) :
  Forall is_chart charts -> is_chart e ->
  let s := App.interact env charts (App.boot table) in
  s = App.boot table /\
  (App.fire env e s).2 = s /\
  match (App.fire env e s).1 with
  | Exec.Ok (App.MetricCards c) => c = App.NoData
  | Exec.Ok (App.TimeSeries t) => t = None
  | Exec.Ok (App.Heatmap t) => t = None
  | Exec.Ok (App.WeatherChart t) => t = None
  | Exec.Ok (App.Scatter t) => t = None
  | Exec.Ok (App.BoroughBoxplot t) => t = None
  | Exec.Ok (App.PaymentBreakdown t) => t = None
  | _ => False
  end.
Proof.
  intros Hcharts He s.
  assert (Hs : s = App.boot table) by (by apply ChartFacts.interact_blank).
  split; [exact Hs|]. apply ChartFacts.fire_chart_blank; [done|]. by rewrite Hs.
Qed.

(** Witness of X3 *)
Lemma charts_blank_before_first_filter_witness :
  App.interact Fixture.online [App.RenderScatter; App.RenderHeatmap] (App.boot Fixture.trips)
  = App.boot Fixture.trips /\
  (App.fire Fixture.online App.RenderMetrics
            (App.interact Fixture.online [App.RenderScatter; App.RenderHeatmap]
                          (App.boot Fixture.trips))).2
  = App.interact Fixture.online [App.RenderScatter; App.RenderHeatmap]
                 (App.boot Fixture.trips).
Proof.
  destruct (charts_blank_before_first_filter Fixture.online Fixture.trips
              [App.RenderScatter; App.RenderHeatmap] App.RenderMetrics)
    as (Hsame & Hstate & _).
  - repeat constructor.
  - exact I.
  - split; [exact Hsame | exact Hstate].
Defined.

(** X4.  The three charts that group the store's rows count every row
    once: the daily counts of the time series, the counts of the hour by
    day heat map and the counts of the payment breakdown each add up to the
    number of rows in the store.  The time series has one point per pickup
    date, in ascending order of date, and none with a count of zero. *)
Theorem chart_groups_count_every_row (rows : list TripRow) (s : App.Dash) :
  (exists t,
     (App.update_time_series (Some rows) s).1 = Exec.Ok (Some t) /\
     sum_list (t.*2) = length rows /\
     StronglySorted Z.lt (t.*1) /\
     (forall d, d ∈ t.*1 <->
                d ∈ (fun r : TripRow => Calendar.date_of (pickup r)) <$> rows) /\
     Forall (fun p : Z * nat => (0 < p.2)%nat) t) /\
  (exists t,
     (App.update_heatmap (Some rows) s).1 = Exec.Ok (Some t) /\
     sum_list ((fun c : Z * string * nat * Num.float => c.1.2) <$> t) = length rows) /\
  (exists t,
     (App.update_payment_breakdown (Some rows) s).1 = Exec.Ok (Some t) /\
     sum_list ((fun c : string * nat * Num.float * Num.float => c.1.1.2) <$> t)
     = length rows).
Proof.
  split_and!.
  - eexists. split; [apply CallbackFacts.update_time_series_rows|].
    split_and!.
    + rewrite (AggFacts.counts_of_groups
                 (fun g : Z * App.Frame => (g.1, length g.2)) snd) by done.
      apply AggFacts.by_Z_sizes.
    + rewrite <- list_fmap_compose.
      change (fst ∘ _) with (fst : Z * App.Frame -> Z).
      apply AggFacts.by_Z_keys_sorted.
    + intros d. rewrite <- list_fmap_compose.
      change (fst ∘ _) with (fst : Z * App.Frame -> Z).
      apply AggFacts.by_Z_keys.
    + rewrite Forall_fmap. apply AggFacts.by_Z_nonempty.
  - eexists. split; [apply CallbackFacts.update_heatmap_rows|].
    rewrite (AggFacts.counts_of_groups
               (fun g : (Z * string) * App.Frame =>
                  (g.1.1, g.1.2, length g.2,
                   Num.nanmean ((fun r : TripRow => fare_amount r) <$> g.2)))
               (fun c : Z * string * nat * Num.float => c.1.2)) by done.
    apply AggFacts.by_pair_sizes.
  - eexists. split; [apply CallbackFacts.update_payment_breakdown_rows|].
    rewrite (AggFacts.counts_of_groups
               (fun g : string * App.Frame =>
                  (g.1, length g.2,
                   Num.nanmean ((fun r : TripRow => fare_amount r) <$> g.2),
                   Num.nanmean ((fun r : TripRow => tip_amount r) <$> g.2)))
               (fun c : string * nat * Num.float * Num.float => c.1.1.2)) by done.
    apply AggFacts.by_string_sizes.
Qed.

(** X5.  A range given backwards selects nothing: with the start date
    after the end date, or the first hour after the second, the filter
    callback returns the empty table, whatever the other controls say. *)
Theorem inverted_range_selects_nothing
    (env : Sys.Env) (table : list TripRow) (es : list App.Event)
    (start_date end_date h0 h1 : Z) (rest : list Z)
    (payment_type : string) (weather : App.dropdown_value) (day_type : string) :
  end_date < start_date \/ h1 < h0 ->
  (App.update_filtered_data start_date end_date (h0 :: h1 :: rest)
                            payment_type weather day_type
                            (App.interact env es (App.boot table))).1
  = Exec.Ok [].
Proof.
  intros Hinv.
  destruct (AppFacts.interact_global env es _ table (AppFacts.boot_global table))
    as [Hglobal _].
  rewrite (FilterFacts.update_filtered_data_filter _ _ _ _ _ _ _ _ table _ Hglobal).
  f_equal. apply TableFacts.filter_none.
  intros r _ (Hdate & Hhour & _). unfold date_between, hour_between in *. lia.
Qed.

(** Witness of X5 *)
Lemma inverted_range_selects_nothing_witness :
  (App.update_filtered_data 19364 19358 [0; 23] "all" (App.DStr "all") "all"
                            (App.interact Fixture.online [] (App.boot Fixture.trips))).1
  = Exec.Ok [].
Proof.
  apply (inverted_range_selects_nothing Fixture.online Fixture.trips []
           19364 19358 0 23 [] "all" (App.DStr "all") "all").
  left. lia.
Defined.

(** X6.  Narrowing the date range or the hour range never adds a row: with
    the other controls fixed, the rows returned for a range inside another
    are among the rows returned for the wider one, in the same order. *)
Theorem narrower_ranges_select_fewer
    (env : Sys.Env) (table : list TripRow) (es : list App.Event)
    (start_date end_date h0 h1 start_date' end_date' h0' h1' : Z) (rest rest' : list Z)
    (payment_type : string) (weather : App.dropdown_value) (day_type : string) :
  start_date <= start_date' -> end_date' <= end_date ->
  h0 <= h0' -> h1' <= h1 ->
  let s := App.interact env es (App.boot table) in
  exists wide narrow,
    (App.update_filtered_data start_date end_date (h0 :: h1 :: rest)
                              payment_type weather day_type s).1 = Exec.Ok wide /\
    (App.update_filtered_data start_date' end_date' (h0' :: h1' :: rest')
                              payment_type weather day_type s).1 = Exec.Ok narrow /\
    narrow `sublist_of` wide /\
    (length narrow <= length wide)%nat.
Proof.
  intros Hs He Hh0 Hh1 s.
  destruct (AppFacts.interact_global env es _ table (AppFacts.boot_global table))
    as [Hglobal _]. fold s in Hglobal.
  eexists _, _.
  split; [by apply FilterFacts.update_filtered_data_filter|].
  split; [by apply FilterFacts.update_filtered_data_filter|].
  assert (Hsub : filter (satisfies start_date' end_date' h0' h1' payment_type weather day_type)
                        table
                 `sublist_of`
                 filter (satisfies start_date end_date h0 h1 payment_type weather day_type)
                        table).
  { apply FilterFacts.filter_stronger.
    intros r (Hdate & Hhour & Hrest). unfold satisfies, date_between, hour_between in *.
    split; [lia|]. split; [lia|]. exact Hrest. }
  split; [exact Hsub | by apply sublist_length].
Qed.

(** Witness of X6 *)
Lemma narrower_ranges_select_fewer_witness :
  exists wide narrow,
    (App.update_filtered_data 19358 19364 [0; 23] "all" (App.DStr "all") "all"
                              (App.interact Fixture.online [] (App.boot Fixture.trips))).1
    = Exec.Ok wide /\
    (App.update_filtered_data 19359 19360 [6; 22] "all" (App.DStr "all") "all"
                              (App.interact Fixture.online [] (App.boot Fixture.trips))).1
    = Exec.Ok narrow /\
    narrow `sublist_of` wide.
Proof.
  destruct (narrower_ranges_select_fewer Fixture.online Fixture.trips []
              19358 19364 0 23 19359 19360 6 22 [] [] "all" (App.DStr "all") "all")
    as (wide & narrow & Hwide & Hnarrow & Hsub & _); [lia | lia | lia | lia |].
  exists wide, narrow. split; [exact Hwide|]. split; [exact Hnarrow | exact Hsub].
Defined.

(** X7.  The scatter plot gets every row of the store when there are at
    most 5000, and otherwise the rows the sampler returns for 5000; so,
    with a sampler that returns as many rows as it is asked for, never
    more than 5000 rows. *)
Theorem scatter_at_most_5000 (env : Sys.Env) (rows : list TripRow) (s : App.Dash) :
  (forall l : list TripRow,
     (5000 < length l)%nat -> length (Sys.df_sample env TripRow 5000 l) = 5000%nat) ->
  exists out,
    (App.update_scatter env (Some rows) s).1 = Exec.Ok (Some out) /\
    (length out <= 5000)%nat /\
    ((length rows <= 5000)%nat -> out = rows) /\
    ((5000 < length rows)%nat -> out = Sys.df_sample env TripRow 5000 rows).
Proof.
  intros Hsample.
  assert (H : Logic.returns (App.update_scatter env (Some rows)) s
                (fun a _ => a = Some (if (5000 <? length rows)%nat
                                      then Sys.df_sample env TripRow 5000 rows
                                      else rows))).
  { unfold App.update_scatter.
    eapply AppFacts.returns_bind; [apply AppFacts.load_filtered_data_returns|].
    intros ? ? (l & -> & Hl).
    eapply AppFacts.returns_bind; [by apply AppFacts.rows_of_returns|].
    intros ? ? [-> ->].
    destruct (5000 <? length rows)%nat.
    - eapply AppFacts.returns_bind; [apply AppFacts.alloc_returns|].
      intros l' s1 (Hl' & _).
      eapply AppFacts.returns_bind; [by apply AppFacts.rows_of_returns|].
      intros ? ? [-> ->]. by apply AppFacts.returns_ret.
    - eapply AppFacts.returns_bind; [apply AppFacts.ret_returns|].
      intros ? ? [-> ->].
      eapply AppFacts.returns_bind; [by apply AppFacts.rows_of_returns|].
      intros ? ? [-> ->]. by apply AppFacts.returns_ret. }
  destruct H as (a & s' & Hrun & ->). eexists. split; [by rewrite Hrun|].
  destruct (Nat.ltb_spec 5000 (length rows)) as [Hbig|Hsmall].
  - split_and!; [by rewrite Hsample | lia | done].
  - split_and!; [done | done | lia].
Qed.

(** Witness of X7 *)
Lemma scatter_at_most_5000_witness :
  exists out,
    (App.update_scatter Fixture.online (Some Fixture.trips) (App.boot Fixture.trips)).1
    = Exec.Ok (Some out) /\
    (length out <= 5000)%nat.
Proof.
  destruct (scatter_at_most_5000 Fixture.online Fixture.trips (App.boot Fixture.trips))
    as (out & Hrun & Hlen & _).
  - intros l Hl. cbn [Sys.df_sample Fixture.online]. rewrite length_take. lia.
  - exists out. split; [exact Hrun | exact Hlen].
Defined.

(** * The zone lookup *)

Module ZoneFacts.
Import Zones.

(** The entry [create_zone_lookup] makes of a feature. *)
Lemma lookup_after_loop (features : list Properties) (m : ZoneLookup) k :
  foldl (fun (zone_lookup : ZoneLookup) props =>
           <[zone_id props :=
               mkZone (default "Unknown" (zone_name props))
                      (default "Unknown" (borough props))]> zone_lookup)
        m features !! k
  = match last (filter (fun p => zone_id p = k) features) with
    | Some p => Some (mkZone (default "Unknown" (zone_name p))
                             (default "Unknown" (borough p)))
    | None => m !! k
    end.
Proof.
  revert m. induction features as [|p features IH]; intros m; [done|].
  cbn [foldl]. rewrite IH, filter_cons.
  destruct (decide (zone_id p = k)) as [<-|Hne].
  - destruct (filter _ features) as [|q qs] eqn:E.
    + cbn. apply lookup_insert_eq.
    + rewrite last_cons_cons. destruct (last (q :: qs)) eqn:El; [done|].
      by apply last_None in El.
  - destruct (last _); [done|]. by apply lookup_insert_ne.
Qed.

Lemma create_zone_lookup_spec (features : list Properties) k :
  create_zone_lookup (Some features) !! k
  = (fun p => mkZone (default "Unknown" (zone_name p)) (default "Unknown" (borough p)))
      <$> last (filter (fun p => zone_id p = k) features).
Proof.
  unfold create_zone_lookup. rewrite lookup_after_loop.
  destruct (last _); [done|]. apply lookup_empty.
Qed.

End ZoneFacts.

#[local] Existing Instance Zones.prop_value_eq_dec.

(** X8.  The zone lookup holds, for each zone id of the file, the entry of
    the last feature with that id: a later feature replaces an earlier one
    with the same id, and a feature without a name or a borough is entered
    as 'Unknown'.  So the zone and the borough a trip gets for its pickup
    id are those of the last feature whose id is that number, and
    'Unknown' when there is none. *)
Theorem zone_lookup_last_feature_wins (features : list Zones.Properties) :
  (forall k,
     Zones.create_zone_lookup (Some features) !! k
     = (fun p => Zones.mkZone (default "Unknown" (Zones.zone_name p))
                              (default "Unknown" (Zones.borough p)))
         <$> last (filter (fun p => Zones.zone_id p = k) features)) /\
  (forall r : CleanRow,
     let z := Zones.enrich_row (Zones.create_zone_lookup (Some features)) r in
     let found := last (filter (fun p => Zones.zone_id p = Some (Zones.PNum (PULocationID r)))
                               features) in
     pickup_zone z = default "Unknown" (found ≫= Zones.zone_name) /\
     pickup_borough z = default "Unknown" (found ≫= Zones.borough)).
Proof.
  split; [apply ZoneFacts.create_zone_lookup_spec|].
  intros r. cbv zeta. cbn [Zones.enrich_row pickup_zone pickup_borough].
  unfold Zones.lookup_zone_name, Zones.lookup_borough.
  rewrite ZoneFacts.create_zone_lookup_spec.
  destruct (last _) as [p|]; [|done]. cbn.
  by destruct (Zones.zone_name p), (Zones.borough p).
Qed.

(** X9.  A zone file none of whose zone ids is a number (ids given as
    strings, or under another key) names no zone of any trip: the location
    ids of the trip table are integers, no entry of the lookup is found for
    them, and every row gets 'Unknown' in its four zone cells. *)
Theorem zone_ids_not_numbers_match_nothing
    (features : list Zones.Properties) (df : list CleanRow) :
  (forall p n, p ∈ features -> Zones.zone_id p ≠ Some (Zones.PNum n)) ->
  Forall zones_unknown
         (Zones.enrich_taxi_data_with_zones df (Zones.create_zone_lookup (Some features))).
Proof.
  intros Hids.
  assert (Hmiss : forall n,
             Zones.create_zone_lookup (Some features) !! Some (Zones.PNum n) = None).
  { intros n. rewrite ZoneFacts.create_zone_lookup_spec.
    rewrite TableFacts.filter_none; [done|]. intros p Hp. by apply Hids. }
  revert Hmiss. generalize (Zones.create_zone_lookup (Some features)).
  intros zone_lookup Hmiss.
  unfold Zones.enrich_taxi_data_with_zones. rewrite Forall_fmap.
  apply Forall_forall. intros r _. unfold compose, zones_unknown.
  cbn [Zones.enrich_row pickup_zone pickup_borough dropoff_zone dropoff_borough].
  unfold Zones.lookup_zone_name, Zones.lookup_borough.
  by rewrite !Hmiss.
Qed.

(** Witness of X9 *)
Lemma zone_ids_not_numbers_match_nothing_witness :
  Forall zones_unknown
         (Zones.enrich_taxi_data_with_zones
            Fixture.cleaned
            (Zones.create_zone_lookup
               (Some [Zones.mkProps (Some (Zones.PStr "1")) (Some "Newark Airport") (Some "EWR");
                      Zones.mkProps None (Some "Jamaica Bay") (Some "Queens")]))).
Proof.
  apply zone_ids_not_numbers_match_nothing.
  intros p n Hp. apply elem_of_cons in Hp as [->|Hp]; [discriminate|].
  apply elem_of_cons in Hp as [->|Hp]; [discriminate|].
  by apply elem_of_nil in Hp.
Defined.

(** * Cleaning *)

Module CleanFacts.
Import Clean.


Lemma derive_timed (t : TimedRow) : clean_timed (derive t) = t.
Proof. done. Qed.


Lemma elem_of_clean (df : list RawRow) (r : CleanRow) :
  r ∈ _clean_taxi_data df ->
  exists t : TimedRow,
    r = derive t /\ fare_ok t /\ distance_ok t /\ passengers_ok t /\ duration_ok r.
Proof.
  unfold _clean_taxi_data. intros Hr.
  apply list_elem_of_filter in Hr as [Hdur Hr].
  apply list_elem_of_fmap in Hr as (t & -> & Ht).
  apply list_elem_of_filter in Ht as [Hp Ht].
  apply list_elem_of_filter in Ht as [Hd Ht].
  apply list_elem_of_filter in Ht as [Hf Ht].
  by exists t.
Qed.

(** The minutes of a trip, scaled for rounding to two places. *)
Lemma minutes_scaled x :
  Qnum (inject_Z x / 60 * inject_Z (10 ^ Z.of_nat 2)) = x * 100 /\
  Qden (inject_Z x / 60 * inject_Z (10 ^ Z.of_nat 2)) = 60%positive.
Proof. cbn. split; [lia | done]. Qed.

Lemma duration_minutes_eq p d :
  duration_minutes p d
  = Qred (Qmake (let f := (d - p) * 100 / 60 in
                 let r := ((d - p) * 100) mod 60 in
                 if 2 * r <? 60 then f
                 else if 60 <? 2 * r then f + 1
                 else if Z.even f then f else f + 1) 100).
Proof.
  unfold duration_minutes, Num.round_dp, Num.round_half_even.
  destruct (minutes_scaled (d - p)) as [-> ->]. done.
Qed.

Lemma duration_ok_seconds (t : TimedRow) :
  duration_ok (derive t) <-> 0 < dropoff t - pickup t <= 28800.
Proof.
  unfold duration_ok. cbn [derive trip_duration_minutes].
  rewrite andb_True, TableFacts.Qltb_spec, TableFacts.Qleb_spec, duration_minutes_eq.
  rewrite !Qred_correct. unfold Qlt, Qle. cbn [Qnum Qden].
  set (x := dropoff t - pickup t). cbv zeta.
  pose proof (Z.div_mod (x * 100) 60 ltac:(lia)) as Hdm.
  pose proof (Z.mod_pos_bound (x * 100) 60 ltac:(lia)) as Hr.
  destruct (2 * ((x * 100) mod 60) <? 60) eqn:E1;
    [apply Z.ltb_lt in E1; lia|apply Z.ltb_ge in E1].
  destruct (60 <? 2 * ((x * 100) mod 60)) eqn:E2;
    [apply Z.ltb_lt in E2; lia|apply Z.ltb_ge in E2].
  destruct (Z.even _); lia.
Qed.

Lemma round_half_even_nonneg q : (0 <= q)%Q -> 0 <= Num.round_half_even q.
Proof.
  intros Hq. unfold Qle in Hq. cbn in Hq.
  unfold Num.round_half_even.
  assert (Hf : 0 <= Qnum q / Z.pos (Qden q)) by (apply Z.div_pos; lia).
  repeat case_match; lia.
Qed.

Lemma round_dp_nonneg k q : (0 <= q)%Q -> (0 <= Num.round_dp k q)%Q.
Proof.
  intros Hq. unfold Num.round_dp. rewrite Qred_correct.
  unfold Qle. cbn [Qnum Qden]. rewrite Z.mul_1_r, Z.mul_0_l.
  apply round_half_even_nonneg.
  apply Qmult_le_0_compat; [done|].
  unfold Qle. cbn. assert (0 < 10 ^ Z.of_nat k) by (apply Z.pow_pos_nonneg; lia). lia.
Qed.

End CleanFacts.


(** X11.  Timestamps being whole seconds, the check on the rounded minutes
    keeps a trip exactly when it ends after it starts and at most eight
    hours later: rounding to two places neither admits a trip of no
    duration nor rejects one of exactly 480 minutes.  So every cleaned trip
    is dropped off after its pickup, within 28800 seconds. *)
Theorem cleaned_trips_last_up_to_eight_hours :
  (forall t : TimedRow,
     Clean.duration_ok (Clean.derive t) <->
     pickup t < dropoff t /\ dropoff t <= pickup t + 28800) /\
  (forall (df : list RawRow) (r : CleanRow),
     r ∈ Clean._clean_taxi_data df ->
     pickup r < dropoff r /\ dropoff r <= pickup r + 28800).
Proof.
  assert (Hrow : forall t : TimedRow,
             Clean.duration_ok (Clean.derive t) <->
             pickup t < dropoff t /\ dropoff t <= pickup t + 28800).
  { intros t. rewrite CleanFacts.duration_ok_seconds. lia. }
  split; [exact Hrow|].
  intros df r Hr. apply CleanFacts.elem_of_clean in Hr as (t & -> & _ & _ & _ & Hdur).
  by apply Hrow.
Qed.

(** Witness of X11 *)
Lemma cleaned_trips_last_up_to_eight_hours_witness :
  exists r : CleanRow,
    head Fixture.cleaned = Some r /\
    pickup r < dropoff r /\ dropoff r <= pickup r + 28800.
Proof.
  destruct cleaned_trips_last_up_to_eight_hours as [_ Hclean].
  eexists. split; [vm_compute; reflexivity|].
  apply (Hclean Fixture.trips_file). vm_compute. constructor.
Defined.

(** X12.  The two ratio columns are computed after the fare and the
    distance were checked, so they never divide by zero: in every cleaned
    row the price per mile is a number, not negative, and the tip
    percentage is a number exactly when the tip amount is one. *)
Theorem cleaned_ratios_are_numbers (df : list RawRow) (r : CleanRow) :
  r ∈ Clean._clean_taxi_data df ->
  (exists q, price_per_mile r = Some q /\ (0 <= q)%Q) /\
  (is_Some (tip_percentage r) <-> is_Some (tip_amount r)).
Proof.
  intros Hr.
  apply CleanFacts.elem_of_clean in Hr as (t & -> & Hfare & Hdist & _ & _).
  apply TableFacts.within_spec in Hfare as (fare & Hfare & Hfare0 & _).
  apply TableFacts.within_spec in Hdist as (dist & Hdist & Hdist0 & _).
  cbn [Clean.derive price_per_mile tip_percentage clean_timed].
  rewrite Hfare, Hdist. unfold Num.fdiv.
  assert (Hd : Qeq_bool dist 0 = false).
  { apply not_true_iff_false. rewrite Qeq_bool_iff. intros Heq.
    rewrite Heq in Hdist0. by apply Qlt_irrefl in Hdist0. }
  assert (Hf : Qeq_bool fare 0 = false).
  { apply not_true_iff_false. rewrite Qeq_bool_iff. intros Heq.
    rewrite Heq in Hfare0. by apply Qlt_irrefl in Hfare0. }
  rewrite Hd. split.
  - eexists. split; [reflexivity|]. apply CleanFacts.round_dp_nonneg.
    apply Qle_shift_div_l; [done|]. rewrite Qmult_0_l. by apply Qlt_le_weak.
  - destruct (tip_amount t) as [tip|]; cbn.
    + rewrite Hf. cbn. split; intros _; eexists; reflexivity.
    + split; intros [? [=]].
Qed.

(** Witness of X12 *)
Lemma cleaned_ratios_are_numbers_witness :
  exists r : CleanRow,
    head Fixture.cleaned = Some r /\
    (exists q, price_per_mile r = Some q /\ (0 <= q)%Q) /\
    (is_Some (tip_percentage r) <-> is_Some (tip_amount r)).
Proof.
  eexists. split; [vm_compute; reflexivity|].
  apply (cleaned_ratios_are_numbers Fixture.trips_file). vm_compute. constructor.
Defined.

(** * Weather, join and aggregations *)

Module WeatherFacts.
Import Exec Sys Loader Stages ExecFacts LoaderFacts.

#[local] Opaque Calendar.dayofyear Num.round_dp Num.Qltb.


#[local] Transparent Calendar.dayofyear Num.round_dp Num.Qltb.




End WeatherFacts.

Module JoinFacts.

Lemma matches_filter (t : ZonedRow) (weather : list WeatherRow) :
  filter (fun w => Merge.matches t w) weather
  = filter (fun w => w_date w = date t) weather.
Proof. apply list_filter_iff. intros w. apply bool_decide_spec. Qed.

(** The rows the join makes of one taxi row. *)
Lemma join_row (t : ZonedRow) (weather : list WeatherRow) :
  let found := filter (fun w => w_date w = date t) weather in
  let rows := match filter (fun w => Merge.matches t w) weather with
              | [] => [Merge.without_weather t]
              | ws => Merge.with_weather t <$> ws
              end in
  length rows = Nat.max 1 (length found) /\
  Forall (fun m : MergedRow =>
            merged_zoned m = t /\
            (date t ∈ w_date <$> weather -> has_weather m) /\
            (date t ∉ w_date <$> weather ->
             temperature m = None /\ is_rainy m = None /\ precipitation_inches m = None))
         rows.
Proof.
  cbv zeta. rewrite matches_filter.
  destruct (filter (fun w => w_date w = date t) weather) as [|w ws] eqn:E.
  - split; [done|]. constructor; [|constructor]. split_and!; [done| |done].
    intros Hin. apply list_elem_of_fmap in Hin as (w & Hw & Hin).
    assert (Hf : w ∈ filter (fun w => w_date w = date t) weather)
      by (by apply list_elem_of_filter).
    rewrite E in Hf. by apply elem_of_nil in Hf.
  - split; [cbn [length]; rewrite length_fmap; cbn [length]; lia|].
    rewrite Forall_fmap. apply Forall_forall. intros w' Hw'. cbn.
    split_and!; [done| |].
    + intros _. unfold has_weather. cbn. eauto.
    + intros Hout. exfalso. apply Hout.
      assert (Hf : w ∈ filter (fun w => w_date w = date t) weather)
        by (rewrite E; left).
      apply list_elem_of_filter in Hf as [<- Hf]. by apply list_elem_of_fmap_2.
Qed.

Lemma left_join_rows (taxi_df : list ZonedRow) (weather : list WeatherRow) :
  let merged := Merge.left_join taxi_df weather in
  length merged
  = sum_list ((fun t : ZonedRow =>
                 Nat.max 1 (length (filter (fun w => w_date w = date t) weather)))
                <$> taxi_df) /\
  (forall t, t ∈ taxi_df <-> t ∈ merged_zoned <$> merged) /\
  Forall (fun m : MergedRow =>
            (date m ∈ w_date <$> weather -> has_weather m) /\
            (date m ∉ w_date <$> weather ->
             temperature m = None /\ is_rainy m = None /\ precipitation_inches m = None))
         merged.
Proof.
  cbv zeta. unfold Merge.left_join.
  induction taxi_df as [|t taxi_df (IHlen & IHin & IHcells)].
  - split_and!; [done| |constructor]. intros t. cbn. split; intros H; by apply elem_of_nil in H.
  - destruct (join_row t weather) as (Hlen & Hrows).
    rewrite bind_cons. split_and!.
    + rewrite length_app, Hlen, IHlen. done.
    + intros t'. rewrite fmap_app, elem_of_app, elem_of_cons, <- IHin.
      split.
      * intros [->|Ht']; [left|by right].
        revert Hlen Hrows.
        generalize (match filter (fun w => Merge.matches t w) weather with
                    | [] => [Merge.without_weather t]
                    | ws => Merge.with_weather t <$> ws
                    end).
        intros [|m ms] Hlen Hrows; [cbn in Hlen; lia|].
        apply Forall_cons in Hrows as [(<- & _) _]. cbn. left.
      * intros [Ht'|Ht']; [left|by right].
        apply list_elem_of_fmap in Ht' as (m & -> & Hm).
        rewrite Forall_forall in Hrows. by destruct (Hrows m Hm) as (-> & _).
    + apply Forall_app. split; [|done].
      eapply Forall_impl; [exact Hrows|]. intros m (<- & Hin & Hout). by split.
Qed.

End JoinFacts.


(** X14.  The left join of [merge_weather_data] with any weather table that
    has a row keeps every trip and adds none of its own: the trips of the
    result are those of the taxi table; a trip appears once for each
    weather row of its date, and once, with its three weather cells null,
    when the weather table has no row of that date. *)
Theorem left_join_keeps_every_trip
    (taxi_df : list ZonedRow) (weather_df : list WeatherRow) :
  weather_df ≠ [] ->
  exists merged,
    Merge.merge_weather_data taxi_df weather_df = Exec.Ok merged /\
    length merged
    = sum_list ((fun t : ZonedRow =>
                   Nat.max 1 (length (filter (fun w => w_date w = date t) weather_df)))
                  <$> taxi_df) /\
    (length taxi_df <= length merged)%nat /\
    (forall t, t ∈ taxi_df <-> t ∈ merged_zoned <$> merged) /\
    Forall (fun m : MergedRow =>
              (date m ∈ w_date <$> weather_df -> has_weather m) /\
              (date m ∉ w_date <$> weather_df ->
               temperature m = None /\ is_rainy m = None /\
               precipitation_inches m = None))
           merged.
Proof.
  intros Hne. exists (Merge.left_join taxi_df weather_df).
  destruct (JoinFacts.left_join_rows taxi_df weather_df) as (Hlen & Hin & Hcells).
  split_and!; [by destruct weather_df|done| |done|done].
  rewrite Hlen. clear. induction taxi_df as [|t taxi_df IH]; [done|]. cbn. lia.
Qed.

(** Witness of X14 *)
Lemma left_join_keeps_every_trip_witness :
  exists merged,
    Merge.merge_weather_data Fixture.zoned [mkWeather 19358 (35 # 1) true (1 # 4)]
    = Exec.Ok merged /\
    (length Fixture.zoned <= length merged)%nat.
Proof.
  destruct (left_join_keeps_every_trip Fixture.zoned [mkWeather 19358 (35 # 1) true (1 # 4)])
    as (merged & Hrun & _ & Hlen & _); [discriminate|].
  exists merged. split; [exact Hrun | exact Hlen].
Defined.

(** X15.  [create_aggregations] returns the caller's table with the
    pickup hour added to each row and nothing else changed, and five
    tables each of which counts every trip once: the trip counts of the
    daily, hourly, hour by day, borough and payment tables each add up to
    the number of rows of the table. *)
Theorem aggregations_count_every_trip (merged : list MergedRow) (w : Sys.World) :
  exists tables df w',
    Loader.create_aggregations merged w = (Exec.Ok (tables, df), w') /\
    trip_merged <$> df = merged /\
    Forall (fun r : TripRow => date_hour r = Calendar.floor_hour (pickup r)) df /\
    sum_list (Agg.d_trip_count <$> Agg.daily tables) = length merged /\
    sum_list (Agg.h_trip_count <$> Agg.hourly tables) = length merged /\
    sum_list (Agg.hd_trip_count <$> Agg.hour_dow tables) = length merged /\
    sum_list (Agg.b_trip_count <$> Agg.borough tables) = length merged /\
    sum_list (Agg.p_trip_count <$> Agg.payment tables) = length merged.
Proof.
  eexists _, _, _. split.
  { unfold Loader.create_aggregations.
    cbv beta iota zeta delta [mbind Exec.M_bind Exec.bind Sys.print Exec.modify
                              mret Exec.M_ret Exec.ret].
    reflexivity. }
  destruct (AggFacts.tables_count_every_trip (Agg.add_date_hour merged))
    as (Hd & Hh & Hhd & Hb & Hp).
  assert (Hlen : length (Agg.add_date_hour merged) = length merged)
    by apply length_fmap.
  rewrite Hlen in *. split_and!; try done.
  - unfold Agg.add_date_hour. rewrite <- list_fmap_compose. apply list_fmap_id.
  - unfold Agg.add_date_hour. rewrite Forall_fmap. by apply Forall_forall.
Qed.

(** X16.  The daily table has one row for each date of the trip table, in
    ascending order of date, and the hourly table one row for each pickup
    hour, in ascending order; neither has a row without trips, and the trip
    count of a day is the number of trips of that date. *)
Theorem daily_and_hourly_rows (df : list TripRow) :
  StronglySorted Z.lt (Agg.d_date <$> Agg.daily_of df) /\
  (forall d, d ∈ Agg.d_date <$> Agg.daily_of df <->
             d ∈ (fun r : TripRow => date r) <$> df) /\
  Forall (fun row => Agg.d_trip_count row
                     = length (filter (fun r : TripRow => date r = Agg.d_date row) df) /\
                     (0 < Agg.d_trip_count row)%nat)
         (Agg.daily_of df) /\
  StronglySorted Z.lt (Agg.h_date_hour <$> Agg.hourly_of df) /\
  (forall h, h ∈ Agg.h_date_hour <$> Agg.hourly_of df <-> h ∈ date_hour <$> df) /\
  Forall (fun row => (0 < Agg.h_trip_count row)%nat) (Agg.hourly_of df).
Proof.
  unfold Agg.daily_of, Agg.hourly_of. rewrite <- !list_fmap_compose.
  split_and!.
  - apply AggFacts.by_Z_keys_sorted.
  - apply AggFacts.by_Z_keys.
  - rewrite Forall_fmap. apply Forall_forall. intros [k g] Hg. cbn.
    pose proof (AggFacts.by_Z_nonempty (fun r : TripRow => date r) df) as Hne.
    rewrite Forall_forall in Hne. split; [|by apply (Hne (k, g))].
    unfold GroupBy.groupby in Hg. apply list_elem_of_fmap in Hg as (k' & [= -> ->] & _).
    f_equal. apply list_filter_iff. intros r.
    rewrite Is_true_true. apply Z.eqb_eq.
  - apply AggFacts.by_Z_keys_sorted.
  - apply AggFacts.by_Z_keys.
  - rewrite Forall_fmap. apply AggFacts.by_Z_nonempty.
Qed.

(** * Downloads and snapshots *)

Module FetchFacts.
Import Exec Sys Loader Stages Spec ExecFacts LoaderFacts.

(** A stream that breaks leaves a file that cannot be read. *)
Lemma load_taxi_data_broken env year month sample_size w :
  raw_files w !! raw_path year month = None ->
  get_parquet env (length (requests w)) (parquet_url year month) = FetchBroken ->
  raw_writable env = true ->
  let run := load_taxi_data env year month sample_size w in
  run.1 = Ok [] /\
  raw_files run.2 = <[raw_path year month := None]> (raw_files w) /\
  requests run.2 = requests w ++ [parquet_url year month] /\
  printed w run.2
  = [LoadingTaxiData year month; DownloadingFrom (parquet_url year month);
     OneTimeDownload; ErrorLoadingTaxiData].
Proof.
  intros Hfile Hget Hwritable. cbn zeta.
  destruct (load_taxi_data env year month sample_size w) as [r w'] eqn:E.
  unfold load_taxi_data in E. io_cases E.
  all: repeat match goal with
              | H : bool_decide _ = true |- _ => apply bool_decide_eq_true in H
              end.
  all: try match goal with
           | H : is_Some _ |- _ => rewrite Hfile in H; by destruct H
           end.
  all: try congruence.
  split_and!; try done.
  unfold printed. cbn. by rewrite <- !app_assoc, drop_app_length.
Qed.

(** A local copy that cannot be read: no request, no change, no rows. *)
Lemma load_taxi_data_unreadable env year month sample_size w :
  raw_files w !! raw_path year month = Some None ->
  let run := load_taxi_data env year month sample_size w in
  run.1 = Ok [] /\
  raw_files run.2 = raw_files w /\
  requests run.2 = requests w /\
  printed w run.2
  = [LoadingTaxiData year month; LoadingFromLocalCache (raw_path year month);
     ErrorLoadingTaxiData].
Proof.
  intros Hfile. cbn zeta.
  destruct (load_taxi_data env year month sample_size w) as [r w'] eqn:E.
  unfold load_taxi_data in E. io_cases E.
  all: repeat match goal with
              | H : bool_decide _ = false |- _ => apply bool_decide_eq_false in H
              end.
  all: try congruence.
  all: try (exfalso; eauto; fail).
  split_and!; try done.
  unfold printed. cbn. by rewrite <- !app_assoc, drop_app_length.
Qed.

(** A local copy with no more rows than the sample size. *)
Lemma load_taxi_data_local env year month sample_size w rows :
  raw_files w !! raw_path year month = Some (Some rows) ->
  Z.of_nat (length rows) <= sample_size ->
  load_taxi_data env year month sample_size w
  = (Ok (Clean._clean_taxi_data rows),
     mkWorld (raw_files w) (cache_files w)
             (stdout w ++ [LoadingTaxiData year month;
                           LoadingFromLocalCache (raw_path year month);
                           LoadedTaxiRecords (length (Clean._clean_taxi_data rows))])
             (requests w) (rng w)).
Proof.
  intros Hfile Hsmall.
  destruct (load_taxi_data env year month sample_size w) as [r w'] eqn:E.
  unfold load_taxi_data in E. io_cases E.
  all: repeat match goal with
              | H : bool_decide _ = false |- _ => apply bool_decide_eq_false in H
              | H : (_ <? _) = true |- _ => apply Z.ltb_lt in H
              | H : (_ <? _) = false |- _ => apply Z.ltb_ge in H
              end.
  all: try congruence.
  all: try (exfalso; eauto; fail).
  all: simplify_eq/=.
  all: try lia.
  by rewrite <- !app_assoc.
Qed.

(** A negative sample size: whatever the file holds, sampling raises. *)
Lemma load_taxi_data_negative env year month sample_size w :
  sample_size < 0 ->
  let run := load_taxi_data env year month sample_size w in
  run.1 = Ok [] /\ ErrorLoadingTaxiData ∈ printed w run.2.
Proof.
  intros Hneg. cbn zeta.
  destruct (load_taxi_data env year month sample_size w) as [r w'] eqn:E.
  unfold load_taxi_data in E. io_cases E.
  all: repeat match goal with
              | H : (_ <? _) = true |- _ => apply Z.ltb_lt in H
              | H : (_ <? _) = false |- _ => apply Z.ltb_ge in H
              end.
  all: try lia.
  all: split; [done|].
  all: unfold printed; cbn; rewrite <- ?app_assoc, drop_app_length.
  all: repeat first [apply list_elem_of_here | apply list_elem_of_further].
Qed.

(** With no rows from [load_taxi_data], nothing is built. *)
Lemma recompute_of_empty env year month sample_size w :
  (load_taxi_data env year month sample_size w).1 = Ok [] ->
  (recompute env year month sample_size w).1 = Ok None.
Proof.
  intros Hload. unfold recompute, build. rewrite !bind_eq.
  destruct (load_taxi_data env year month sample_size w) as [[rows|] w1];
    cbn in Hload; [|discriminate Hload].
  injection Hload as ->. done.
Qed.

End FetchFacts.

Module SnapshotFacts.
Import Exec Sys Loader Stages Spec ExecFacts LoaderFacts.

(** What "Save to cache" leaves behind, by the outcome of the write. *)
Lemma save_outcome env year month sample_size data w :
  exists w',
    save env year month sample_size data w = (Ok tt, w') /\
    raw_files w' = raw_files w /\
    cache_files w'
    = match cache_write env with
      | WriteDenied => cache_files w
      | WriteTruncated => <[cache_path year month sample_size := None]> (cache_files w)
      | WriteDone => <[cache_path year month sample_size := Some data]> (cache_files w)
      end /\
    stdout w'
    = stdout w ++ match cache_write env with
                  | WriteDone => [SavingCache; CachedTo (cache_path year month sample_size)]
                  | _ => [SavingCache; FailedToSaveCache]
                  end.
Proof.
  destruct (save env year month sample_size data w) as [r w'] eqn:E.
  unfold save in E. io_cases E.
  all: eexists; split; [reflexivity|]; split_and!; try done.
  all: cbn; by rewrite <- ?app_assoc.
Qed.

(** The files the recomputation leaves under data/cache. *)
Lemma recompute_cache env year month sample_size w :
  let run := recompute env year month sample_size w in
  match run.1 with
  | Ok (Some data) =>
      cache_files run.2
      = match cache_write env with
        | WriteDenied => cache_files w
        | WriteTruncated => <[cache_path year month sample_size := None]> (cache_files w)
        | WriteDone => <[cache_path year month sample_size := Some data]> (cache_files w)
        end /\
      (cache_write env ≠ WriteDone -> FailedToSaveCache ∈ printed w run.2)
  | _ => cache_files run.2 = cache_files w
  end.
Proof.
  cbn zeta. unfold recompute. rewrite bind_eq.
  destruct (build env year month sample_size w) as [b w1] eqn:Eb.
  apply build_spec in Eb as (res & msgs & -> & Hout & Hcache & _).
  destruct res as [data|]; [|done].
  rewrite bind_eq.
  destruct (save_outcome env year month sample_size data w1)
    as (w2 & -> & _ & Hfiles & Hsaid).
  cbn. rewrite Hfiles, Hcache. split; [done|].
  intros Hfail. unfold printed.
  rewrite Hsaid, Hout, <- app_assoc, drop_app_length.
  apply elem_of_app. right.
  destruct (cache_write env); [| |done];
    repeat first [apply list_elem_of_here | apply list_elem_of_further].
Qed.

(** The load, by what the cache stage found. *)
Lemma load_all_data_miss env year month sample_size use_cache w :
  use_cache = false \/ no_snapshot year month sample_size w ->
  exists w1,
    load_all_data env year month sample_size use_cache w
    = recompute env year month sample_size w1 /\
    raw_files w1 = raw_files w /\ cache_files w1 = cache_files w /\
    requests w1 = requests w /\ rng w1 = rng w /\
    (exists msgs, stdout w1 = stdout w ++ msgs).
Proof.
  intros Hmiss. rewrite load_all_data_staged. unfold staged. rewrite bind_eq.
  destruct (try_cache year month sample_size use_cache w) as [c w1] eqn:E.
  apply try_cache_spec in E
    as (hit & msgs & -> & Hout & Hraw & Hcache & Hreq & Hrng & _ & _ & Hhit & _).
  assert (hit = None) as ->.
  { rewrite Hhit. destruct Hmiss as [->|Hnone].
    - by repeat case_match.
    - unfold no_snapshot in Hnone.
      destruct (cache_files w !! cache_path year month sample_size) as [[data|]|] eqn:Ec;
        [by destruct (Hnone data)|done..]. }
  exists w1. split_and!; try done. by exists msgs.
Qed.

End SnapshotFacts.

(** X17.  A download that breaks after the local file was opened leaves a
    file that cannot be read: the load returns no rows, and so does every
    later load of that month on a machine with that file, which finds the
    file, makes no request and leaves the file as it is. *)
Theorem broken_download_poisons_local_copy
    (env : Sys.Env) (year month sample_size : Z) (w : Sys.World) :
  Sys.raw_files w !! Sys.raw_path year month = None ->
  Sys.get_parquet env (length (Sys.requests w)) (Sys.parquet_url year month)
  = Sys.FetchBroken ->
  Sys.raw_writable env = true ->
  let first := Loader.load_taxi_data env year month sample_size w in
  first.1 = Exec.Ok [] /\
  Sys.raw_files first.2 !! Sys.raw_path year month = Some None /\
  (forall env' sample_size' w2,
     Sys.raw_files w2 !! Sys.raw_path year month = Some None ->
     let again := Loader.load_taxi_data env' year month sample_size' w2 in
     again.1 = Exec.Ok [] /\
     Sys.requests again.2 = Sys.requests w2 /\
     Sys.raw_files again.2 = Sys.raw_files w2 /\
     Sys.ErrorLoadingTaxiData ∈ Stages.printed w2 again.2).
Proof.
  intros Hfile Hget Hwritable first.
  destruct (FetchFacts.load_taxi_data_broken env year month sample_size w
              Hfile Hget Hwritable) as (Hres & Hraw & _).
  fold first in Hres, Hraw. split_and!.
  - exact Hres.
  - rewrite Hraw. apply lookup_insert_eq.
  - intros env' sample_size' w2 Hbad again.
    destruct (FetchFacts.load_taxi_data_unreadable env' year month sample_size' w2 Hbad)
      as (Hres2 & Hraw2 & Hreq2 & Hsaid2).
    fold again in Hres2, Hraw2, Hreq2, Hsaid2. split_and!; try done.
    rewrite Hsaid2. repeat first [apply list_elem_of_here | apply list_elem_of_further].
Qed.

(** Witness of X17 *)
Lemma broken_download_poisons_local_copy_witness :
  let first := Loader.load_taxi_data Fixture.broken_stream 2023 1 50000 Fixture.fresh_world in
  first.1 = Exec.Ok [] /\
  Sys.raw_files first.2 !! Sys.raw_path 2023 1 = Some None /\
  (Loader.load_taxi_data Fixture.online 2023 1 50000 first.2).1 = Exec.Ok [] /\
  Sys.requests (Loader.load_taxi_data Fixture.online 2023 1 50000 first.2).2
  = Sys.requests first.2.
Proof.
  intros first.
  destruct (broken_download_poisons_local_copy Fixture.broken_stream 2023 1 50000
              Fixture.fresh_world) as (Hres & Hfile & Hlater); [reflexivity..|].
  fold first in Hres, Hfile.
  destruct (Hlater Fixture.online 50000 first.2 Hfile) as (Hagain & Hreq & _).
  by split_and!.
Defined.

(** X18.  A negative sample size loads nothing: whatever the trip file
    holds, sampling raises, [load_taxi_data] prints its error and returns
    the empty table, and a load that does not read the snapshot returns no
    package. *)
Theorem negative_sample_size_loads_nothing
    (env : Sys.Env) (year month sample_size : Z) (w : Sys.World) :
  sample_size < 0 ->
  (Loader.load_taxi_data env year month sample_size w).1 = Exec.Ok [] /\
  Sys.ErrorLoadingTaxiData
    ∈ Stages.printed w (Loader.load_taxi_data env year month sample_size w).2 /\
  (Loader.load_all_data env year month sample_size false w).1 = Exec.Ok None.
Proof.
  intros Hneg.
  destruct (FetchFacts.load_taxi_data_negative env year month sample_size w Hneg)
    as [Hres Hsaid].
  split_and!; [done|done|].
  destruct (SnapshotFacts.load_all_data_miss env year month sample_size false w)
    as (w1 & -> & _); [by left|].
  apply FetchFacts.recompute_of_empty.
  by apply FetchFacts.load_taxi_data_negative.
Qed.

(** Witness of X18 *)
Lemma negative_sample_size_loads_nothing_witness :
  (Loader.load_all_data Fixture.online 2023 1 (-1) false Fixture.fresh_world).1
  = Exec.Ok None.
Proof.
  apply (negative_sample_size_loads_nothing Fixture.online 2023 1 (-1) Fixture.fresh_world).
  lia.
Defined.

(** X19.  With a readable local copy of no more rows than the sample size,
    [load_taxi_data] samples nothing and asks nothing of the network: it
    returns the cleaned rows of the copy, prints the three lines of that
    path and leaves every file as it is. *)
Theorem local_copy_is_read_whole
    (env : Sys.Env) (year month sample_size : Z) (w : Sys.World) (rows : list RawRow) :
  Sys.raw_files w !! Sys.raw_path year month = Some (Some rows) ->
  Z.of_nat (length rows) <= sample_size ->
  let run := Loader.load_taxi_data env year month sample_size w in
  run.1 = Exec.Ok (Clean._clean_taxi_data rows) /\
  Stages.printed w run.2
  = [Sys.LoadingTaxiData year month;
     Sys.LoadingFromLocalCache (Sys.raw_path year month);
     Sys.LoadedTaxiRecords (length (Clean._clean_taxi_data rows))] /\
  Sys.requests run.2 = Sys.requests w /\
  Sys.raw_files run.2 = Sys.raw_files w /\
  Sys.cache_files run.2 = Sys.cache_files w.
Proof.
  intros Hfile Hsmall run. unfold run.
  rewrite (FetchFacts.load_taxi_data_local env year month sample_size w rows Hfile Hsmall).
  split_and!; try done.
  unfold Stages.printed. cbn. by rewrite drop_app_length.
Qed.

(** Witness of X19 *)
Lemma local_copy_is_read_whole_witness :
  (Loader.load_taxi_data Fixture.no_trips 2023 1 50000 Fixture.copied_world).1
  = Exec.Ok Fixture.cleaned /\
  Sys.requests (Loader.load_taxi_data Fixture.no_trips 2023 1 50000 Fixture.copied_world).2
  = [].
Proof.
  destruct (local_copy_is_read_whole Fixture.no_trips 2023 1 50000 Fixture.copied_world
              Fixture.trips_file) as (Hres & _ & Hreq & _).
  - vm_compute. reflexivity.
  - vm_compute. discriminate.
  - split; [exact Hres | exact Hreq].
Defined.

(** X20.  With [use_cache=False] the snapshot is not read: the load
    returns what it returns on the same machine without the snapshot, and
    leaves the same files under data/raw and the same requests.  It still
    writes: a package it returns replaces the snapshot when the write
    succeeds. *)
Theorem cache_disabled_recomputes
    (env : Sys.Env) (year month sample_size : Z) (w : Sys.World) :
  let run := Loader.load_all_data env year month sample_size false w in
  let miss := Loader.load_all_data env year month sample_size true
                (Stages.without_cache (Sys.cache_path year month sample_size) w) in
  run.1 = miss.1 /\
  Sys.raw_files run.2 = Sys.raw_files miss.2 /\
  Sys.requests run.2 = Sys.requests miss.2 /\
  (forall data,
     run.1 = Exec.Ok (Some data) -> Sys.cache_write env = Sys.WriteDone ->
     Sys.cache_files run.2
     = <[Sys.cache_path year month sample_size := Some data]> (Sys.cache_files w)).
Proof.
  cbn zeta.
  destruct (SnapshotFacts.load_all_data_miss env year month sample_size false w)
    as (w1 & -> & Hraw1 & Hcache1 & Hreq1 & Hrng1 & _); [by left|].
  destruct (SnapshotFacts.load_all_data_miss env year month sample_size true
              (Stages.without_cache (Sys.cache_path year month sample_size) w))
    as (w0 & -> & Hraw0 & _ & Hreq0 & Hrng0 & _).
  { right. intros data. cbn. by rewrite lookup_delete_eq. }
  cbn in Hraw0, Hreq0, Hrng0.
  assert (Hsim : Stages.sim w1 w0) by (repeat split; congruence).
  destruct (LoaderFacts.uniform_recompute env year month sample_size w1 w0 Hsim)
    as [Hres (Hraw & Hreq & _)].
  split_and!; try done.
  intros data Hdata Hdone.
  pose proof (SnapshotFacts.recompute_cache env year month sample_size w1) as Hfiles.
  cbn zeta in Hfiles. rewrite Hdata, Hdone, Hcache1 in Hfiles. by destruct Hfiles.
Qed.

(** X21.  A load that returns no package writes no snapshot: the files
    under data/cache are those it found, and it has printed that the trip
    data failed to load. *)
Theorem failed_load_writes_no_snapshot
    (env : Sys.Env) (year month sample_size : Z) (use_cache : bool) (w : Sys.World) :
  let run := Loader.load_all_data env year month sample_size use_cache w in
  run.1 = Exec.Ok None ->
  Sys.cache_files run.2 = Sys.cache_files w /\
  Sys.FailedToLoadTaxiData ∈ Stages.printed w run.2.
Proof.
  cbn zeta. intros Hnone. split.
  - revert Hnone. rewrite LoaderFacts.load_all_data_staged. unfold Stages.staged.
    rewrite ExecFacts.bind_eq.
    destruct (Stages.try_cache year month sample_size use_cache w) as [c w1] eqn:E.
    apply LoaderFacts.try_cache_spec in E as (hit & msgs & -> & _ & _ & Hcache & _).
    destruct hit as [data|]; [discriminate|].
    intros Hnone.
    pose proof (SnapshotFacts.recompute_cache env year month sample_size w1) as Hfiles.
    cbn zeta in Hfiles. rewrite Hnone in Hfiles. by rewrite Hfiles.
  - destruct (Loader.load_all_data env year month sample_size use_cache w)
      as [r w'] eqn:E.
    apply LoaderFacts.load_all_data_spec in E as (res & msgs & -> & Hout & _ & Hfail & _).
    cbn in Hnone. injection Hnone as ->.
    cbn [snd]. rewrite (LoaderFacts.printed_app _ _ _ Hout). by apply Hfail.
Qed.

(** Witness of X21 *)
Lemma failed_load_writes_no_snapshot_witness :
  Sys.cache_files (Loader.load_all_data Fixture.no_trips 2023 1 50000 true
                                        Fixture.stale_world).2
  = Sys.cache_files Fixture.stale_world.
Proof.
  apply (failed_load_writes_no_snapshot Fixture.no_trips 2023 1 50000 true
           Fixture.stale_world).
  vm_compute. reflexivity.
Defined.

(** X22.  A failure to save the snapshot does not fail the load: whatever
    comes of the write, the load returns the same.  When it recomputed a
    package and the file could not be opened, the files under data/cache
    are those it found; when the write broke off, the snapshot is left
    unreadable; either way it has printed that saving failed. *)
Theorem cache_write_failure_is_swallowed
    (env : Sys.Env) (year month sample_size : Z) (use_cache : bool) (w : Sys.World) :
  let run := Loader.load_all_data env year month sample_size use_cache w in
  (forall o,
     (Loader.load_all_data (Stages.with_cache_write o env) year month sample_size
                           use_cache w).1 = run.1) /\
  (forall data,
     use_cache = false \/ no_snapshot year month sample_size w ->
     run.1 = Exec.Ok (Some data) ->
     (Sys.cache_write env = Sys.WriteDenied ->
      Sys.cache_files run.2 = Sys.cache_files w /\
      Sys.FailedToSaveCache ∈ Stages.printed w run.2) /\
     (Sys.cache_write env = Sys.WriteTruncated ->
      Sys.cache_files run.2
      = <[Sys.cache_path year month sample_size := None]> (Sys.cache_files w) /\
      Sys.FailedToSaveCache ∈ Stages.printed w run.2)).
Proof.
  cbn zeta. split.
  - intros o. rewrite !LoaderFacts.load_all_data_staged. unfold Stages.staged.
    rewrite !ExecFacts.bind_eq.
    destruct (Stages.try_cache year month sample_size use_cache w) as [[[hit|]|] w1];
      [done| |done].
    apply LoaderFacts.recompute_any_write.
  - intros data Hmiss.
    destruct (SnapshotFacts.load_all_data_miss env year month sample_size use_cache w Hmiss)
      as (w1 & -> & _ & Hcache1 & _ & _ & msgs1 & Hout1).
    intros Hdata.
    pose proof (SnapshotFacts.recompute_cache env year month sample_size w1) as Hfiles.
    cbn zeta in Hfiles. rewrite Hdata in Hfiles. destruct Hfiles as [Hfiles Hsaid].
    assert (Hlater : Sys.cache_write env ≠ Sys.WriteDone ->
                     Sys.FailedToSaveCache
                       ∈ Stages.printed w (Stages.recompute env year month sample_size w1).2).
    { intros Hfail. specialize (Hsaid Hfail). unfold Stages.printed in *.
      rewrite Hout1, length_app, <- drop_drop in Hsaid.
      by apply (subseteq_drop (length msgs1)). }
    split; intros Hwrite; rewrite Hwrite in Hfiles; rewrite Hfiles, Hcache1;
      (split; [done|]); apply Hlater; by rewrite Hwrite.
Qed.

(** Witness of X22 *)
Lemma cache_write_failure_is_swallowed_witness :
  exists data,
    (Loader.load_all_data (Stages.with_cache_write Sys.WriteTruncated Fixture.online)
                          2023 1 50000 true Fixture.fresh_world).1
    = Exec.Ok (Some data) /\
    Sys.cache_files
      (Loader.load_all_data (Stages.with_cache_write Sys.WriteTruncated Fixture.online)
                            2023 1 50000 true Fixture.fresh_world).2
    = <[Sys.cache_path 2023 1 50000 := None]> (Sys.cache_files Fixture.fresh_world).
Proof.
  eexists. split; [vm_compute; reflexivity|].
  edestruct (cache_write_failure_is_swallowed
               (Stages.with_cache_write Sys.WriteTruncated Fixture.online)
               2023 1 50000 true Fixture.fresh_world) as [_ Hleft].
  edestruct Hleft as [_ Htrunc].
  - right. intros data H. vm_compute in H. discriminate H.
  - vm_compute. reflexivity.
  - apply Htrunc. reflexivity.
Defined.

(** * Snapshot files and the day order *)

Module PathFacts.
Import Sys.

(** The characters of a number in decimal. *)
Lemma pretty_N_go_chars (P : Ascii.ascii -> Prop) x s :
  (forall n, P (pretty_N_char n)) ->
  Forall P (String.list_ascii_of_string s) ->
  Forall P (String.list_ascii_of_string (pretty_N_go x s)).
Proof.
  intros Hdigit. revert s. induction (N.lt_wf_0 x) as [x _ IH]. intros s Hs.
  assert (x = 0 \/ 0 < x)%N as [->|Hpos] by lia.
  - by rewrite pretty_N_go_0.
  - rewrite pretty_N_go_step by done. apply IH.
    + by apply N.div_lt.
    + cbn. by constructor.
Qed.

Lemma pretty_Z_chars (P : Ascii.ascii -> Prop) (x : Z) :
  (forall n, P (pretty_N_char n)) -> P "-"%char ->
  Forall P (String.list_ascii_of_string (pretty x)).
Proof.
  intros Hdigit Hdash.
  assert (Hpos : forall p : positive, Forall P (String.list_ascii_of_string (pretty p))).
  { intros p. unfold pretty, pretty_positive, pretty, pretty_N.
    case_decide; [done|]. apply pretty_N_go_chars; [done|constructor]. }
  destruct x as [|p|p]; unfold pretty, pretty_Z.
  - cbn. constructor; [apply (Hdigit 0%N)|constructor].
  - apply Hpos.
  - change ("-" +:+ pretty p) with (String "-" (pretty p)). cbn. by constructor.
Qed.

Lemma pretty_Z_without (c : Ascii.ascii) (x : Z) :
  (forall n, pretty_N_char n ≠ c) -> "-"%char ≠ c ->
  c ∉ String.list_ascii_of_string (pretty x).
Proof.
  intros Hdigit Hdash Hin.
  pose proof (pretty_Z_chars (fun a => a ≠ c) x Hdigit Hdash) as Hall.
  rewrite Forall_forall in Hall. by apply (Hall c).
Qed.

Lemma digit_not (c : Ascii.ascii) :
  c ∉ String.list_ascii_of_string "0123456789" -> forall n, pretty_N_char n ≠ c.
Proof.
  intros Hc n <-. apply Hc. unfold pretty_N_char.
  repeat case_match; cbn; repeat first [apply list_elem_of_here | apply list_elem_of_further].
Qed.

(** Two strings cut at the first occurrence of a character. *)
Lemma split_at (c : Ascii.ascii) s1 s2 t1 t2 :
  c ∉ String.list_ascii_of_string s1 -> c ∉ String.list_ascii_of_string s2 ->
  s1 +:+ String c t1 = s2 +:+ String c t2 -> s1 = s2 /\ t1 = t2.
Proof.
  revert s2. induction s1 as [|a s1 IH]; intros [|b s2] H1 H2 Heq; cbn in *.
  - by injection Heq as ->.
  - injection Heq as -> _. exfalso. apply H2. left.
  - injection Heq as -> _. exfalso. apply H1. left.
  - injection Heq as -> Heq.
    destruct (IH s2) as [-> ->]; [| |done|done].
    + intros Hin. apply H1. by right.
    + intros Hin. apply H2. by right.
Qed.

Lemma fmt_02d_month m :
  1 <= m <= 12 ->
  fmt_02d m ∈ ["01"; "02"; "03"; "04"; "05"; "06"; "07"; "08"; "09"; "10"; "11"; "12"] /\
  "_"%char ∉ String.list_ascii_of_string (fmt_02d m).
Proof.
  intros Hm.
  assert (m = 1 \/ m = 2 \/ m = 3 \/ m = 4 \/ m = 5 \/ m = 6 \/ m = 7 \/ m = 8 \/ m = 9
          \/ m = 10 \/ m = 11 \/ m = 12) as Hcases by lia.
  repeat destruct Hcases as [->|Hcases]; try subst m;
    (split; [vm_compute; repeat first [apply list_elem_of_here | apply list_elem_of_further]
            |vm_compute; intros H;
             repeat (apply elem_of_cons in H as [H|H]; [discriminate H|]);
             by apply elem_of_nil in H]).
Qed.

Lemma fmt_02d_inj m m' :
  1 <= m <= 12 -> 1 <= m' <= 12 -> fmt_02d m = fmt_02d m' -> m = m'.
Proof.
  intros Hm Hm'.
  assert (m = 1 \/ m = 2 \/ m = 3 \/ m = 4 \/ m = 5 \/ m = 6 \/ m = 7 \/ m = 8 \/ m = 9
          \/ m = 10 \/ m = 11 \/ m = 12) as Hcases by lia.
  assert (m' = 1 \/ m' = 2 \/ m' = 3 \/ m' = 4 \/ m' = 5 \/ m' = 6 \/ m' = 7 \/ m' = 8
          \/ m' = 9 \/ m' = 10 \/ m' = 11 \/ m' = 12) as Hcases' by lia.
  repeat destruct Hcases as [->|Hcases]; try subst m;
    repeat destruct Hcases' as [->|Hcases']; try subst m';
    vm_compute; intros H; first [reflexivity | discriminate H].
Qed.

Lemma cache_path_inj year month sample_size year' month' sample_size' :
  1 <= month <= 12 -> 1 <= month' <= 12 ->
  cache_path year month sample_size = cache_path year' month' sample_size' ->
  year = year' /\ month = month' /\ sample_size = sample_size'.
Proof.
  intros Hm Hm' Heq. unfold cache_path in Heq.
  apply (inj (String.app "data/cache/taxi_data_")) in Heq.
  change ("_" +:+ ?s) with (String "_" s) in Heq.
  assert (Hnum : forall (c : Ascii.ascii) (x : Z),
             c ∉ String.list_ascii_of_string "0123456789" -> "-"%char ≠ c ->
             c ∉ String.list_ascii_of_string (pretty x)).
  { intros c x Hc Hdash. apply pretty_Z_without; [by apply digit_not | done]. }
  assert (Hus : "_"%char ∉ String.list_ascii_of_string "0123456789").
  { vm_compute. intros H.
    repeat (apply elem_of_cons in H as [H|H]; [discriminate H|]). by apply elem_of_nil in H. }
  assert (Hdot : "."%char ∉ String.list_ascii_of_string "0123456789").
  { vm_compute. intros H.
    repeat (apply elem_of_cons in H as [H|H]; [discriminate H|]). by apply elem_of_nil in H. }
  apply split_at in Heq as [Hy Heq]; [|by apply Hnum..].
  apply split_at in Heq as [Hmonth Heq]; [|by apply fmt_02d_month..].
  change (".pkl") with (String "." "pkl") in Heq.
  apply split_at in Heq as [Hs _]; [|by apply Hnum..].
  split_and!.
  - by apply (inj pretty).
  - by apply fmt_02d_inj.
  - by apply (inj pretty).
Qed.

End PathFacts.

Module KeyFacts.
Import Exec Sys Loader Stages ExecFacts LoaderFacts.

(** The only file under data/cache a load can change is its own. *)
Lemma load_all_data_other_files env year month sample_size use_cache w path :
  path ≠ cache_path year month sample_size ->
  cache_files (load_all_data env year month sample_size use_cache w).2 !! path
  = cache_files w !! path.
Proof.
  intros Hpath. rewrite load_all_data_staged. unfold staged. rewrite bind_eq.
  destruct (try_cache year month sample_size use_cache w) as [c w1] eqn:E.
  apply try_cache_spec in E as (hit & msgs & -> & _ & _ & Hcache & _).
  destruct hit as [data|]; [by cbn; rewrite Hcache|].
  destruct (recompute env year month sample_size w1) as [r w2] eqn:Er.
  apply recompute_spec in Er as (res & msgs2 & -> & _ & _ & Hnone & _ & Hsome).
  cbn [snd]. destruct res as [data|].
  - destruct (Hsome data eq_refl) as (_ & _ & _ & [->|[->| ->]] & _);
      rewrite ?lookup_insert_ne by done; by rewrite Hcache.
  - destruct (Hnone eq_refl) as [_ ->]. by rewrite Hcache.
Qed.

End KeyFacts.

Module DayFacts.
Import App.

Lemma index_of_lookup x xs i : index_of x xs = Some i -> xs !! i = Some x.
Proof.
  revert i. induction xs as [|y ys IH]; intros i; cbn; [done|].
  case_bool_decide as Hxy.
  - intros [= <-]. by subst.
  - destruct (index_of x ys) as [j|]; cbn; [|done]. intros [= <-]. by apply IH.
Qed.

Lemma index_of_elem x xs : x ∈ xs -> is_Some (index_of x xs).
Proof.
  induction xs as [|y ys IH]; cbn; [by intros ?%elem_of_nil|].
  intros Hin. case_bool_decide as Hxy; [by eexists|].
  apply elem_of_cons in Hin as [->|Hin]; [done|].
  destruct (IH Hin) as [j ->]. by eexists.
Qed.

Lemma index_of_miss x xs : x ∉ xs -> index_of x xs = None.
Proof.
  induction xs as [|y ys IH]; cbn; [done|].
  intros Hout. rewrite bool_decide_eq_false_2 by (intros ->; apply Hout; left).
  rewrite IH; [done|]. intros Hin. apply Hout. by right.
Qed.

Lemma day_name_known days : Calendar.day_name days ∈ day_order.
Proof.
  unfold Calendar.day_name.
  pose proof (Z.mod_pos_bound (days + 3) 7 ltac:(lia)) as Hr.
  assert ((days + 3) mod 7 = 0 \/ (days + 3) mod 7 = 1 \/ (days + 3) mod 7 = 2 \/
          (days + 3) mod 7 = 3 \/ (days + 3) mod 7 = 4 \/ (days + 3) mod 7 = 5 \/
          (days + 3) mod 7 = 6) as Hcases by lia.
  repeat destruct Hcases as [->|Hcases]; try rewrite Hcases; cbn;
    repeat first [apply list_elem_of_here | apply list_elem_of_further].
Qed.

End DayFacts.

(** X23.  The snapshot is keyed by the year, the month and the sample
    size: for months of the calendar, two loads share their snapshot file
    only when all three agree, and a load changes no snapshot file but its
    own. *)
Theorem snapshot_keyed_by_parameters
    (env : Sys.Env) (year month sample_size year' month' sample_size' : Z)
    (use_cache : bool) (w : Sys.World) :
  1 <= month <= 12 -> 1 <= month' <= 12 ->
  (Sys.cache_path year month sample_size = Sys.cache_path year' month' sample_size' ->
   year = year' /\ month = month' /\ sample_size = sample_size') /\
  (year ≠ year' \/ month ≠ month' \/ sample_size ≠ sample_size' ->
   Sys.cache_files (Loader.load_all_data env year month sample_size use_cache w).2
     !! Sys.cache_path year' month' sample_size'
   = Sys.cache_files w !! Sys.cache_path year' month' sample_size').
Proof.
  intros Hm Hm'. split; [by apply PathFacts.cache_path_inj|].
  intros Hne. apply KeyFacts.load_all_data_other_files.
  intros Heq. symmetry in Heq. apply PathFacts.cache_path_inj in Heq; [|done..].
  destruct Heq as (-> & -> & ->). by destruct Hne as [?|[?|?]].
Qed.

(** Witness of X23 *)
Lemma snapshot_keyed_by_parameters_witness :
  Sys.cache_files (Loader.load_all_data Fixture.online 2023 1 50000 true
                                        Fixture.stale_world).2
    !! Sys.cache_path 2023 1 1000
  = Sys.cache_files Fixture.stale_world !! Sys.cache_path 2023 1 1000.
Proof.
  apply (snapshot_keyed_by_parameters Fixture.online 2023 1 50000 2023 1 1000 true
           Fixture.stale_world); [lia | lia |].
  right. right. discriminate.
Defined.

(** X24.  The day order start-up adds to the hour by day table is the
    position of the row's day name in the list Monday to Sunday, and is
    missing for any other name.  Every day name the cleaning gives a row is
    in that list, so each hour by day row of a table of cleaned trips gets
    a position from 0 to 6; start-up changes nothing else of the
    aggregations. *)
Theorem day_order_of_every_row :
  (forall t : TimedRow, day_of_week (Clean.derive t) ∈ App.day_order) /\
  (forall agg : Agg.Tables,
     let agg' := App.add_day_order agg in
     Agg.daily agg' = Agg.daily agg /\ Agg.hourly agg' = Agg.hourly agg /\
     Agg.borough agg' = Agg.borough agg /\ Agg.payment agg' = Agg.payment agg /\
     Forall2 (fun h h' =>
                Agg.hd_hour h' = Agg.hd_hour h /\
                Agg.hd_day_of_week h' = Agg.hd_day_of_week h /\
                Agg.hd_trip_count h' = Agg.hd_trip_count h /\
                Agg.hd_avg_fare h' = Agg.hd_avg_fare h /\
                match Agg.hd_day_order h' with
                | Some i => App.day_order !! i = Some (Agg.hd_day_of_week h) /\ (i < 7)%nat
                | None => Agg.hd_day_of_week h ∉ App.day_order
                end)
             (Agg.hour_dow agg) (Agg.hour_dow agg')).
Proof.
  split; [intros t; apply DayFacts.day_name_known|].
  intros agg. unfold App.add_day_order.
  cbn [Agg.daily Agg.hourly Agg.borough Agg.payment Agg.hour_dow].
  split_and!; try done.
  apply Forall2_fmap_r, Forall_Forall2_diag, Forall_forall. intros h _.
  cbn [Agg.hd_hour Agg.hd_day_of_week Agg.hd_trip_count Agg.hd_avg_fare Agg.hd_day_order].
  split_and!; try done.
  destruct (App.index_of (Agg.hd_day_of_week h) App.day_order) as [i|] eqn:E.
  - apply DayFacts.index_of_lookup in E. split; [done|].
    apply lookup_lt_Some in E. cbn in E. lia.
  - intros Hin. apply DayFacts.index_of_elem in Hin. rewrite E in Hin. by destruct Hin.
Qed.

(** * The weather chart, and start-up from a snapshot *)

Module WeatherChartFacts.
Import Exec App Logic AppFacts.

Lemma rainy_split (rows : list TripRow) :
  (length (filter (fun r : TripRow => bool_decide (is_rainy r = Some false)) rows)
   + length (filter (fun r : TripRow => bool_decide (is_rainy r = Some true)) rows))%nat
  = length (filter (fun r : TripRow => is_Some (is_rainy r)) rows).
Proof.
  induction rows as [|r rows IH]; [done|].
  rewrite !filter_cons.
  destruct (is_rainy r) as [[|]|] eqn:E; cbn;
    repeat (case_decide; try (exfalso; by eauto using is_Some_None)); cbn; try lia.
  all: exfalso; match goal with H : ¬ is_Some (Some _) |- _ => apply H; by eexists end.
Qed.

Lemma weather_comparison_counts (rows : list TripRow) :
  sum_list ((fun c : bool * nat * Num.float * Num.float => c.1.1.2)
              <$> weather_comparison rows)
  = length (filter (fun r : TripRow => is_Some (is_rainy r)) rows) /\
  (weather_comparison rows).*1.*1.*1 `sublist_of` [false; true] /\
  Forall (fun c : bool * nat * Num.float * Num.float => (0 < c.1.1.2)%nat)
         (weather_comparison rows).
Proof.
  rewrite <- rainy_split. unfold weather_comparison.
  cbn [fmap list_fmap]. rewrite !filter_cons, filter_nil. cbn [snd fst].
  destruct (filter (fun r : TripRow => bool_decide (is_rainy r = Some false)) rows)
    as [|r0 clear], (filter (fun r : TripRow => bool_decide (is_rainy r = Some true)) rows)
    as [|r1 rainy]; cbn.
  all: repeat case_decide; try done; try (exfalso; tauto).
  all: split_and!; cbn;
    [ lia
    | repeat first [apply sublist_nil | apply sublist_skip | apply sublist_cons]
    | repeat (apply Forall_cons; split; [cbn; lia|]); apply Forall_nil ].
  all: exact I.
Qed.

Lemma update_weather_chart_rows rows s :
  (update_weather_chart (Some rows) s).1 = Ok (Some (weather_comparison rows)).
Proof.
  destruct (CallbackFacts.chart_on_rows weather_comparison rows s) as (a & s' & E & ->).
  unfold update_weather_chart. by rewrite E.
Qed.

End WeatherChartFacts.

Module StartFacts.
Import Exec Sys Loader Stages ExecFacts LoaderFacts.

Lemma startup_hit env w data :
  cache_files w !! cache_path 2023 1 50000 = Some (Some data) ->
  let run := App.startup env w in
  run.1 = Ok (App.Serving (App.mkGlobals (raw data)
                                         (App.add_day_order (aggregations data))
                                         (geojson data))) /\
  requests run.2 = requests w /\
  raw_files run.2 = raw_files w /\
  cache_files run.2 = cache_files w.
Proof.
  intros Hfile. cbn zeta. unfold App.startup. rewrite bind_eq.
  cbv beta iota delta [print modify]. rewrite bind_eq.
  match goal with
  | |- context [load_all_data env 2023 1 50000 true ?w1] =>
      destruct (load_all_data_hit env 2023 1 50000 w1 data Hfile)
        as (Hres & Hreq & Hraw & Hcache);
      destruct (load_all_data env 2023 1 50000 true w1) as [r w2]
  end.
  cbn in Hres, Hreq, Hraw, Hcache. subst r. cbn. done.
Qed.

End StartFacts.

(** X25.  The weather chart compares at most two groups, the clear rows
    before the rainy ones, and none without rows; rows whose rain flag is
    null are in neither, so the two counts add up to the number of rows of
    the store that have a rain flag, which is all of them when every row
    has its weather. *)
Theorem weather_chart_groups (rows : list TripRow) (s : App.Dash) :
  exists t,
    (App.update_weather_chart (Some rows) s).1 = Exec.Ok (Some t) /\
    t.*1.*1.*1 `sublist_of` [false; true] /\
    Forall (fun c : bool * nat * Num.float * Num.float => (0 < c.1.1.2)%nat) t /\
    sum_list ((fun c : bool * nat * Num.float * Num.float => c.1.1.2) <$> t)
    = length (filter (fun r : TripRow => is_Some (is_rainy r)) rows) /\
    (Forall (fun r : TripRow => has_weather r) rows ->
     sum_list ((fun c : bool * nat * Num.float * Num.float => c.1.1.2) <$> t)
     = length rows).
Proof.
  exists (App.weather_comparison rows).
  destruct (WeatherChartFacts.weather_comparison_counts rows) as (Hsum & Hkeys & Hpos).
  split_and!; [apply WeatherChartFacts.update_weather_chart_rows|done|done|done|].
  intros Hall. rewrite Hsum.
  assert (Hsame : filter (fun r : TripRow => is_Some (is_rainy r)) rows = rows).
  { clear -Hall. induction Hall as [|r rows' (_ & Hr & _) Hall IH]; [done|].
    rewrite filter_cons_True by exact Hr. by rewrite IH. }
  by rewrite Hsame.
Qed.

(** X26.  With a readable snapshot for January 2023 and 50000 rows on
    disk, start-up serves the dashboard from it: the trip table and the
    zone file are the snapshot's, the aggregations are the snapshot's with
    the day order added, no request is made and no file is changed. *)
Theorem startup_serves_snapshot (env : Sys.Env) (w : Sys.World) (data : Sys.Package) :
  Sys.cache_files w !! Sys.cache_path 2023 1 50000 = Some (Some data) ->
  let run := App.startup env w in
  run.1 = Exec.Ok (App.Serving (App.mkGlobals (Sys.raw data)
                                              (App.add_day_order (Sys.aggregations data))
                                              (Sys.geojson data))) /\
  Sys.requests run.2 = Sys.requests w /\
  Sys.raw_files run.2 = Sys.raw_files w /\
  Sys.cache_files run.2 = Sys.cache_files w.
Proof. apply StartFacts.startup_hit. Qed.

(** Witness of X26 *)
Lemma startup_serves_snapshot_witness :
  let first := Loader.load_all_data Fixture.online 2023 1 50000 true Fixture.fresh_world in
  exists data,
    Sys.cache_files first.2 !! Sys.cache_path 2023 1 50000 = Some (Some data) /\
    Sys.requests (App.startup Fixture.no_trips first.2).2 = Sys.requests first.2.
Proof.
  intros first. eexists. split; [vm_compute; reflexivity|].
  eapply (startup_serves_snapshot Fixture.no_trips first.2).
  vm_compute. reflexivity.
Defined.

(** * The properties on the sample data *)

Module Checks.
Import Exec Sys App Fixture.

(** ** Evaluations *)

Example sample_paths :
  raw_path 2023 1 = "data/raw/yellow_tripdata_2023-01.parquet" /\
  cache_path 2023 1 50000 = "data/cache/taxi_data_2023_01_50000.pkl".
Proof. by vm_compute. Qed.

Example sample_clean_keeps_four : length cleaned = 4%nat.
Proof. by vm_compute. Qed.

Example sample_rainy_weekdays :
  (fun r : TripRow => (date r, hour r, payment_type_name r))
    <$> match (filtered rainy_weekdays (boot trips)).1 with
        | Ok rows => rows
        | Raise => []
        end
  = [(19359, 18, "Cash"); (19359, 18, "Unknown")].
Proof. by vm_compute. Qed.

(** A slider value with one end makes the callback raise. *)
Example short_hour_range_raises :
  (update_filtered_data 19358 19364 [6] "all" (DStr "all") "all" (boot trips)).1 = Raise.
Proof. by vm_compute. Qed.

(** The store sees an assignment to a column of the global table: the
    frame property of the callbacks is not one of the store. *)
Example assignment_reaches_global :
  heap (set_column 1%positive (fun r => mkTrip r 0) (boot trips)).2 !! 1%positive
  ≠ Some trips.
Proof. vm_compute. intros H. discriminate H. Qed.

End Checks.

(** Witness of C2 *)
Lemma filters_commute_witness :
  reverse controls ≡ₚ controls /\
  Forall is_chart [App.RenderMetrics; App.RenderScatter] /\
  (exists out,
     (filtered_in_order Fixture.rainy_weekdays (reverse controls)
                        (App.interact Fixture.online [App.RenderHeatmap]
                                      (App.boot Fixture.trips))).1 = Exec.Ok out /\
     (App.update_filtered_data 19358 19364 [0; 23] "all" (App.DBool true) "weekday"
                               (App.interact Fixture.online [App.RenderHeatmap]
                                             (App.boot Fixture.trips))).1 = Exec.Ok out) /\
  (forall s,
     App.store (App.interact Fixture.online [App.RenderMetrics; App.RenderScatter] s)
     = App.store s).
Proof.
  split; [apply reverse_Permutation|].
  split; [repeat constructor|].
  destruct (filters_commute Fixture.online Fixture.trips [App.RenderHeatmap]
              19358 19364 0 23 [] "all" (App.DBool true) "weekday" (reverse controls)
              [App.RenderMetrics; App.RenderScatter]) as (Hsame & Hstore & _).
  - apply reverse_Permutation.
  - repeat constructor.
  - split; [exact Hsame | exact Hstore].
Defined.

(** Witness of C6 *)
Lemma cleaned_rows_in_ranges_witness :
  (exists r, head Fixture.cleaned = Some r /\ in_ranges r) /\
  (exists g w',
     App.startup Fixture.online Fixture.fresh_world = (Exec.Ok (App.Serving g), w') /\
     Forall (fun t : TripRow => in_ranges t) (App.g_taxi_df g) /\
     caches_in_ranges w').
Proof.
  destruct cleaned_rows_in_ranges as [Hclean Hserved]. split.
  - eexists. split; [vm_compute; reflexivity|].
    apply (Hclean Fixture.trips_file). vm_compute. constructor.
  - eexists _, _. split; [vm_compute; reflexivity|].
    apply (Hserved Fixture.online Fixture.fresh_world).
    + intros path data H. vm_compute in H. discriminate H.
    + vm_compute. reflexivity.
Defined.

(** Counterexample to C8: on the empty taxi table the weather table has no
    row, and the join raises instead of returning a table. *)
Lemma weather_join_raises_on_empty_table :
  exists w',
    Loader.generate_synthetic_weather Fixture.online [] Fixture.fresh_world
    = (Exec.Ok [], w') /\
    Merge.merge_weather_data [] [] = Exec.Raise.
Proof. eexists. split; [vm_compute; reflexivity | reflexivity]. Qed.

(** Witness of C8 *)
Lemma weather_join_total_witness :
  Fixture.zoned ≠ [] /\
  exists weather w' merged,
    Loader.generate_synthetic_weather Fixture.online Fixture.zoned Fixture.fresh_world
    = (Exec.Ok weather, w') /\
    Merge.merge_weather_data Fixture.zoned weather = Exec.Ok merged /\
    length merged = length Fixture.zoned /\
    Forall has_weather merged.
Proof.
  assert (Hne : Fixture.zoned ≠ []).
  { vm_compute. intros H. discriminate H. }
  split; [exact Hne|].
  destruct (weather_join_total Fixture.online Fixture.zoned Fixture.fresh_world)
    as (weather & w' & Hgen & _ & _ & Hjoin).
  destruct (Hjoin Hne) as (merged & Hmerge & Hlen & _ & Hcells).
  by exists weather, w', merged.
Defined.

(** Witness of C10 *)
Lemma enrichment_falls_back_witness :
  Clean.payment_name (Some 9) = "Unknown" /\
  Clean.payment_name None = "Unknown" /\
  (exists r, last Fixture.cleaned = Some r /\
             Zones.create_zone_lookup (Some Fixture.zones_file)
               !! Some (Zones.PNum (PULocationID r)) = None /\
             pickup_zone (Zones.enrich_row (Zones.create_zone_lookup (Some Fixture.zones_file)) r)
             = "Unknown" /\
             pickup_borough (Zones.enrich_row (Zones.create_zone_lookup (Some Fixture.zones_file)) r)
             = "Unknown").
Proof.
  destruct enrichment_falls_back as (Hpay & Hzone & _ & _).
  split_and!.
  - apply Hpay. intros c [= <-] H.
    repeat (apply elem_of_cons in H as [H|H]; [discriminate H|]).
    by apply elem_of_nil in H.
  - apply Hpay. intros c H. discriminate H.
  - eexists. split; [vm_compute; reflexivity|].
    split; [vm_compute; reflexivity|].
    apply Hzone. vm_compute. reflexivity.
Defined.

(** Counterexample to C3: the zone server does not answer, the loader
    prints its error, and start-up goes on to serve the dashboard. *)
Lemma zone_failure_keeps_serving :
  Sys.get_geojson Fixture.no_zones 1 Sys.geojson_url = None /\
  exists g w',
    App.startup Fixture.no_zones Fixture.fresh_world = (Exec.Ok (App.Serving g), w') /\
    Sys.ErrorLoadingGeoJSON ∈ Sys.stdout w' /\
    Sys.AppLoaded ∈ Sys.stdout w' /\
    App.g_geojson g = None /\
    length (App.g_taxi_df g) = 4%nat.
Proof.
  split; [reflexivity|].
  eexists _, _. split; [vm_compute; reflexivity|].
  split_and!; [|  |reflexivity|reflexivity].
  - vm_compute. repeat first [apply list_elem_of_here | apply list_elem_of_further].
  - vm_compute. repeat first [apply list_elem_of_here | apply list_elem_of_further].
Qed.

(** Witness of C3 *)
Lemma load_failure_outcomes_witness :
  no_snapshot 2023 1 50000 Fixture.fresh_world /\
  trip_file_fails Fixture.no_trips 2023 1 Fixture.fresh_world /\
  Sys.ErrorLoadingTaxiData
    ∈ Stages.printed Fixture.fresh_world
        (App.startup Fixture.no_trips Fixture.fresh_world).2 /\
  (App.startup Fixture.no_trips Fixture.fresh_world).1 = Exec.Ok (App.Exited 1).
Proof.
  assert (Hnone : no_snapshot 2023 1 50000 Fixture.fresh_world).
  { intros data H. vm_compute in H. discriminate H. }
  assert (Hfails : trip_file_fails Fixture.no_trips 2023 1 Fixture.fresh_world).
  { vm_compute. exact I. }
  destruct (load_failure_outcomes Fixture.no_trips Fixture.fresh_world _ _
              (surjective_pairing _)) as (_ & Hexit & _).
  destruct (Hexit Hnone Hfails) as [Hsaid Hout].
  by split_and!.
Defined.



